(** * void-cutter: synchronized silence detection and excision

    A shallow embedding of the Go packages [internal/audio] (the
    [AudioData] record, [GetFrameCount], [ApplyGain] and
    [ValidateAudioFiles]), [internal/loudness]
    ([calculateRMSWithBitDepth], [calculateTruePeakWithBitDepth]) and
    [internal/silence] ([DetectCommonSilence], [isChunkSilent],
    [createSilenceRegion], [CutSilenceRegions],
    [CutSilenceInMultipleFiles]), with the properties of the detection and
    excision engine stated over it.

    Conventions of the embedding.
    - Go [int] is the 64-bit two's-complement integer of the usual targets
      (amd64, arm64): a [Z] kept in range by [wrap64] after every [+], [-]
      and [*].
    - Go [float64] is IEEE 754 binary64: Rocq's primitive [float], whose
      operations round to nearest-even exactly as the hardware does.  No
      multiply-add fusion is modelled (the amd64 behaviour).
    - A slice is a [list]; slicing and [make] are bounds-checked and a
      failed check is the run-time panic of Go.
    - A [*AudioData] received by a single call is an [option AudioData]
      ([None] is [nil]) and the call returns the object as it leaves it;
      where a slice of pointers is processed, the objects live in a store
      indexed by address, so that two pointers to one object share its
      updates.
    - [math.Log10] is not part of the repository: the chunk classifier takes
      it as a parameter. *)

From Stdlib Require Import ZArith List Bool Lia String Sorted.
From Stdlib Require Import Floats.
Import ListNotations.

Local Open Scope Z_scope.

(** ** Outcomes of a Go call *)

(** A call returns a value, returns a non-nil [error], panics, or (for the
    one unbounded [for] loop of the detector) exceeds the iteration budget
    given to the model. *)
Inductive outcome (A : Type) : Type :=
| Returned (a : A)
| Failed (msg : string)
| Panicked
| OutOfFuel.

Arguments Returned {A} a.
Arguments Failed {A} msg.
Arguments Panicked {A}.
Arguments OutOfFuel {A}.

(** ** Go [int]: 64-bit wrap-around arithmetic *)

Module GoInt.

Definition min_int : Z := - 2 ^ 63.
Definition max_int : Z := 2 ^ 63 - 1.

Definition in_range (z : Z) : Prop := min_int <= z <= max_int.

(** Reduction of a mathematical integer to its two's-complement value. *)
Definition wrap64 (z : Z) : Z := (z + 2 ^ 63) mod 2 ^ 64 - 2 ^ 63.

Definition add (a b : Z) : Z := wrap64 (a + b).
Definition sub (a b : Z) : Z := wrap64 (a - b).
Definition mul (a b : Z) : Z := wrap64 (a * b).

End GoInt.

(** ** Go [float64] and its conversions *)

Module GoFloat.

(** [float64(n)] for an integer [n]: the nearest binary64, ties to even. *)
Definition of_int (z : Z) : float :=
  SF2Prim (binary_normalize prec emax z 0 false).

(** The integer part of a finite float (truncation toward zero); [None]
    for NaN and the infinities. *)
Definition trunc (f : float) : option Z :=
  match Prim2SF f with
  | S754_zero _ => Some 0
  | S754_finite s m e =>
      let mag := if 0 <=? e then Z.pos m * 2 ^ e
                 else Z.pos m / 2 ^ (- e) in
      Some (if s then - mag else mag)
  | S754_infinity _ | S754_nan => None
  end.

(** [int(f)]: truncation toward zero.  When the value does not fit an
    [int] the Go specification leaves the result to the implementation;
    amd64's conversion instruction yields the most negative integer,
    which is what is returned here. *)
Definition to_int (f : float) : Z :=
  match trunc f with
  | Some z => if (GoInt.min_int <=? z) && (z <=? GoInt.max_int) then z
              else GoInt.min_int
  | None => GoInt.min_int
  end.

End GoFloat.

(** ** Go [int32] *)

Module GoInt32.

Definition min_int32 : Z := - 2 ^ 31.
Definition max_int32 : Z := 2 ^ 31 - 1.

(** Reduction of a mathematical integer to its 32-bit two's-complement
    value. *)
Definition wrap32 (z : Z) : Z := (z + 2 ^ 31) mod 2 ^ 32 - 2 ^ 31.

(** Unary minus on [int32]. *)
Definition neg (a : Z) : Z := wrap32 (- a).

(** [int32(f)] for a [float64]: truncation toward zero; for a value that
    does not fit, the most negative [int32], as amd64 computes it. *)
Definition of_float (f : float) : Z :=
  match GoFloat.trunc f with
  | Some z => if (min_int32 <=? z) && (z <=? max_int32) then z else min_int32
  | None => min_int32
  end.

End GoInt32.

(** ** Slices of [int32] samples *)

Module Slice.

Definition len {A} (s : list A) : Z := Z.of_nat (List.length s).

(** [make([]int32, n)]: [n] zeroes; a negative length panics. *)
Definition make (n : Z) : option (list Z) :=
  if n <? 0 then None else Some (repeat 0 (Z.to_nat n)).

(** [s[:hi]] *)
Definition upto {A} (s : list A) (hi : Z) : option (list A) :=
  if (0 <=? hi) && (hi <=? len s) then Some (firstn (Z.to_nat hi) s)
  else None.

(** [s[lo:]] *)
Definition from {A} (s : list A) (lo : Z) : option (list A) :=
  if (0 <=? lo) && (lo <=? len s) then Some (skipn (Z.to_nat lo) s)
  else None.

(** [copy(dst, src)]: the first [min(len dst, len src)] elements of [src]
    overwrite those of [dst]; the value is the content of [dst] after the
    call. *)
Definition copy {A} (dst src : list A) : list A :=
  let n := Nat.min (List.length dst) (List.length src) in
  firstn n src ++ skipn n dst.

End Slice.

(** ** Package [audio] *)

Module audio.

(** [AudioData]: decoded PCM audio.  [Samples] holds [int32] values,
    interleaved across channels. *)
Record AudioData : Type := {
  Samples : list Z;
  SampleRate : Z;
  Channels : Z;
  BitDepth : Z;
  Duration : float;
  Filename : string
}.

(** [GetSampleCount] *)
Definition GetSampleCount (ad : AudioData) : Z := Slice.len (Samples ad).

(** [GetFrameCount]: samples per channel, [0] when there is no channel. *)
Definition GetFrameCount (ad : AudioData) : Z :=
  if Channels ad =? 0 then 0
  else GoInt.wrap64 (Z.quot (Slice.len (Samples ad)) (Channels ad)).

(** The [switch ad.BitDepth] of [ApplyGain]: the largest sample value. *)
Definition gainMaxValue (bitDepth : Z) : Z :=
  if bitDepth =? 16 then 32767
  else if bitDepth =? 24 then 8388607
  else if bitDepth =? 32 then 2147483647
  else 32767.

(** Body of the loop of [ApplyGain] for one sample: the new value of
    [ad.Samples[i]]. *)
Definition applyGainSample (maxValue : Z) (gain : float) (sample : Z) : Z :=
  let minValue := GoInt32.wrap32 (GoInt32.neg maxValue - 1) in
  let newSample := (GoFloat.of_int sample * gain)%float in
  if (GoFloat.of_int maxValue <? newSample)%float then maxValue
  else if (newSample <? GoFloat.of_int minValue)%float then minValue
  else GoInt32.of_float newSample.

(** [ApplyGain]: the audio data after the in-place update of its samples
    (the clipping count is only printed). *)
Definition ApplyGain (ad : AudioData) (gain : float) : AudioData :=
  {| Samples := map (applyGainSample (gainMaxValue (BitDepth ad)) gain) (Samples ad);
     SampleRate := SampleRate ad;
     Channels := Channels ad;
     BitDepth := BitDepth ad;
     Duration := Duration ad;
     Filename := Filename ad |}.

(** The errors of [ValidateAudioFiles], by the [fmt.Errorf] call that builds
    them, with the two files the message names. *)
Inductive ValidationError : Type :=
| NoAudioFiles
| SampleRateMismatch (audio reference : AudioData)
| ChannelMismatch (audio reference : AudioData)
| DurationDifference (audio reference : AudioData).

(** The loop [for i, audio := range audioFiles[1:]] of
    [ValidateAudioFiles]; [None] when it runs to its end. *)
Fixpoint validateAgainst (reference : AudioData) (others : list AudioData)
    : option ValidationError :=
  match others with
  | [] => None
  | audio :: rest =>
      if negb (SampleRate audio =? SampleRate reference) then
        Some (SampleRateMismatch audio reference)
      else if negb (Channels audio =? Channels reference) then
        Some (ChannelMismatch audio reference)
      else
        let durationDiff := (Duration audio - Duration reference)%float in
        let durationDiff :=
          if (durationDiff <? 0)%float then (- durationDiff)%float else durationDiff in
        if (1 <? durationDiff)%float then Some (DurationDifference audio reference)
        else validateAgainst reference rest
  end.

(** [ValidateAudioFiles]; [None] is the [nil] error.  The elements of
    [audioFiles] are non-nil pointers. *)
Definition ValidateAudioFiles (audioFiles : list AudioData) : option ValidationError :=
  match audioFiles with
  | [] => Some NoAudioFiles
  | reference :: others => validateAgainst reference others
  end.

End audio.

(** ** Package [loudness] *)

Module loudness.

(** The [switch bitDepth] of [calculateRMSWithBitDepth]. *)
Definition maxValue (bitDepth : Z) : float :=
  if bitDepth =? 16 then 32768%float
  else if bitDepth =? 24 then 8388608%float
  else if bitDepth =? 32 then 2147483648%float
  else 32768%float.

(** Body of the [for _, sample := range samples] loop: normalise, clamp
    to [-1, 1], accumulate the square. *)
Definition accumulate (maxValue sumSquares : float) (sample : Z) : float :=
  let normalized := (GoFloat.of_int sample / maxValue)%float in
  let normalized :=
    if (1 <? normalized)%float then 1%float
    else if (normalized <? -1)%float then (-1)%float
    else normalized in
  (sumSquares + normalized * normalized)%float.

(** [calculateRMSWithBitDepth] *)
Definition calculateRMSWithBitDepth (samples : list Z) (bitDepth : Z) : float :=
  if Slice.len samples =? 0 then 0%float
  else
    let sumSquares := fold_left (accumulate (maxValue bitDepth)) samples 0%float in
    PrimFloat.sqrt (sumSquares / GoFloat.of_int (Slice.len samples))%float.

(** The [switch bitDepth] of [calculateTruePeakWithBitDepth]. *)
Definition peakMaxValue (bitDepth : Z) : float :=
  if bitDepth =? 16 then 32767%float
  else if bitDepth =? 24 then 8388607%float
  else if bitDepth =? 32 then 2147483647%float
  else 32767%float.

(** Body of the loop that finds [maxAbsSample]; the negation is [int32]
    arithmetic. *)
Definition maxAbsStep (maxAbsSample sample : Z) : Z :=
  let absSample := if sample <? 0 then GoInt32.neg sample else sample in
  if absSample >? maxAbsSample then absSample else maxAbsSample.

(** [maxAbsSample] after the loop. *)
Definition maxAbsSampleOf (samples : list Z) : Z := fold_left maxAbsStep samples 0.

(** [calculateTruePeakWithBitDepth] *)
Definition calculateTruePeakWithBitDepth (samples : list Z) (bitDepth : Z) : float :=
  if Slice.len samples =? 0 then 0%float
  else
    let peak := (GoFloat.of_int (maxAbsSampleOf samples) / peakMaxValue bitDepth)%float in
    if (1 <? peak)%float then 1%float else peak.

End loudness.

(** ** Package [silence] *)

Module silence.

Import audio.

(** [SilenceRegion] *)
Record SilenceRegion : Type := {
  StartFrame : Z;
  EndFrame : Z;
  Duration : float;
  StartTime : float;
  EndTime : float
}.

(** [SilenceDetectionConfig] *)
Record SilenceDetectionConfig : Type := {
  ThresholdDBFS : float;
  MinDurationMs : Z;
  ChunkSizeMs : Z
}.

(** [DetectionResult] *)
Record DetectionResult : Type := {
  CommonSilenceRegions : list SilenceRegion;
  IndividualSilence : list (list SilenceRegion);
  TotalCommonSilence : float;
  AudioFiles : list AudioData;
  Config : SilenceDetectionConfig
}.

(** [CuttingResult] *)
Record CuttingResult : Type := {
  OriginalDuration : float;
  NewDuration : float;
  RemovedDuration : float;
  RegionsCut : list SilenceRegion;
  KeepDurationMs : Z;
  Filename : string
}.

(** [createSilenceRegion] *)
Definition createSilenceRegion (startFrame endFrame sampleRate : Z) : SilenceRegion :=
  let startTime := (GoFloat.of_int startFrame / GoFloat.of_int sampleRate)%float in
  let endTime := (GoFloat.of_int endFrame / GoFloat.of_int sampleRate)%float in
  let duration := (endTime - startTime)%float in
  {| StartFrame := startFrame;
     EndFrame := endFrame;
     Duration := duration;
     StartTime := startTime;
     EndTime := endTime |}.

(** *** The chunk classifier *)

(** The [switch audioData.BitDepth] of [isChunkSilent]. *)
Definition normalizationFactor (bitDepth : Z) : float :=
  if bitDepth =? 16 then 32768%float
  else if bitDepth =? 24 then 8388608%float
  else if bitDepth =? 32 then 2147483648%float
  else 32768%float.

(** The samples read by [for i := startSample; i < endSample; i++], in
    order.  [endSample] has been clamped to the slice length by the
    caller, so the only index that can fall outside the slice is a
    negative one, at the first iteration. *)
Definition chunkSamples (samples : list Z) (startSample endSample : Z) : option (list Z) :=
  if startSample <? endSample then
    if (startSample <? 0) || (Slice.len samples <? endSample) then None
    else Some (firstn (Z.to_nat (endSample - startSample))
                      (skipn (Z.to_nat startSample) samples))
  else Some [].

(** Body of that loop: normalise and accumulate the square (no clamp). *)
Definition accumulate (normalizationFactor sumSquares : float) (sample : Z) : float :=
  let normalized := (GoFloat.of_int sample / normalizationFactor)%float in
  (sumSquares + normalized * normalized)%float.

(** The part of [isChunkSilent] between the bounds test and the test of
    [sampleCount]: the pair [(sumSquares, sampleCount)], or [None] when
    an index panics. *)
Definition chunkEnergy (audioData : AudioData) (startFrame endFrame : Z) : option (float * Z) :=
  let channels := Channels audioData in
  let startSample := GoInt.mul startFrame channels in
  let endSample := GoInt.mul endFrame channels in
  let endSample :=
    if endSample >? Slice.len (Samples audioData) then Slice.len (Samples audioData)
    else endSample in
  let sampleCount := GoInt.sub endSample startSample in
  match chunkSamples (Samples audioData) startSample endSample with
  | None => None
  | Some chunk =>
      Some (fold_left (accumulate (normalizationFactor (BitDepth audioData))) chunk 0%float,
            sampleCount)
  end.

(** [rms := math.Sqrt(sumSquares / float64(sampleCount))] *)
Definition rmsOf (energy : float * Z) : float :=
  PrimFloat.sqrt (fst energy / GoFloat.of_int (snd energy))%float.

Section Classifier.

(** [math.Log10], from Go's standard library. *)
Variable Log10 : float -> float.

(** [isChunkSilent]; [None] is a panic. *)
Definition isChunkSilent (audioData : AudioData) (startFrame endFrame : Z)
    (thresholdDBFS : float) : option bool :=
  if (startFrame >=? endFrame) || (endFrame >? GetFrameCount audioData) then Some true
  else
    match chunkEnergy audioData startFrame endFrame with
    | None => None
    | Some energy =>
        if snd energy =? 0 then Some true
        else
          let rms := rmsOf energy in
          if (rms =? 0)%float then Some true
          else
            let rmsDBFS := (20 * Log10 rms)%float in
            Some (rmsDBFS <=? thresholdDBFS)%float
    end.

(** The inner [for _, audioData := range audioFiles] with its [break]:
    is the chunk silent in every file? *)
Fixpoint isCommonSilence (audioFiles : list AudioData) (frameStart frameEnd : Z)
    (thresholdDBFS : float) : option bool :=
  match audioFiles with
  | [] => Some true
  | audioData :: rest =>
      match isChunkSilent audioData frameStart frameEnd thresholdDBFS with
      | None => None
      | Some false => Some false
      | Some true => isCommonSilence rest frameStart frameEnd thresholdDBFS
      end
  end.

(** *** The common silence detector *)

(** The format check at the entry of [DetectCommonSilence]: does some
    file after the first differ from it in sample rate or channel
    count? *)
Definition formatMismatch (reference : AudioData) (others : list AudioData) : bool :=
  existsb (fun audio =>
             negb (SampleRate audio =? SampleRate reference)
             || negb (Channels audio =? Channels reference)) others.

(** [chunkFrames]: the chunk size in frames, at least [1]. *)
Definition chunkFramesOf (config : SilenceDetectionConfig) (reference : AudioData) : Z :=
  let chunkFrames :=
    GoInt.wrap64 (Z.quot (GoInt.mul (ChunkSizeMs config) (SampleRate reference)) 1000) in
  if chunkFrames =? 0 then 1 else chunkFrames.

(** [minFrames]: the frame count of the shortest file. *)
Definition minFramesOf (reference : AudioData) (others : list AudioData) : Z :=
  fold_left (fun minFrames audio =>
               if GetFrameCount audio <? minFrames then GetFrameCount audio
               else minFrames)
            others (GetFrameCount reference).

(** The gate on a closed candidate region. *)
Definition meetsMinDuration (config : SilenceDetectionConfig) (region : SilenceRegion) : bool :=
  (GoFloat.of_int (MinDurationMs config) / 1000 <=? Duration region)%float.

(** [commonSilenceRegions = append(commonSilenceRegions, silenceRegion)]
    under the gate. *)
Definition emit (config : SilenceDetectionConfig) (regions : list SilenceRegion)
    (region : SilenceRegion) : list SilenceRegion :=
  if meetsMinDuration config region then regions ++ [region] else regions.

(** The scanning loop
    [for frameStart := 0; frameStart < minFrames; frameStart += chunkFrames],
    started at [frameStart] with the current values of
    [currentSilenceStart] ([-1]: no candidate open) and
    [commonSilenceRegions].  [fuel] bounds the number of iterations. *)
Fixpoint scan (fuel : nat) (audioFiles : list AudioData) (config : SilenceDetectionConfig)
    (sampleRate minFrames chunkFrames : Z)
    (frameStart currentSilenceStart : Z) (commonSilenceRegions : list SilenceRegion)
    : outcome (Z * list SilenceRegion) :=
  if frameStart <? minFrames then
    match fuel with
    | O => OutOfFuel
    | S fuel' =>
        let frameEnd := GoInt.add frameStart chunkFrames in
        let frameEnd := if frameEnd >? minFrames then minFrames else frameEnd in
        match isCommonSilence audioFiles frameStart frameEnd (ThresholdDBFS config) with
        | None => Panicked
        | Some true =>
            let currentSilenceStart :=
              if currentSilenceStart =? -1 then frameStart else currentSilenceStart in
            scan fuel' audioFiles config sampleRate minFrames chunkFrames
                 (GoInt.add frameStart chunkFrames) currentSilenceStart commonSilenceRegions
        | Some false =>
            if negb (currentSilenceStart =? -1) then
              let silenceRegion :=
                createSilenceRegion currentSilenceStart frameStart sampleRate in
              scan fuel' audioFiles config sampleRate minFrames chunkFrames
                   (GoInt.add frameStart chunkFrames) (-1)
                   (emit config commonSilenceRegions silenceRegion)
            else
              scan fuel' audioFiles config sampleRate minFrames chunkFrames
                   (GoInt.add frameStart chunkFrames) currentSilenceStart commonSilenceRegions
        end
    end
  else Returned (currentSilenceStart, commonSilenceRegions).

(** The candidate still open when the scan ends is closed at
    [minFrames]. *)
Definition closeAtEnd (config : SilenceDetectionConfig) (sampleRate minFrames : Z)
    (currentSilenceStart : Z) (commonSilenceRegions : list SilenceRegion)
    : list SilenceRegion :=
  if negb (currentSilenceStart =? -1) then
    emit config commonSilenceRegions
         (createSilenceRegion currentSilenceStart minFrames sampleRate)
  else commonSilenceRegions.

(** [DetectCommonSilence].  The elements of [audioFiles] are non-nil
    pointers. *)
Definition DetectCommonSilence (fuel : nat) (audioFiles : list AudioData)
    (config : SilenceDetectionConfig) : outcome DetectionResult :=
  match audioFiles with
  | [] => Failed "no audio files provided"
  | reference :: others =>
      if formatMismatch reference others then
        Failed "all audio files must have the same sample rate and channel count"
      else
        let chunkFrames := chunkFramesOf config reference in
        let minFrames := minFramesOf reference others in
        match scan fuel audioFiles config (SampleRate reference) minFrames chunkFrames
                   0 (-1) [] with
        | Returned (currentSilenceStart, commonSilenceRegions) =>
            let commonSilenceRegions :=
              closeAtEnd config (SampleRate reference) minFrames
                         currentSilenceStart commonSilenceRegions in
            let totalCommonSilence :=
              fold_left (fun total region => (total + Duration region)%float)
                        commonSilenceRegions 0%float in
            Returned {| CommonSilenceRegions := commonSilenceRegions;
                        IndividualSilence := [];
                        TotalCommonSilence := totalCommonSilence;
                        AudioFiles := audioFiles;
                        Config := config |}
        | Failed msg => Failed msg
        | Panicked => Panicked
        | OutOfFuel => OutOfFuel
        end
  end.

End Classifier.

(** *** The region excisor *)

(** State of the loop of [CutSilenceRegions].  [cutTrace] is a ghost
    field: the value of [actualCutSamples] at every cut made so far, most
    recent first. *)
Record cut_state : Type := {
  modifiedSamples : list Z;
  regionsCut : list SilenceRegion;
  totalRemovedDuration : float;
  cutTrace : list Z
}.

(** [keepDurationSec] *)
Definition keepDurationSecOf (keepDurationMs : Z) : float :=
  (GoFloat.of_int keepDurationMs / 1000)%float.

(** [cutFrames] *)
Definition cutFramesOf (audioData : AudioData) (keepDurationSec : float)
    (region : SilenceRegion) : Z :=
  let cutDuration := (Duration region - keepDurationSec)%float in
  GoFloat.to_int (cutDuration * GoFloat.of_int (SampleRate audioData))%float.

(** [cutSamples] *)
Definition cutSamplesOf (audioData : AudioData) (keepDurationSec : float)
    (region : SilenceRegion) : Z :=
  GoInt.mul (cutFramesOf audioData keepDurationSec region) (Channels audioData).

(** [int(keepDurationSec*float64(audioData.SampleRate))] *)
Definition keepFramesOf (audioData : AudioData) (keepDurationSec : float) : Z :=
  GoFloat.to_int (keepDurationSec * GoFloat.of_int (SampleRate audioData))%float.

(** [keepSamples], as first computed (its reassignment in the fallback
    branch is never read). *)
Definition keepSamplesOf (audioData : AudioData) (keepDurationSec : float) : Z :=
  GoInt.mul (keepFramesOf audioData keepDurationSec) (Channels audioData).

(** [startSample], after the clamp to [0]. *)
Definition startSampleOf (audioData : AudioData) (region : SilenceRegion) : Z :=
  let startSample := GoInt.mul (StartFrame region) (Channels audioData) in
  if startSample <? 0 then 0 else startSample.

(** [endSample], after the clamp to the current length [n] of
    [modifiedSamples]. *)
Definition endSampleOf (audioData : AudioData) (region : SilenceRegion) (n : Z) : Z :=
  let endSample := GoInt.mul (EndFrame region) (Channels audioData) in
  if endSample >? n then n else endSample.

(** [cutStartSample], after the fallback taken when it exceeds
    [endSample]. *)
Definition cutStartSampleOf (audioData : AudioData) (keepDurationSec : float)
    (region : SilenceRegion) (n : Z) : Z :=
  let startSample := startSampleOf audioData region in
  let endSample := endSampleOf audioData region n in
  let cutStartSample := GoInt.add startSample (keepSamplesOf audioData keepDurationSec) in
  if cutStartSample >? endSample then startSample else cutStartSample.

(** [actualCutSamples] *)
Definition actualCutSamplesOf (cutStartSample endSample cutSamples : Z) : Z :=
  let actualCutSamples := GoInt.sub endSample cutStartSample in
  if actualCutSamples >? cutSamples then cutSamples else actualCutSamples.

(** The new slice without the cut samples:
    [newSamples := make([]int32, len(modifiedSamples)-actualCutSamples)]
    followed by the two [copy] calls.  The slice expressions alias
    [newSamples], so each [copy] overwrites a window of it. *)
Definition splice (modifiedSamples : list Z) (cutStartSample actualCutSamples : Z)
    : option (list Z) :=
  match Slice.make (GoInt.sub (Slice.len modifiedSamples) actualCutSamples) with
  | None => None
  | Some newSamples =>
      match Slice.upto newSamples cutStartSample,
            Slice.upto modifiedSamples cutStartSample with
      | Some dst, Some src =>
          let newSamples :=
            Slice.copy dst src ++ skipn (Z.to_nat cutStartSample) newSamples in
          match Slice.from newSamples cutStartSample,
                Slice.from modifiedSamples (GoInt.add cutStartSample actualCutSamples) with
          | Some dst', Some src' =>
              Some (firstn (Z.to_nat cutStartSample) newSamples ++ Slice.copy dst' src')
          | _, _ => None
          end
      | _, _ => None
      end
  end.

(** One iteration of the loop of [CutSilenceRegions], for [region];
    [None] is a panic. *)
Definition cutRegion (audioData : AudioData) (keepDurationSec : float)
    (st : cut_state) (region : SilenceRegion) : option cut_state :=
  if (Duration region <=? keepDurationSec)%float then Some st
  else
    let cutSamples := cutSamplesOf audioData keepDurationSec region in
    let n := Slice.len (modifiedSamples st) in
    let endSample := endSampleOf audioData region n in
    let cutStartSample := cutStartSampleOf audioData keepDurationSec region n in
    if (cutStartSample <? endSample) && (cutSamples >? 0) then
      let actualCutSamples := actualCutSamplesOf cutStartSample endSample cutSamples in
      match splice (modifiedSamples st) cutStartSample actualCutSamples with
      | None => None
      | Some newSamples =>
          let actualCutDuration :=
            (GoFloat.of_int actualCutSamples / GoFloat.of_int (SampleRate audioData)
             / GoFloat.of_int (Channels audioData))%float in
          Some {| modifiedSamples := newSamples;
                  regionsCut := region :: regionsCut st;
                  totalRemovedDuration := (totalRemovedDuration st + actualCutDuration)%float;
                  cutTrace := actualCutSamples :: cutTrace st |}
      end
    else Some st.

(** The loop [for i := len(silenceRegions) - 1; i >= 0; i--], over the
    regions still to be processed, last first. *)
Fixpoint cutLoop (audioData : AudioData) (keepDurationSec : float)
    (reversed : list SilenceRegion) (st : cut_state) : option cut_state :=
  match reversed with
  | [] => Some st
  | region :: earlier =>
      match cutRegion audioData keepDurationSec st region with
      | None => None
      | Some st' => cutLoop audioData keepDurationSec earlier st'
      end
  end.

(** The clone of the samples followed by the loop. *)
Definition cutPass (audioData : AudioData) (silenceRegions : list SilenceRegion)
    (keepDurationMs : Z) : option cut_state :=
  match Slice.make (Slice.len (Samples audioData)) with
  | None => None
  | Some fresh =>
      cutLoop audioData (keepDurationSecOf keepDurationMs) (rev silenceRegions)
              {| modifiedSamples := Slice.copy fresh (Samples audioData);
                 regionsCut := [];
                 totalRemovedDuration := 0%float;
                 cutTrace := [] |}
  end.

(** [CutSilenceRegions].  [audioData] is a pointer: [None] is [nil].  The
    value returned pairs the audio data as mutated through the pointer
    with the [CuttingResult]. *)
Definition CutSilenceRegions (audioData : option AudioData)
    (silenceRegions : list SilenceRegion) (keepDurationMs : Z)
    : outcome (AudioData * CuttingResult) :=
  match audioData with
  | None => Failed "audio data is nil"
  | Some ad =>
      let originalDuration := audio.Duration ad in
      match cutPass ad silenceRegions keepDurationMs with
      | None => Panicked
      | Some st =>
          let newDuration :=
            (GoFloat.of_int (Slice.len (modifiedSamples st))
             / GoFloat.of_int (SampleRate ad) / GoFloat.of_int (Channels ad))%float in
          Returned ({| Samples := modifiedSamples st;
                       SampleRate := SampleRate ad;
                       Channels := Channels ad;
                       BitDepth := BitDepth ad;
                       audio.Duration := newDuration;
                       audio.Filename := audio.Filename ad |},
                    {| OriginalDuration := originalDuration;
                       NewDuration := newDuration;
                       RemovedDuration := totalRemovedDuration st;
                       RegionsCut := regionsCut st;
                       KeepDurationMs := keepDurationMs;
                       Filename := audio.Filename ad |})
      end
  end.

(** ** Pointers to audio data *)

(** [CutSilenceRegions] writes [audioData.Samples] and [audioData.Duration]
    through its pointer, and [CutSilenceInMultipleFiles] receives a slice
    of such pointers, which may name the same object more than once.  The
    store maps an address to the audio data held there; a pointer is [nil]
    ([None]) or an address. *)
Definition store : Type := nat -> AudioData.

Definition pointer : Type := option nat.

(** [*p], for the callee that tests [p == nil] itself. *)
Definition load (objects : store) (p : pointer) : option AudioData :=
  option_map objects p.

(** The store after an assignment to the object at [address]. *)
Definition write (objects : store) (address : nat) (ad : AudioData) : store :=
  fun other => if Nat.eqb other address then ad else objects other.

(** The store after the writes of a call that received [p] and left the
    object as [ad]. *)
Definition writeThrough (objects : store) (p : pointer) (ad : AudioData) : store :=
  match p with
  | Some address => write objects address ad
  | None => objects
  end.

(** The loop of [CutSilenceInMultipleFiles] over the pointers still to be
    processed: each call of [CutSilenceRegions] reads the object as the
    calls before it left it, and its writes are seen by the calls after
    it.  [CutSilenceRegions] fails only for a [nil] pointer, and the error
    message is then built from [audioData.Filename]: a [nil] dereference,
    hence a panic. *)
Fixpoint cutEach (objects : store) (audioFiles : list pointer)
    (silenceRegions : list SilenceRegion) (keepDurationMs : Z)
    : outcome (store * list CuttingResult) :=
  match audioFiles with
  | [] => Returned (objects, [])
  | audioData :: rest =>
      match CutSilenceRegions (load objects audioData) silenceRegions keepDurationMs with
      | Returned (mutated, result) =>
          match cutEach (writeThrough objects audioData mutated) rest
                        silenceRegions keepDurationMs with
          | Returned (objects', results) => Returned (objects', result :: results)
          | Failed msg => Failed msg
          | Panicked => Panicked
          | OutOfFuel => OutOfFuel
          end
      | Failed msg =>
          match load objects audioData with
          | None => Panicked
          | Some ad =>
              Failed ("failed to cut silence in " ++ audio.Filename ad ++ ": " ++ msg)
          end
      | Panicked => Panicked
      | OutOfFuel => OutOfFuel
      end
  end.

(** [CutSilenceInMultipleFiles]: the store as the calls leave it, and a
    result per pointer. *)
Definition CutSilenceInMultipleFiles (objects : store) (audioFiles : list pointer)
    (silenceRegions : list SilenceRegion) (keepDurationMs : Z)
    : outcome (store * list CuttingResult) :=
  if Slice.len audioFiles =? 0 then Failed "no audio files provided"
  else cutEach objects audioFiles silenceRegions keepDurationMs.

End silence.

(** ** Vocabulary of the statements *)

Import audio silence.

(** Sum of a list of integers. *)
Definition sumZ (l : list Z) : Z := fold_right Z.add 0 l.

(** The sample indices of [region] and its [cutSamples] are computed
    without wrap-around. *)
Definition noOverflow (ad : AudioData) (keepDurationSec : float)
    (region : SilenceRegion) : Prop :=
  GoInt.in_range (StartFrame region * Channels ad)
  /\ GoInt.in_range (EndFrame region * Channels ad)
  /\ GoInt.in_range (cutFramesOf ad keepDurationSec region * Channels ad)
  /\ startSampleOf ad region + keepSamplesOf ad keepDurationSec
     <= GoInt.max_int.

(** The Energy Analyzer as the specification words it: each sample is
    divided by the full-scale value [2^(bit_depth-1)] (16-bit semantics for
    a bit depth other than 16, 24 or 32), clamped to [-1, 1], then
    squared. *)
Definition spec_fullScale (bitDepth : Z) : float :=
  if (bitDepth =? 16) || (bitDepth =? 24) || (bitDepth =? 32)
  then GoFloat.of_int (2 ^ (bitDepth - 1))
  else GoFloat.of_int (2 ^ 15).

Definition spec_clamp (x : float) : float :=
  if (1 <? x)%float then 1%float else if (x <? -1)%float then (-1)%float else x.

Definition spec_sumSquares (bitDepth : Z) (samples : list Z) : float :=
  fold_left (fun sum sample =>
               let x := spec_clamp (GoFloat.of_int sample / spec_fullScale bitDepth) in
               (sum + x * x)%float)
            samples 0%float.

(** [a] ends before [b] starts. *)
Definition precedes (a b : SilenceRegion) : Prop :=
  EndFrame a <= StartFrame b.

(** Invariant of the scanning loop at the head of an iteration: the
    candidate, when one is open, started at an earlier chunk inside the
    analysed span; the regions emitted so far are non-empty frame ranges,
    each ending before the next starts and all ending at or before the
    candidate (or the current chunk when no candidate is open). *)
Definition scanInv (minFrames frameStart currentSilenceStart : Z)
    (regions : list SilenceRegion) : Prop :=
  0 <= frameStart
  /\ (currentSilenceStart = -1
      \/ (0 <= currentSilenceStart < frameStart /\ currentSilenceStart < minFrames))
  /\ StronglySorted precedes regions
  /\ Forall (fun r => 0 <= StartFrame r < EndFrame r
                      /\ EndFrame r
                         <= (if currentSilenceStart =? -1 then frameStart
                             else currentSilenceStart))
            regions.

(** The state after a cut of [a] samples at [c]. *)
Definition afterCut (ad : AudioData) (st : cut_state) (r : SilenceRegion) (c a : Z)
    : cut_state :=
  {| modifiedSamples :=
       firstn (Z.to_nat c) (modifiedSamples st)
       ++ skipn (Z.to_nat (c + a)) (modifiedSamples st);
     regionsCut := r :: regionsCut st;
     totalRemovedDuration :=
       (totalRemovedDuration st
        + GoFloat.of_int a / GoFloat.of_int (SampleRate ad)
          / GoFloat.of_int (Channels ad))%float;
     cutTrace := a :: cutTrace st |}.

(** What one iteration does: nothing; or a panic, at a negative cut start;
    or the removal of [min (endSample - cutStartSample) cutSamples] samples
    from [cutStartSample] on. *)
Inductive iteration (ad : AudioData) (k : float) (st : cut_state)
    (r : SilenceRegion) : option cut_state -> Prop :=
| it_keep : iteration ad k st r (Some st)
| it_panic :
    cutStartSampleOf ad k r (Slice.len (modifiedSamples st)) < 0 ->
    cutStartSampleOf ad k r (Slice.len (modifiedSamples st))
      < endSampleOf ad r (Slice.len (modifiedSamples st)) ->
    0 < cutSamplesOf ad k r ->
    iteration ad k st r None
| it_cut (c e a : Z) :
    c = cutStartSampleOf ad k r (Slice.len (modifiedSamples st)) ->
    e = endSampleOf ad r (Slice.len (modifiedSamples st)) ->
    a = Z.min (e - c) (cutSamplesOf ad k r) ->
    (Duration r <=? k)%float = false ->
    0 <= c -> c < e -> 0 < a ->
    iteration ad k st r (Some (afterCut ad st r c a)).

(** [Sublist l1 l2]: [l1] is [l2] with some elements left out, the others
    in the same order. *)
Inductive Sublist {A : Type} : list A -> list A -> Prop :=
| Sublist_nil : Sublist [] []
| Sublist_skip (x : A) (l1 l2 : list A) : Sublist l1 l2 -> Sublist l1 (x :: l2)
| Sublist_keep (x : A) (l1 l2 : list A) : Sublist l1 l2 -> Sublist (x :: l1) (x :: l2).

(** The frame range of [r] is well formed and its samples, [ch] per frame,
    lie inside a slice of [n] samples. *)
Definition inside (ch n : Z) (r : SilenceRegion) : Prop :=
  0 <= StartFrame r <= EndFrame r /\ EndFrame r * ch <= n.

(** Two loop states of the excisor agree on everything but the samples. *)
Definition synced (st1 st2 : cut_state) : Prop :=
  regionsCut st1 = regionsCut st2
  /\ totalRemovedDuration st1 = totalRemovedDuration st2
  /\ cutTrace st1 = cutTrace st2.

(** The verdict of the detector on the chunk that starts at frame [f]:
    [isCommonSilence] on [f, min (f + chunkFrames) minFrames). *)
Definition chunkVerdict (Log10 : float -> float) (files : list AudioData)
    (threshold : float) (minFrames chunkFrames f : Z) : option bool :=
  isCommonSilence Log10 files f
    (if f + chunkFrames >? minFrames then minFrames else f + chunkFrames) threshold.

(** Every chunk that starts in [s, e) is silent in all files. *)
Definition silentRun (Log10 : float -> float) (files : list AudioData)
    (threshold : float) (minFrames chunkFrames s e : Z) : Prop :=
  forall f, s <= f < e -> (chunkFrames | f) ->
            chunkVerdict Log10 files threshold minFrames chunkFrames f = Some true.

(** [s] is the start of the scan or follows a chunk that is not silent. *)
Definition opensRun (Log10 : float -> float) (files : list AudioData)
    (threshold : float) (minFrames chunkFrames s : Z) : Prop :=
  s = 0
  \/ chunkVerdict Log10 files threshold minFrames chunkFrames (s - chunkFrames) = Some false.

(** What the scan establishes for a region it emits: a non-empty range of
    whole chunks inside the analysed span, all silent, that starts where a
    run of silent chunks starts and ends where it ends. *)
Definition maximalRun (Log10 : float -> float) (files : list AudioData)
    (threshold : float) (minFrames chunkFrames : Z) (r : SilenceRegion) : Prop :=
  0 <= StartFrame r < EndFrame r
  /\ EndFrame r <= minFrames
  /\ (chunkFrames | StartFrame r)
  /\ ((chunkFrames | EndFrame r) \/ EndFrame r = minFrames)
  /\ silentRun Log10 files threshold minFrames chunkFrames (StartFrame r) (EndFrame r)
  /\ opensRun Log10 files threshold minFrames chunkFrames (StartFrame r)
  /\ (EndFrame r < minFrames ->
      chunkVerdict Log10 files threshold minFrames chunkFrames (EndFrame r) = Some false).

(** Invariant of the scan that carries [maximalRun]. *)
Definition scanRuns (Log10 : float -> float) (files : list AudioData)
    (threshold : float) (minFrames chunkFrames : Z)
    (frameStart currentSilenceStart : Z) (regions : list SilenceRegion) : Prop :=
  0 <= frameStart
  /\ (chunkFrames | frameStart)
  /\ ((currentSilenceStart = -1
       /\ opensRun Log10 files threshold minFrames chunkFrames frameStart)
      \/ (0 <= currentSilenceStart < frameStart
          /\ currentSilenceStart < minFrames
          /\ (chunkFrames | currentSilenceStart)
          /\ silentRun Log10 files threshold minFrames chunkFrames
                       currentSilenceStart frameStart
          /\ opensRun Log10 files threshold minFrames chunkFrames currentSilenceStart))
  /\ Forall (maximalRun Log10 files threshold minFrames chunkFrames) regions.

(** The integer part of the magnitude [m * 2^e] of a finite float, as
    [GoFloat.trunc] computes it. *)
Definition magnitude (m : positive) (e : Z) : Z :=
  if 0 <=? e then Z.pos m * 2 ^ e else Z.pos m / 2 ^ (- e).

(** [(m, e)] is the normalised binary64 mantissa and exponent of the
    positive integer [B]. *)
Definition encodes (m : positive) (e B : Z) : Prop :=
  2 ^ 52 <= Z.pos m /\ e <= 0 /\ Z.pos m = B * 2 ^ (- e).

(** ** Concrete inputs *)

(** A buffer with the given samples and format. *)
Definition buffer (samples : list Z) (sampleRate channels bitDepth : Z) : AudioData :=
  {| Samples := samples;
     SampleRate := sampleRate;
     Channels := channels;
     BitDepth := bitDepth;
     audio.Duration :=
       (GoFloat.of_int (Slice.len samples) / GoFloat.of_int sampleRate
        / GoFloat.of_int channels)%float;
     audio.Filename := "track.wav" |}.

(** The samples [1; 2; ...; n]. *)
Definition ramp (n : nat) : list Z := map Z.of_nat (seq 1 n).

(** A region with the given frame indices and duration. *)
Definition regionOf (startFrame endFrame : Z) (duration : float) : SilenceRegion :=
  {| StartFrame := startFrame;
     EndFrame := endFrame;
     Duration := duration;
     StartTime := 0%float;
     EndTime := duration |}.

(** Forty mono frames: a tone, twenty frames of digital silence, a tone. *)
Definition toneWithGap : list Z := repeat 1000 10 ++ repeat 0 20 ++ repeat 1000 10.

(** Two tracks with the same gap, at 1000 Hz. *)
Definition gapTracks : list AudioData :=
  [buffer toneWithGap 1000 1 16; buffer toneWithGap 1000 1 16].

(** Threshold -50 dBFS, minimum duration 15 ms, chunks of 10 ms. *)
Definition gapConfig : SilenceDetectionConfig :=
  {| ThresholdDBFS := (-50)%float;
     MinDurationMs := 15;
     ChunkSizeMs := 10 |}.

(** The detection result expected on [gapTracks]: the gap alone. *)
Definition gapResult : DetectionResult :=
  {| CommonSilenceRegions := [createSilenceRegion 10 30 1000];
     IndividualSilence := [];
     TotalCommonSilence :=
       (0 + Duration (createSilenceRegion 10 30 1000))%float;
     AudioFiles := gapTracks;
     Config := gapConfig |}.

(** A stand-in for [math.Log10] that puts every non-zero level at 0 dBFS. *)
Definition flatLog10 (x : float) : float := 0%float.

(** A store with two different tracks that share the gap of [toneWithGap],
    at addresses 0 and 1; the second track is five frames longer. *)
Definition gapStore : store :=
  fun address =>
    match address with
    | O => buffer toneWithGap 1000 1 16
    | S O => buffer (repeat 500 10 ++ repeat 0 20 ++ repeat 700 15) 1000 1 16
    | _ => buffer [] 1000 1 16
    end.

(** Six and seven mono frames with two stretches of digital silence, at
    frames 0..1 and 3..5 of both. *)
Definition twoGapTracks : list AudioData :=
  [buffer [0; 0; 1000; 0; 0; 0] 1000 1 16; buffer [0; 0; 500; 0; 0; 0; 700] 1000 1 16].

(** Threshold -50 dBFS, minimum duration 2 ms, chunks of 1 ms. *)
Definition twoGapConfig : SilenceDetectionConfig :=
  {| ThresholdDBFS := (-50)%float;
     MinDurationMs := 2;
     ChunkSizeMs := 1 |}.

(** * Properties *)

(** ** Integer layer *)

Lemma wrap64_range (z : Z) : GoInt.in_range (GoInt.wrap64 z).
Proof.
  unfold GoInt.in_range, GoInt.wrap64, GoInt.min_int, GoInt.max_int.
  pose proof (Z.mod_pos_bound (z + 2 ^ 63) (2 ^ 64) ltac:(lia)). lia.
Qed.

Lemma wrap64_id (z : Z) : GoInt.in_range z -> GoInt.wrap64 z = z.
Proof.
  unfold GoInt.in_range, GoInt.wrap64, GoInt.min_int, GoInt.max_int. intros H.
  rewrite Z.mod_small; lia.
Qed.

Lemma len_nonneg {A} (s : list A) : 0 <= Slice.len s.
Proof. unfold Slice.len. lia. Qed.

(** ** Slices *)

Lemma copy_same_length {A} (dst src : list A) :
  List.length dst = List.length src -> Slice.copy dst src = src.
Proof.
  intros H. unfold Slice.copy. rewrite H, Nat.min_id.
  rewrite firstn_all, <- H, skipn_all. apply app_nil_r.
Qed.

Lemma make_len {A} (s : list A) :
  Slice.make (Slice.len s) = Some (repeat 0 (List.length s)).
Proof.
  unfold Slice.make. pose proof (len_nonneg s).
  destruct (Z.ltb_spec (Slice.len s) 0); [lia|].
  unfold Slice.len. now rewrite Nat2Z.id.
Qed.

(** Within bounds the two copies of [splice] produce the samples before the
    cut followed by the samples after it. *)
Lemma splice_in_bounds (m : list Z) (c a : Z) :
  0 <= c -> 0 <= a -> c + a <= Slice.len m -> Slice.len m <= GoInt.max_int ->
  splice m c a = Some (firstn (Z.to_nat c) m ++ skipn (Z.to_nat (c + a)) m).
Proof.
  intros Hc Ha Hca Hmax. unfold splice, GoInt.sub, GoInt.add.
  rewrite !wrap64_id
    by (unfold GoInt.in_range, GoInt.min_int, GoInt.max_int in *; lia).
  unfold Slice.make. destruct (Z.ltb_spec (Slice.len m - a) 0) as [|_]; [lia|].
  set (fresh := repeat 0 (Z.to_nat (Slice.len m - a))).
  assert (Hfresh : List.length fresh = Z.to_nat (Slice.len m - a))
    by apply repeat_length.
  assert (Hm : List.length m = Z.to_nat (Slice.len m))
    by (unfold Slice.len; now rewrite Nat2Z.id).
  unfold Slice.upto, Slice.from.
  assert (Hlf : Slice.len fresh = Slice.len m - a)
    by (unfold Slice.len at 1; rewrite Hfresh; lia).
  rewrite Hlf.
  destruct (Z.leb_spec 0 c); [|lia].
  destruct (Z.leb_spec c (Slice.len m - a)); [|lia].
  destruct (Z.leb_spec c (Slice.len m)); [|lia].
  cbn [andb].
  rewrite (copy_same_length (firstn (Z.to_nat c) fresh) (firstn (Z.to_nat c) m))
    by (rewrite !length_firstn; lia).
  set (new1 := firstn (Z.to_nat c) m ++ skipn (Z.to_nat c) fresh).
  assert (Hl1 : List.length (firstn (Z.to_nat c) m) = Z.to_nat c)
    by (rewrite length_firstn; lia).
  assert (Hnew1 : Slice.len new1 = Slice.len m - a).
  { unfold Slice.len at 1. unfold new1.
    rewrite length_app, Hl1, length_skipn, Hfresh. lia. }
  rewrite Hnew1.
  destruct (Z.leb_spec c (Slice.len m - a)); [|lia].
  destruct (Z.leb_spec 0 (c + a)); [|lia].
  destruct (Z.leb_spec (c + a) (Slice.len m)); [|lia].
  cbn [andb]. f_equal.
  assert (Hsk : skipn (Z.to_nat c) new1 = skipn (Z.to_nat c) fresh).
  { unfold new1. rewrite skipn_app, Hl1, Nat.sub_diag.
    rewrite skipn_all2 by lia. reflexivity. }
  assert (Hfi : firstn (Z.to_nat c) new1 = firstn (Z.to_nat c) m).
  { unfold new1. rewrite firstn_app, Hl1, Nat.sub_diag.
    rewrite firstn_firstn, Nat.min_id. cbn. apply app_nil_r. }
  rewrite Hsk, Hfi. f_equal.
  apply copy_same_length. rewrite !length_skipn, Hfresh. lia.
Qed.

(** ** The region excisor: one iteration *)

Lemma endSampleOf_le (ad : AudioData) (r : SilenceRegion) (n : Z) :
  endSampleOf ad r n <= n.
Proof. unfold endSampleOf. destruct (Z.gtb_spec (GoInt.mul (EndFrame r) (Channels ad)) n); lia. Qed.

Lemma startSampleOf_range (ad : AudioData) (r : SilenceRegion) :
  0 <= startSampleOf ad r <= GoInt.max_int.
Proof.
  unfold startSampleOf, GoInt.mul.
  pose proof (wrap64_range (StartFrame r * Channels ad)) as H.
  unfold GoInt.in_range, GoInt.max_int, GoInt.min_int in *.
  destruct (Z.ltb_spec (GoInt.wrap64 (StartFrame r * Channels ad)) 0); lia.
Qed.

(** A region whose duration does not exceed the keep duration is skipped. *)
Lemma cutRegion_skip (ad : AudioData) (k : float) (st : cut_state) (r : SilenceRegion) :
  (Duration r <=? k)%float = true -> cutRegion ad k st r = Some st.
Proof. intros H. unfold cutRegion. now rewrite H. Qed.

Lemma splice_negative_start (m : list Z) (c a : Z) : c < 0 -> splice m c a = None.
Proof.
  intros Hc. unfold splice.
  destruct (Slice.make _) as [fresh|]; [|reflexivity].
  unfold Slice.upto. destruct (Z.leb_spec 0 c); [lia|]. reflexivity.
Qed.

(** A cut whose start is a valid index removes
    [min (endSample - cutStartSample) cutSamples] samples from there on. *)
Lemma cutRegion_cut (ad : AudioData) (k : float) (st : cut_state) (r : SilenceRegion) :
  let n := Slice.len (modifiedSamples st) in
  let c := cutStartSampleOf ad k r n in
  let e := endSampleOf ad r n in
  let cs := cutSamplesOf ad k r in
  n <= GoInt.max_int ->
  (Duration r <=? k)%float = false ->
  0 <= c -> c < e -> 0 < cs ->
  cutRegion ad k st r = Some (afterCut ad st r c (Z.min (e - c) cs)).
Proof.
  intros n c e cs Hmax Hd Hpos Hce Hcs. unfold cutRegion. rewrite Hd.
  fold n. fold c. fold e. fold cs.
  destruct (Z.ltb_spec c e); [|lia].
  destruct (Z.gtb_spec cs 0); [|lia].
  cbn [andb].
  pose proof (endSampleOf_le ad r n) as He. fold e in He.
  assert (Ha : actualCutSamplesOf c e cs = Z.min (e - c) cs).
  { unfold actualCutSamplesOf, GoInt.sub.
    rewrite wrap64_id
      by (unfold GoInt.in_range, GoInt.min_int, GoInt.max_int in *; lia).
    destruct (Z.gtb_spec (e - c) cs); lia. }
  rewrite Ha. rewrite splice_in_bounds by lia. reflexivity.
Qed.

Lemma cutRegion_iteration (ad : AudioData) (k : float) (st : cut_state) (r : SilenceRegion) :
  Slice.len (modifiedSamples st) <= GoInt.max_int ->
  iteration ad k st r (cutRegion ad k st r).
Proof.
  intros Hmax.
  destruct (Duration r <=? k)%float eqn:Hd.
  { rewrite cutRegion_skip by assumption. constructor. }
  set (n := Slice.len (modifiedSamples st)) in *.
  set (c := cutStartSampleOf ad k r n).
  set (e := endSampleOf ad r n).
  set (cs := cutSamplesOf ad k r).
  destruct (Z_lt_le_dec c e) as [Hce|Hce];
    [destruct (Z_lt_le_dec 0 cs) as [Hcs|Hcs]|].
  - destruct (Z_lt_le_dec c 0) as [Hneg|Hpos].
    + unfold cutRegion. rewrite Hd. fold n. fold c. fold e. fold cs.
      destruct (Z.ltb_spec c e); [|lia].
      destruct (Z.gtb_spec cs 0); [|lia].
      cbn [andb]. rewrite splice_negative_start by assumption.
      now apply it_panic.
    + rewrite cutRegion_cut by (fold n; fold c; fold e; fold cs; auto).
      fold n. fold c. fold e. fold cs.
      pose proof (endSampleOf_le ad r n) as He. fold e in He.
      apply (it_cut ad k st r c e (Z.min (e - c) cs)); auto; lia.
  - unfold cutRegion. rewrite Hd. fold n. fold c. fold e. fold cs.
    destruct (Z.gtb_spec cs 0); [lia|].
    rewrite andb_false_r. constructor.
  - unfold cutRegion. rewrite Hd. fold n. fold c. fold e. fold cs.
    destruct (Z.ltb_spec c e); [lia|]. constructor.
Qed.

Lemma len_afterCut (ad : AudioData) (st : cut_state) (r : SilenceRegion) (c a : Z) :
  0 <= c -> 0 <= a -> c + a <= Slice.len (modifiedSamples st) ->
  Slice.len (modifiedSamples (afterCut ad st r c a)) = Slice.len (modifiedSamples st) - a.
Proof.
  intros Hc Ha Hca. unfold afterCut, Slice.len in *. cbn [modifiedSamples].
  rewrite length_app, length_firstn, length_skipn. lia.
Qed.

(** ** The region excisor: the whole pass *)

(** Whenever the loop returns, the cuts recorded in the trace are positive
    and account exactly for the change of the sample count. *)
Lemma cutLoop_length (ad : AudioData) (k : float) (rs : list SilenceRegion) :
  forall st st',
    Slice.len (modifiedSamples st) <= GoInt.max_int ->
    cutLoop ad k rs st = Some st' ->
    exists t,
      cutTrace st' = t ++ cutTrace st
      /\ Forall (fun a => 0 < a) t
      /\ Slice.len (modifiedSamples st') = Slice.len (modifiedSamples st) - sumZ t.
Proof.
  induction rs as [|r rs IH]; intros st st' Hmax Hrun; cbn [cutLoop] in Hrun.
  - injection Hrun as <-. exists []. cbn. split; [reflexivity|]. split; [constructor|lia].
  - pose proof (cutRegion_iteration ad k st r Hmax) as Hit.
    destruct (cutRegion ad k st r) as [st1|]; [|discriminate].
    inversion Hit as [Heq| |c e a Hc He Ha Hd Hpos Hce Hpa Heq].
    + subst st1. now apply IH.
    + subst st1.
      pose proof (endSampleOf_le ad r (Slice.len (modifiedSamples st))) as Hle.
      assert (Hlen : Slice.len (modifiedSamples (afterCut ad st r c a))
                     = Slice.len (modifiedSamples st) - a)
        by (apply len_afterCut; lia).
      destruct (IH (afterCut ad st r c a) st') as (t & Ht & Hall & Hsum);
        [lia|assumption|].
      exists (t ++ [a]). cbn [afterCut cutTrace] in Ht.
      split; [now rewrite <- app_assoc|].
      split; [apply Forall_app; split; [assumption|repeat constructor; lia]|].
      rewrite Hsum, Hlen. unfold sumZ. rewrite fold_right_app. cbn.
      clear. induction t as [|x t IHt]; cbn in *; lia.
Qed.

(** The clone made before the loop is the sample sequence itself. *)
Lemma cutPass_clone (ad : AudioData) (regions : list SilenceRegion) (keepMs : Z) :
  cutPass ad regions keepMs
  = cutLoop ad (keepDurationSecOf keepMs) (rev regions)
            {| modifiedSamples := Samples ad;
               regionsCut := [];
               totalRemovedDuration := 0%float;
               cutTrace := [] |}.
Proof.
  unfold cutPass. rewrite make_len.
  rewrite copy_same_length by apply repeat_length. reflexivity.
Qed.

Lemma cutLoop_all_skipped (ad : AudioData) (k : float) (rs : list SilenceRegion) (st : cut_state) :
  (forall r, In r rs -> (Duration r <=? k)%float = true) ->
  cutLoop ad k rs st = Some st.
Proof.
  induction rs as [|r rs IH]; intros Hall; cbn [cutLoop]; [reflexivity|].
  rewrite cutRegion_skip by (apply Hall; now left).
  apply IH. intros r' Hin. apply Hall. now right.
Qed.

(** The loop returns when every cut start it computes is a sum that does
    not wrap around. *)
Lemma cutLoop_total (ad : AudioData) (k : float) (rs : list SilenceRegion) :
  0 <= keepSamplesOf ad k ->
  Forall (fun r => startSampleOf ad r + keepSamplesOf ad k <= GoInt.max_int) rs ->
  forall st,
    Slice.len (modifiedSamples st) <= GoInt.max_int ->
    exists st', cutLoop ad k rs st = Some st'.
Proof.
  intros Hkeep Hall. induction Hall as [|r rs Hr Hall IH]; intros st Hmax; cbn [cutLoop].
  - now exists st.
  - pose proof (cutRegion_iteration ad k st r Hmax) as Hit.
    inversion Hit as [Heq|Hneg Hce Hcs Heq|c e a Hc He Ha Hd Hpos Hce Hpa Heq].
    + now apply IH.
    + exfalso. revert Hneg. unfold cutStartSampleOf, GoInt.add.
      pose proof (startSampleOf_range ad r) as Hs.
      rewrite wrap64_id
        by (unfold GoInt.in_range, GoInt.min_int, GoInt.max_int in *; lia).
      destruct (Z.gtb_spec (startSampleOf ad r + keepSamplesOf ad k)
                           (endSampleOf ad r (Slice.len (modifiedSamples st)))); lia.
    + apply IH.
      pose proof (endSampleOf_le ad r (Slice.len (modifiedSamples st))) as Hle.
      rewrite len_afterCut by lia. lia.
Qed.

(** ** C8 *)

(** C8 (keep-duration idempotence).  When every region's duration is at
    most [keepDurationMs/1000] seconds, the excision returns, the sample
    sequence it leaves is the input one, the removed duration is [0] and no
    region is reported as cut. *)
Theorem keep_duration_idempotence (ad : AudioData) (regions : list SilenceRegion) (keepMs : Z) :
  (forall r, In r regions -> (Duration r <=? keepDurationSecOf keepMs)%float = true) ->
  exists ad' res,
    CutSilenceRegions (Some ad) regions keepMs = Returned (ad', res)
    /\ Samples ad' = Samples ad
    /\ RemovedDuration res = 0%float
    /\ RegionsCut res = [].
Proof.
  intros Hall. unfold CutSilenceRegions.
  rewrite cutPass_clone, cutLoop_all_skipped
    by (intros r Hin; apply Hall; now apply in_rev).
  eexists _, _. split; [reflexivity|]. cbn. auto.
Qed.

(** ** C10 *)

(** C10, amended.  For a buffer whose slice length fits an [int], a keep
    duration whose [keepSamples] is not negative, and regions (in any
    order, overlapping or not, inside the buffer or not) for which
    [startSample + keepSamples] does not exceed the largest [int], no slice
    expression of the excision leaves the bounds of the sample slice: the
    call returns. *)
Theorem excision_total (ad : AudioData) (regions : list SilenceRegion) (keepMs : Z) :
  Slice.len (Samples ad) <= GoInt.max_int ->
  0 <= keepSamplesOf ad (keepDurationSecOf keepMs) ->
  Forall (fun r => startSampleOf ad r + keepSamplesOf ad (keepDurationSecOf keepMs)
                   <= GoInt.max_int) regions ->
  exists ad' res, CutSilenceRegions (Some ad) regions keepMs = Returned (ad', res).
Proof.
  intros Hmax Hkeep Hall. unfold CutSilenceRegions. rewrite cutPass_clone.
  destruct (cutLoop_total ad (keepDurationSecOf keepMs) (rev regions) Hkeep)
    with (st := {| modifiedSamples := Samples ad; regionsCut := [];
                   totalRemovedDuration := 0%float; cutTrace := [] |})
    as [st' Hst'].
  - now apply Forall_rev.
  - exact Hmax.
  - rewrite Hst'. eexists _, _. reflexivity.
Qed.

Lemma keep_duration_idempotence_witness :
  (forall r, In r [createSilenceRegion 100 200 1000] ->
             (Duration r <=? keepDurationSecOf 250)%float = true)
  /\ exists ad' res,
       CutSilenceRegions (Some (buffer (ramp 1000) 1000 1 16))
                         [createSilenceRegion 100 200 1000] 250
       = Returned (ad', res)
       /\ Samples ad' = Samples (buffer (ramp 1000) 1000 1 16)
       /\ RemovedDuration res = 0%float
       /\ RegionsCut res = [].
Proof.
  assert (H : forall r, In r [createSilenceRegion 100 200 1000] ->
                        (Duration r <=? keepDurationSecOf 250)%float = true).
  { intros r [<-|[]]. vm_compute. reflexivity. }
  split; [exact H|].
  exact (keep_duration_idempotence (buffer (ramp 1000) 1000 1 16)
           [createSilenceRegion 100 200 1000] 250 H).
Defined.

(** C10 as stated fails: with a keep duration of 1 ms and a region whose
    start frame is the largest [int], [startSample + keepSamples] wraps
    around to a negative cut start, which is then used as a slice index. *)
Lemma excision_panics_on_wrapped_cut_start :
  0 <= 1
  /\ CutSilenceRegions (Some (buffer (ramp 10) 1000 1 16))
                       [regionOf GoInt.max_int 5 1%float] 1
     = Panicked.
Proof. split; [lia|]. vm_compute. reflexivity. Qed.

Lemma excision_total_witness :
  Slice.len (Samples (buffer (ramp 10) 1000 1 16)) <= GoInt.max_int
  /\ 0 <= keepSamplesOf (buffer (ramp 10) 1000 1 16) (keepDurationSecOf 1)
  /\ Forall (fun r => startSampleOf (buffer (ramp 10) 1000 1 16) r
                      + keepSamplesOf (buffer (ramp 10) 1000 1 16) (keepDurationSecOf 1)
                      <= GoInt.max_int)
            [regionOf 7 40 1%float; regionOf (-3) 4 1%float; regionOf 20 30 1%float]
  /\ exists ad' res,
       CutSilenceRegions (Some (buffer (ramp 10) 1000 1 16))
         [regionOf 7 40 1%float; regionOf (-3) 4 1%float; regionOf 20 30 1%float] 1
       = Returned (ad', res).
Proof.
  assert (H1 : Slice.len (Samples (buffer (ramp 10) 1000 1 16)) <= GoInt.max_int)
    by (vm_compute; discriminate).
  assert (H2 : 0 <= keepSamplesOf (buffer (ramp 10) 1000 1 16) (keepDurationSecOf 1))
    by (vm_compute; discriminate).
  assert (H3 : Forall (fun r => startSampleOf (buffer (ramp 10) 1000 1 16) r
                      + keepSamplesOf (buffer (ramp 10) 1000 1 16) (keepDurationSecOf 1)
                      <= GoInt.max_int)
            [regionOf 7 40 1%float; regionOf (-3) 4 1%float; regionOf 20 30 1%float])
    by (repeat constructor; vm_compute; discriminate).
  repeat split; try assumption.
  exact (excision_total _ _ 1 H1 H2 H3).
Defined.

(** ** C1 *)

(** The fallback branch in general: when [startSample + keepSamples]
    exceeds [endSample] the cut starts at [startSample], and a region with
    samples inside the slice and a positive [cutSamples] loses
    [min (endSample - startSample) cutSamples] samples from its start. *)
Lemma fallback_cuts_at_region_start (ad : AudioData) (k : float) (st : cut_state)
    (r : SilenceRegion) :
  let n := Slice.len (modifiedSamples st) in
  let startSample := startSampleOf ad r in
  let endSample := endSampleOf ad r n in
  n <= GoInt.max_int ->
  (Duration r <=? k)%float = false ->
  GoInt.add startSample (keepSamplesOf ad k) > endSample ->
  startSample < endSample ->
  0 < cutSamplesOf ad k r ->
  cutRegion ad k st r
  = Some (afterCut ad st r startSample
                   (Z.min (endSample - startSample) (cutSamplesOf ad k r))).
Proof.
  intros n startSample endSample Hmax Hd Hover Hlt Hcs.
  pose proof (startSampleOf_range ad r) as Hs. fold startSample in Hs.
  assert (Hc : cutStartSampleOf ad k r n = startSample).
  { unfold cutStartSampleOf. fold startSample endSample.
    destruct (Z.gtb_spec (GoInt.add startSample (keepSamplesOf ad k)) endSample);
      [reflexivity|lia]. }
  rewrite cutRegion_cut; fold n; rewrite ?Hc; fold endSample;
    try assumption; try reflexivity; lia.
Qed.

(** C1 at a concrete input: a mono buffer of ten samples at 1000 Hz, the
    region of frames [5, 30) (25 ms, reaching past the end of the buffer)
    and a keep duration of 10 ms.  The duration exceeds the keep duration,
    the in-bounds span of the region (5 samples) is smaller than
    [keepSamples] (10), and the excision deletes the whole in-bounds span:
    the fallback resets the cut start to the region start. *)
Theorem keep_exceeds_span_deletes :
  let ad := buffer (ramp 10) 1000 1 16 in
  let r := createSilenceRegion 5 30 1000 in
  let k := keepDurationSecOf 10 in
  (Duration r <=? k)%float = false
  /\ endSampleOf ad r 10 - startSampleOf ad r = 5
  /\ keepSamplesOf ad k = 10
  /\ cutStartSampleOf ad k r 10 = startSampleOf ad r
  /\ exists ad' res,
       CutSilenceRegions (Some ad) [r] 10 = Returned (ad', res)
       /\ Samples ad = [1; 2; 3; 4; 5; 6; 7; 8; 9; 10]
       /\ Samples ad' = [1; 2; 3; 4; 5]
       /\ RegionsCut res = [r].
Proof.
  cbv zeta. repeat split; try (vm_compute; reflexivity).
  eexists _, _. split; [vm_compute; reflexivity|].
  repeat split; vm_compute; reflexivity.
Qed.

(** ** C4 *)

(** C4 as stated fails: at 1000 Hz mono with a keep duration of 10 ms, the
    region of frames [5, 20) is cut, [cutStartSample] is 15 and [endSample]
    is 20, but [cutSamples] is [int((0.015 - 0.01) * 1000) = 4] and only
    four samples are removed: the result is not
    [samples[0:15] ++ samples[20:]]. *)
Lemma cut_is_not_the_full_splice :
  let ad := buffer (ramp 25) 1000 1 16 in
  let r := createSilenceRegion 5 20 1000 in
  let k := keepDurationSecOf 10 in
  (Duration r <=? k)%float = false
  /\ startSampleOf ad r + keepSamplesOf ad k = 15
  /\ endSampleOf ad r (Slice.len (Samples ad)) = 20
  /\ cutSamplesOf ad k r = 4
  /\ exists ad' res,
       CutSilenceRegions (Some ad) [r] 10 = Returned (ad', res)
       /\ RegionsCut res = [r]
       /\ Samples ad' = firstn 15 (Samples ad) ++ skipn 19 (Samples ad)
       /\ Samples ad' <> firstn 15 (Samples ad) ++ skipn 20 (Samples ad).
Proof.
  cbv zeta. repeat split; try (vm_compute; reflexivity).
  eexists _, _. split; [vm_compute; reflexivity|].
  repeat split; try (vm_compute; reflexivity).
  vm_compute. discriminate.
Qed.

(** C4, amended.  In an iteration whose region has a duration greater than
    the keep duration, with [keepSamples] not negative,
    [cutStartSample = startSample + keepSamples] below [endSample] (the end
    sample clamped to the slice length) and [cutSamples] positive, the
    region is cut: the samples before [cutStartSample], among them the first
    [keepSamples] samples of the region, stay in place, and the
    [min (endSample - cutStartSample) cutSamples] samples that follow are
    removed.  When [cutSamples] is at least [endSample - cutStartSample] the
    result is the splice [samples[0:cutStartSample] ++ samples[endSample:]]. *)
Theorem cut_placement (ad : AudioData) (k : float) (st : cut_state) (r : SilenceRegion) :
  let samples := modifiedSamples st in
  let startSample := startSampleOf ad r in
  let endSample := endSampleOf ad r (Slice.len samples) in
  let keepSamples := keepSamplesOf ad k in
  let cutSamples := cutSamplesOf ad k r in
  let cutStartSample := startSample + keepSamples in
  let removed := Z.min (endSample - cutStartSample) cutSamples in
  Slice.len samples <= GoInt.max_int ->
  (Duration r <=? k)%float = false ->
  0 <= keepSamples ->
  cutStartSample < endSample ->
  0 < cutSamples ->
  exists st',
    cutRegion ad k st r = Some st'
    /\ regionsCut st' = r :: regionsCut st
    /\ modifiedSamples st'
       = firstn (Z.to_nat cutStartSample) samples
         ++ skipn (Z.to_nat (cutStartSample + removed)) samples
    /\ firstn (Z.to_nat cutStartSample) (modifiedSamples st')
       = firstn (Z.to_nat cutStartSample) samples
    /\ (endSample - cutStartSample <= cutSamples ->
        modifiedSamples st'
        = firstn (Z.to_nat cutStartSample) samples ++ skipn (Z.to_nat endSample) samples).
Proof.
  intros samples startSample endSample keepSamples cutSamples cutStartSample removed
         Hmax Hd Hkeep Hlt Hcs.
  pose proof (startSampleOf_range ad r) as Hs. fold startSample in Hs.
  pose proof (endSampleOf_le ad r (Slice.len samples)) as He. fold endSample in He.
  assert (Hc : cutStartSampleOf ad k r (Slice.len samples) = cutStartSample).
  { unfold cutStartSampleOf, GoInt.add. fold startSample keepSamples endSample.
    rewrite wrap64_id
      by (unfold GoInt.in_range, GoInt.min_int, GoInt.max_int in *;
          unfold cutStartSample in *; lia).
    fold cutStartSample. destruct (Z.gtb_spec cutStartSample endSample); [lia|reflexivity]. }
  exists (afterCut ad st r cutStartSample removed).
  split.
  { rewrite cutRegion_cut; fold samples; rewrite ?Hc; fold endSample cutSamples;
      try assumption; try reflexivity; unfold cutStartSample; lia. }
  split; [reflexivity|]. split; [reflexivity|]. split.
  - cbn [afterCut modifiedSamples]. fold samples.
    rewrite firstn_app, firstn_firstn, Nat.min_id.
    rewrite length_firstn.
    assert (Hn : (Z.to_nat cutStartSample <= List.length samples)%nat)
      by (unfold Slice.len in *; unfold cutStartSample in *; lia).
    rewrite (Nat.min_l _ _ Hn), Nat.sub_diag. cbn. apply app_nil_r.
  - intros Hfull. cbn [afterCut modifiedSamples]. fold samples.
    unfold removed. rewrite Z.min_l by assumption.
    now replace (cutStartSample + (endSample - cutStartSample)) with endSample by lia.
Qed.

Lemma cut_placement_witness :
  let ad := buffer (ramp 1000) 1000 1 16 in
  let k := keepDurationSecOf 40 in
  let r := createSilenceRegion 100 200 1000 in
  let st := {| modifiedSamples := ramp 1000; regionsCut := [];
               totalRemovedDuration := 0%float; cutTrace := [] |} in
  (Slice.len (ramp 1000) <= GoInt.max_int
   /\ (Duration r <=? k)%float = false
   /\ 0 <= keepSamplesOf ad k
   /\ startSampleOf ad r + keepSamplesOf ad k < endSampleOf ad r (Slice.len (ramp 1000))
   /\ 0 < cutSamplesOf ad k r)
  /\ exists st',
       cutRegion ad k st r = Some st'
       /\ modifiedSamples st' = firstn 140 (ramp 1000) ++ skipn 200 (ramp 1000).
Proof.
  intros ad k r st.
  assert (H1 : Slice.len (modifiedSamples st) <= GoInt.max_int) by (vm_compute; discriminate).
  assert (H2 : (Duration r <=? k)%float = false) by (vm_compute; reflexivity).
  assert (H3 : 0 <= keepSamplesOf ad k) by (vm_compute; discriminate).
  assert (H4 : startSampleOf ad r + keepSamplesOf ad k
               < endSampleOf ad r (Slice.len (modifiedSamples st)))
    by (vm_compute; reflexivity).
  assert (H5 : 0 < cutSamplesOf ad k r) by (vm_compute; reflexivity).
  split; [repeat split; assumption|].
  destruct (cut_placement ad k st r H1 H2 H3 H4 H5) as (st' & Hrun & _ & _ & _ & Hfull).
  exists st'. split; [exact Hrun|].
  apply Hfull. vm_compute. discriminate.
Defined.

(** ** C9 *)

Lemma sumZ_nonneg (P : Z -> Prop) (t : list Z) :
  Forall (fun a => 0 < a /\ P a) t -> 0 <= sumZ t.
Proof.
  unfold sumZ. induction 1 as [|a t [Ha _] _ IH]; cbn [fold_right]; lia.
Qed.

Lemma divide_sub_sum (d n : Z) (t : list Z) :
  0 < d -> (d | n) -> Forall (fun a => 0 < a /\ (d | a)) t ->
  (n - sumZ t) / d = n / d - sumZ (map (fun a => a / d) t).
Proof.
  intros Hd Hn Hall. revert n Hn.
  unfold sumZ.
  induction Hall as [|a t [_ [q ->]] Hall IH]; intros n Hn; cbn [fold_right map].
  - now rewrite !Z.sub_0_r.
  - replace (n - (q * d + fold_right Z.add 0 t))
      with ((n - q * d) - fold_right Z.add 0 t) by lia.
    rewrite IH by (apply Z.divide_sub_r; [assumption|now exists q]).
    destruct Hn as [p ->].
    replace (p * d - q * d) with ((p - q) * d) by lia.
    rewrite !Z.div_mul by lia. lia.
Qed.

(** Without wrap-around every cut is made of whole frames. *)
Lemma cutLoop_frames (ad : AudioData) (k : float) (rs : list SilenceRegion) :
  1 <= Channels ad ->
  0 <= keepFramesOf ad k ->
  GoInt.in_range (keepFramesOf ad k * Channels ad) ->
  Forall (noOverflow ad k) rs ->
  forall st st',
    Slice.len (modifiedSamples st) <= GoInt.max_int ->
    (Channels ad | Slice.len (modifiedSamples st)) ->
    cutLoop ad k rs st = Some st' ->
    exists t,
      cutTrace st' = t ++ cutTrace st
      /\ Forall (fun a => 0 < a /\ (Channels ad | a)) t
      /\ Slice.len (modifiedSamples st') = Slice.len (modifiedSamples st) - sumZ t.
Proof.
  intros Hch Hkf Hkr Hall.
  assert (Hkeep : keepSamplesOf ad k = keepFramesOf ad k * Channels ad)
    by (unfold keepSamplesOf, GoInt.mul; now rewrite wrap64_id).
  induction Hall as [|r rs Hr Hall IH]; intros st st' Hmax Hdiv Hrun; cbn [cutLoop] in Hrun.
  - injection Hrun as <-. exists []. cbn. split; [reflexivity|]. split; [constructor|lia].
  - pose proof (cutRegion_iteration ad k st r Hmax) as Hit.
    destruct (cutRegion ad k st r) as [st1|]; [|discriminate].
    inversion Hit as [Heq| |c e a Hc He Ha Hd Hpos Hce Hpa Heq].
    + subst st1. now apply IH.
    + subst st1.
      set (n := Slice.len (modifiedSamples st)) in *.
      pose proof (endSampleOf_le ad r n) as Hle.
      pose proof (startSampleOf_range ad r) as Hs.
      destruct Hr as (Hsf & Hef & Hcf & Hsum).
      assert (Hdc : (Channels ad | c)).
      { subst c. unfold cutStartSampleOf, GoInt.add.
        assert (Hds : (Channels ad | startSampleOf ad r)).
        { unfold startSampleOf, GoInt.mul. rewrite wrap64_id by assumption.
          destruct (Z.ltb_spec (StartFrame r * Channels ad) 0);
            [apply Z.divide_0_r|apply Z.divide_factor_r]. }
        rewrite wrap64_id
          by (unfold GoInt.in_range, GoInt.min_int, GoInt.max_int in *; nia).
        destruct (Z.gtb_spec (startSampleOf ad r + keepSamplesOf ad k) (endSampleOf ad r n));
          [assumption|].
        apply Z.divide_add_r; [assumption|].
        rewrite Hkeep. apply Z.divide_factor_r. }
      assert (Hde : (Channels ad | e)).
      { subst e. unfold endSampleOf, GoInt.mul. rewrite wrap64_id by assumption.
        destruct (Z.gtb_spec (EndFrame r * Channels ad) n);
          [assumption|apply Z.divide_factor_r]. }
      assert (Hdcs : (Channels ad | cutSamplesOf ad k r)).
      { unfold cutSamplesOf, GoInt.mul. rewrite wrap64_id by assumption.
        apply Z.divide_factor_r. }
      assert (Hda : (Channels ad | a)).
      { subst a. destruct (Z.min_spec (e - c) (cutSamplesOf ad k r)) as [[_ ->]|[_ ->]];
          [now apply Z.divide_sub_r|assumption]. }
      assert (Hlen : Slice.len (modifiedSamples (afterCut ad st r c a)) = n - a)
        by (apply len_afterCut; fold n; lia).
      destruct (IH (afterCut ad st r c a) st') as (t & Ht & Hallt & Hsumt);
        [lia|rewrite Hlen; now apply Z.divide_sub_r|assumption|].
      exists (t ++ [a]). cbn [afterCut cutTrace] in Ht.
      split; [now rewrite <- app_assoc|].
      split; [apply Forall_app; split; [assumption|repeat constructor; [lia|assumption]]|].
      rewrite Hsumt, Hlen. unfold sumZ. rewrite fold_right_app. cbn.
      clear. induction t as [|x t IHt]; cbn in *; lia.
Qed.

Lemma GetFrameCount_div (ad : AudioData) :
  1 <= Channels ad -> Slice.len (Samples ad) <= GoInt.max_int ->
  GetFrameCount ad = Slice.len (Samples ad) / Channels ad.
Proof.
  intros Hch Hmax. unfold GetFrameCount.
  destruct (Z.eqb_spec (Channels ad) 0); [lia|].
  pose proof (len_nonneg (Samples ad)) as Hn.
  rewrite Z.quot_div_nonneg by lia.
  apply wrap64_id.
  assert (Slice.len (Samples ad) / Channels ad <= Slice.len (Samples ad))
    by (apply Z.div_le_upper_bound; nia).
  pose proof (Z.div_pos (Slice.len (Samples ad)) (Channels ad) Hn ltac:(lia)).
  unfold GoInt.in_range, GoInt.min_int, GoInt.max_int in *. lia.
Qed.

(** Every cut adds one entry to the trace and one to the regions cut. *)
Lemma cutRegion_trace (ad : AudioData) (k : float) (st st' : cut_state) (r : SilenceRegion) :
  cutRegion ad k st r = Some st' ->
  (List.length (cutTrace st') + List.length (regionsCut st)
   = List.length (regionsCut st') + List.length (cutTrace st))%nat.
Proof.
  unfold cutRegion. destruct (Duration r <=? k)%float.
  - intros [= <-]. lia.
  - destruct (_ && _).
    + destruct (splice _ _ _); [|discriminate]. intros [= <-]. cbn. lia.
    + intros [= <-]. lia.
Qed.

Lemma cutLoop_trace (ad : AudioData) (k : float) (rs : list SilenceRegion) :
  forall st st',
    cutLoop ad k rs st = Some st' ->
    (List.length (cutTrace st') + List.length (regionsCut st)
     = List.length (regionsCut st') + List.length (cutTrace st))%nat.
Proof.
  induction rs as [|r rs IH]; intros st st' Hrun; cbn [cutLoop] in Hrun.
  - injection Hrun as <-. lia.
  - destruct (cutRegion ad k st r) as [st1|] eqn:Hstep; [|discriminate].
    apply cutRegion_trace in Hstep. apply IH in Hrun. lia.
Qed.

(** Whenever the excision returns, the sample count has decreased by
    exactly the sum of the cuts made, one for each region reported as
    cut. *)
Lemma excision_sample_count (ad ad' : AudioData) (res : CuttingResult)
    (regions : list SilenceRegion) (keepMs : Z) :
  Slice.len (Samples ad) <= GoInt.max_int ->
  CutSilenceRegions (Some ad) regions keepMs = Returned (ad', res) ->
  exists st,
    cutPass ad regions keepMs = Some st
    /\ Samples ad' = modifiedSamples st
    /\ List.length (cutTrace st) = List.length (RegionsCut res)
    /\ Forall (fun a => 0 < a) (cutTrace st)
    /\ Slice.len (Samples ad') = Slice.len (Samples ad) - sumZ (cutTrace st).
Proof.
  intros Hmax. unfold CutSilenceRegions.
  destruct (cutPass ad regions keepMs) as [st|] eqn:Hpass; [|discriminate].
  intros [= <- <-]. exists st. cbn [Samples RegionsCut].
  rewrite cutPass_clone in Hpass.
  pose proof (cutLoop_trace _ _ _ _ _ Hpass) as Htr. cbn in Htr.
  destruct (fun H => cutLoop_length _ _ _ _ _ H Hpass) as (t & Ht & Hall & Hsum);
    [exact Hmax|].
  cbn [cutTrace modifiedSamples] in Ht, Hsum. rewrite app_nil_r in Ht. subst t.
  repeat split; auto. lia.
Qed.

(** C9 as stated fails: on a three-channel buffer a start frame whose
    product with the channel count wraps around gives a cut that is not a
    whole number of frames.  One sample of the single frame is removed; the
    frame count drops from 1 to 0. *)
Lemma wrapped_start_breaks_frame_alignment :
  let ad := buffer (ramp 3) 1000 3 16 in
  let r := regionOf 6148914691236517206 6148914691236517207 (1 / 1000)%float in
  (Channels ad | Slice.len (Samples ad))
  /\ 0 <= StartFrame r < EndFrame r
  /\ exists ad' res st,
       CutSilenceRegions (Some ad) [r] 0 = Returned (ad', res)
       /\ cutPass ad [r] 0 = Some st
       /\ RegionsCut res = [r]
       /\ cutTrace st = [1]
       /\ ~ (Channels ad | 1)
       /\ GetFrameCount ad = 1
       /\ GetFrameCount ad' = 0
       /\ GetFrameCount ad' <> GetFrameCount ad - 1 / Channels ad.
Proof.
  cbv zeta. split; [exists 1; reflexivity|].
  split; [cbn; lia|].
  eexists _, _, _. split; [vm_compute; reflexivity|].
  split; [vm_compute; reflexivity|].
  repeat split; try (vm_compute; reflexivity).
  - intros [q Hq]. cbn in Hq. lia.
  - vm_compute. discriminate.
Qed.

(** C9, amended.  For a buffer whose sample count is a multiple of its
    channel count (at least one channel), a keep duration whose frame count
    is not negative, and regions whose sample indices and cut sizes are
    computed without wrap-around, the excision returns; every cut is a
    positive whole number of frames; the new sample count is the old one
    minus the sum of the cuts, and the new frame count is the old one minus
    the sum of the frames cut. *)
Theorem length_consistency (ad : AudioData) (regions : list SilenceRegion) (keepMs : Z) :
  1 <= Channels ad ->
  (Channels ad | Slice.len (Samples ad)) ->
  Slice.len (Samples ad) <= GoInt.max_int ->
  0 <= keepFramesOf ad (keepDurationSecOf keepMs) ->
  GoInt.in_range (keepFramesOf ad (keepDurationSecOf keepMs) * Channels ad) ->
  Forall (noOverflow ad (keepDurationSecOf keepMs)) regions ->
  exists ad' res st,
    CutSilenceRegions (Some ad) regions keepMs = Returned (ad', res)
    /\ cutPass ad regions keepMs = Some st
    /\ Samples ad' = modifiedSamples st
    /\ List.length (cutTrace st) = List.length (RegionsCut res)
    /\ Forall (fun a => 0 < a /\ (Channels ad | a)) (cutTrace st)
    /\ Slice.len (Samples ad') = Slice.len (Samples ad) - sumZ (cutTrace st)
    /\ GetFrameCount ad'
       = GetFrameCount ad - sumZ (map (fun a => a / Channels ad) (cutTrace st)).
Proof.
  intros Hch Hdiv Hmax Hkf Hkr Hall.
  set (k := keepDurationSecOf keepMs) in *.
  set (st0 := {| modifiedSamples := Samples ad; regionsCut := [];
                 totalRemovedDuration := 0%float; cutTrace := [] |}).
  assert (Hkeep : 0 <= keepSamplesOf ad k).
  { unfold keepSamplesOf, GoInt.mul. rewrite wrap64_id by assumption. nia. }
  assert (Hall' : Forall (noOverflow ad k) (rev regions)) by now apply Forall_rev.
  destruct (cutLoop_total ad k (rev regions) Hkeep) with (st := st0) as [st Hst].
  { eapply Forall_impl; [|exact Hall']. intros r Hr. apply Hr. }
  { exact Hmax. }
  destruct (cutLoop_frames ad k (rev regions) Hch Hkf Hkr Hall' st0 st Hmax Hdiv Hst)
    as (t & Ht & Hallt & Hsum).
  cbn [st0 cutTrace modifiedSamples] in Ht, Hsum. rewrite app_nil_r in Ht. subst t.
  pose proof (cutLoop_trace _ _ _ _ _ Hst) as Htr. cbn in Htr.
  unfold CutSilenceRegions. rewrite cutPass_clone. fold k. fold st0. rewrite Hst.
  eexists _, _, st. split; [reflexivity|]. split; [reflexivity|].
  cbn [Samples RegionsCut]. split; [reflexivity|]. split; [lia|].
  split; [assumption|]. split; [assumption|].
  pose proof (sumZ_nonneg _ _ Hallt) as Hsum0.
  rewrite !GetFrameCount_div; cbn [Samples Channels]; try assumption; try lia.
  rewrite Hsum. apply divide_sub_sum; [lia|assumption|assumption].
Qed.

Lemma length_consistency_witness :
  let ad := buffer (ramp 1000) 1000 1 16 in
  let regions := [createSilenceRegion 100 200 1000] in
  (1 <= Channels ad
   /\ (Channels ad | Slice.len (Samples ad))
   /\ Slice.len (Samples ad) <= GoInt.max_int
   /\ 0 <= keepFramesOf ad (keepDurationSecOf 40)
   /\ GoInt.in_range (keepFramesOf ad (keepDurationSecOf 40) * Channels ad)
   /\ Forall (noOverflow ad (keepDurationSecOf 40)) regions)
  /\ exists ad' res st,
       CutSilenceRegions (Some ad) regions 40 = Returned (ad', res)
       /\ cutPass ad regions 40 = Some st
       /\ Samples ad' = modifiedSamples st
       /\ List.length (cutTrace st) = List.length (RegionsCut res)
       /\ Forall (fun a => 0 < a /\ (Channels ad | a)) (cutTrace st)
       /\ Slice.len (Samples ad') = Slice.len (Samples ad) - sumZ (cutTrace st)
       /\ GetFrameCount ad'
          = GetFrameCount ad - sumZ (map (fun a => a / Channels ad) (cutTrace st)).
Proof.
  intros ad regions.
  assert (H1 : 1 <= Channels ad) by (vm_compute; discriminate).
  assert (H2 : (Channels ad | Slice.len (Samples ad))) by (exists 1000; reflexivity).
  assert (H3 : Slice.len (Samples ad) <= GoInt.max_int) by (vm_compute; discriminate).
  assert (H4 : 0 <= keepFramesOf ad (keepDurationSecOf 40)) by (vm_compute; discriminate).
  assert (H5 : GoInt.in_range (keepFramesOf ad (keepDurationSecOf 40) * Channels ad))
    by (split; vm_compute; discriminate).
  assert (H6 : Forall (noOverflow ad (keepDurationSecOf 40)) regions)
    by (repeat constructor; vm_compute; discriminate).
  split; [repeat split; assumption|].
  exact (length_consistency ad regions 40 H1 H2 H3 H4 H5 H6).
Defined.

(** Scenario D of the specification: frames [100, 200) at 1000 Hz mono with
    40 ms kept leave 940 frames. *)
Example scenario_D :
  exists ad' res,
    CutSilenceRegions (Some (buffer (ramp 1000) 1000 1 16))
                      [createSilenceRegion 100 200 1000] 40 = Returned (ad', res)
    /\ GetFrameCount ad' = 940
    /\ Samples ad' = firstn 140 (ramp 1000) ++ skipn 200 (ramp 1000).
Proof.
  eexists _, _. split; [vm_compute; reflexivity|]. split; vm_compute; reflexivity.
Qed.

(** ** Floating-point comparisons *)

Lemma SFcompare_antisym (x y : spec_float) :
  SFcompare y x = option_map CompOpp (SFcompare x y).
Proof.
  destruct x as [sx|sx| |sx mx ex], y as [sy|sy| |sy my ey]; cbn;
    try reflexivity; try (destruct sx; reflexivity); try (destruct sy; reflexivity);
    try (destruct sx, sy; reflexivity).
  pose proof (Pos.compare_cont_antisym mx my Eq) as Hm. cbn [CompOpp] in Hm.
  destruct sx, sy; cbn; try reflexivity; f_equal;
    rewrite (Z.compare_antisym ex ey);
    destruct (ex ?= ey); cbn [CompOpp]; try reflexivity;
    rewrite <- Hm; try reflexivity.
Qed.

(** [x <= y] excludes [y < x]. *)
Lemma leb_not_ltb (x y : float) : (x <=? y)%float = true -> (y <? x)%float = false.
Proof.
  rewrite leb_spec, ltb_spec. unfold SFleb, SFltb.
  rewrite (SFcompare_antisym (Prim2SF x) (Prim2SF y)).
  destruct (SFcompare (Prim2SF x) (Prim2SF y)) as [[| |]|]; cbn; congruence.
Qed.

(** ** C2 *)

(** The loudness measurement computes the clamped energy of the
    specification. *)
Lemma loudness_rms_clamps (samples : list Z) (bitDepth : Z) :
  loudness.calculateRMSWithBitDepth samples bitDepth
  = if Slice.len samples =? 0 then 0%float
    else PrimFloat.sqrt (spec_sumSquares bitDepth samples
                         / GoFloat.of_int (Slice.len samples))%float.
Proof.
  unfold loudness.calculateRMSWithBitDepth, spec_sumSquares.
  destruct (Slice.len samples =? 0); [reflexivity|].
  assert (Hscale : loudness.maxValue bitDepth = spec_fullScale bitDepth).
  { unfold loudness.maxValue, spec_fullScale.
    destruct (Z.eqb_spec bitDepth 16) as [->|]; [reflexivity|].
    destruct (Z.eqb_spec bitDepth 24) as [->|]; [reflexivity|].
    destruct (Z.eqb_spec bitDepth 32) as [->|]; reflexivity. }
  rewrite <- Hscale. reflexivity.
Qed.

(** C2 at a concrete input: a 16-bit mono buffer holding the single sample
    [65536].  The normalised value is [2.0]; the loudness measurement clamps
    it to [1.0] before squaring, as the specification says, but the chunk
    classifier squares it unclamped: its sum of squares is [4.0] and its
    RMS energy [2.0]. *)
Theorem detection_energy_not_clamped :
  let ad := buffer [65536] 1000 1 16 in
  chunkEnergy ad 0 1 = Some (4%float, 1)
  /\ rmsOf (4%float, 1) = 2%float
  /\ spec_sumSquares (BitDepth ad) (Samples ad) = 1%float
  /\ loudness.calculateRMSWithBitDepth (Samples ad) (BitDepth ad) = 1%float.
Proof. cbv zeta. repeat split; vm_compute; reflexivity. Qed.

(** The missing clamp changes the verdict: at a threshold of 0 dBFS the
    clamped energy [1.0] would be silent for a [Log10] with [Log10 1 = 0],
    while the classifier compares [20 * Log10 2]. *)
Lemma unclamped_energy_changes_verdict (Log10 : float -> float) :
  isChunkSilent Log10 (buffer [65536] 1000 1 16) 0 1 0%float
  = Some (20 * Log10 2 <=? 0)%float.
Proof. reflexivity. Qed.

(** ** C3 *)

(** C3 as stated fails: two buffers that differ in sample rate make the
    detector itself return an error, although the list is not empty. *)
Lemma format_mismatch_is_rejected :
  [buffer [0; 0] 1000 1 16; buffer [0; 0] 2000 1 16] <> []
  /\ DetectCommonSilence flatLog10 4
       [buffer [0; 0] 1000 1 16; buffer [0; 0] 2000 1 16] gapConfig
     = Failed "all audio files must have the same sample rate and channel count".
Proof. split; [discriminate|reflexivity]. Qed.

Lemma formatMismatch_spec (reference : AudioData) (others : list AudioData) :
  formatMismatch reference others = true
  <-> exists audio, In audio others
                    /\ (SampleRate audio <> SampleRate reference
                        \/ Channels audio <> Channels reference).
Proof.
  unfold formatMismatch. rewrite existsb_exists.
  split; intros (audio & Hin & H); exists audio; (split; [assumption|]).
  - apply orb_true_iff in H. rewrite !negb_true_iff, !Z.eqb_neq in H. exact H.
  - apply orb_true_iff. rewrite !negb_true_iff, !Z.eqb_neq. exact H.
Qed.

(** C3, amended.  The detector returns an error exactly when the list of
    buffers is empty or some buffer differs from the first one in sample
    rate or channel count. *)
Theorem detection_failure_modes (Log10 : float -> float) (fuel : nat)
    (audioFiles : list AudioData) (config : SilenceDetectionConfig) :
  (exists msg, DetectCommonSilence Log10 fuel audioFiles config = Failed msg)
  <-> audioFiles = []
      \/ exists reference others audio,
           audioFiles = reference :: others
           /\ In audio others
           /\ (SampleRate audio <> SampleRate reference
               \/ Channels audio <> Channels reference).
Proof.
  unfold DetectCommonSilence.
  destruct audioFiles as [|reference others].
  { split; [now left|]. intros _. eexists. reflexivity. }
  destruct (formatMismatch reference others) eqn:Hm.
  - split; [|intros _; eexists; reflexivity].
    intros _. right. apply formatMismatch_spec in Hm.
    destruct Hm as (audio & Hin & H). now exists reference, others, audio.
  - split.
    + intros [msg H]. exfalso. revert H.
      assert (Hscan : forall f fs cs rs msg',
                 scan Log10 f (reference :: others) config (SampleRate reference)
                      (minFramesOf reference others) (chunkFramesOf config reference)
                      fs cs rs <> Failed msg').
      { induction f as [|f IH]; intros fs cs rs msg'; cbn [scan];
          destruct (fs <? minFramesOf reference others); try discriminate.
        destruct (isCommonSilence _ _ _ _ _) as [[|]|]; try discriminate;
          [apply IH|].
        destruct (negb (cs =? -1)); apply IH. }
      destruct (scan _ _ _ _ _ _ _ _ _ _) as [[cs rs]|msg'| |] eqn:Hs;
        try discriminate.
      now apply Hscan in Hs.
    + intros [H|(reference' & others' & audio & Heq & Hin & H)]; [discriminate|].
      injection Heq as <- <-.
      assert (formatMismatch reference others = true)
        by (apply formatMismatch_spec; now exists audio).
      congruence.
Qed.

(** ** The detector: ordering of lists of regions *)

Lemma StronglySorted_snoc {A} (R : A -> A -> Prop) (l : list A) (x : A) :
  StronglySorted R l -> Forall (fun y => R y x) l -> StronglySorted R (l ++ [x]).
Proof.
  induction 1 as [|a l Hl IH Ha]; intros Hx; cbn.
  - repeat constructor.
  - inversion Hx as [|? ? Hax Hlx]; subst.
    constructor; [now apply IH|].
    apply Forall_app. split; [assumption|now repeat constructor].
Qed.

Lemma StronglySorted_consecutive {A} (R : A -> A -> Prop) (l : list A) :
  StronglySorted R l ->
  forall i a b, nth_error l i = Some a -> nth_error l (S i) = Some b -> R a b.
Proof.
  induction 1 as [|x l Hl IH Hx]; intros i a b Ha Hb.
  - destruct i; discriminate.
  - destruct i as [|i].
    + injection Ha as <-. rewrite Forall_forall in Hx. apply Hx.
      apply (nth_error_In l 0). exact Hb.
    + apply (IH i); assumption.
Qed.

Lemma precedes_strict_starts (l : list SilenceRegion) :
  StronglySorted precedes l ->
  Forall (fun r => StartFrame r < EndFrame r) l ->
  StronglySorted (fun a b => StartFrame a < StartFrame b) l.
Proof.
  induction 1 as [|x l Hl IH Hx]; intros Hne; [constructor|].
  inversion Hne as [|? ? Hx0 Hl0]; subst.
  constructor; [now apply IH|].
  eapply Forall_impl; [|exact Hx]. unfold precedes. intros b Hb. lia.
Qed.

(** ** The detector: the gate *)

Lemma emit_gate (config : SilenceDetectionConfig) (regions : list SilenceRegion)
    (r : SilenceRegion) :
  Forall (fun x => meetsMinDuration config x = true) regions ->
  Forall (fun x => meetsMinDuration config x = true) (emit config regions r).
Proof.
  intros H. unfold emit. destruct (meetsMinDuration config r) eqn:Hr; [|assumption].
  apply Forall_app. split; [assumption|now repeat constructor].
Qed.

Lemma scan_gate (Log10 : float -> float) (files : list AudioData)
    (config : SilenceDetectionConfig) (sampleRate minFrames chunkFrames : Z) (fuel : nat) :
  forall frameStart cs regions cs' regions',
    Forall (fun x => meetsMinDuration config x = true) regions ->
    scan Log10 fuel files config sampleRate minFrames chunkFrames frameStart cs regions
    = Returned (cs', regions') ->
    Forall (fun x => meetsMinDuration config x = true) regions'.
Proof.
  induction fuel as [|fuel IH]; intros frameStart cs regions cs' regions' Hg; cbn [scan];
    destruct (frameStart <? minFrames); try discriminate;
    try (intros [= <- <-]; assumption).
  destruct (isCommonSilence _ _ _ _ _) as [[|]|]; try discriminate.
  - apply IH. assumption.
  - destruct (negb (cs =? -1)); apply IH; [now apply emit_gate|assumption].
Qed.

Lemma closeAtEnd_gate (config : SilenceDetectionConfig) (sampleRate minFrames cs : Z)
    (regions : list SilenceRegion) :
  Forall (fun x => meetsMinDuration config x = true) regions ->
  Forall (fun x => meetsMinDuration config x = true)
         (closeAtEnd config sampleRate minFrames cs regions).
Proof.
  intros H. unfold closeAtEnd. destruct (negb (cs =? -1)); [now apply emit_gate|assumption].
Qed.

(** The result of a successful detection, in terms of the scan. *)
Lemma DetectCommonSilence_returned (Log10 : float -> float) (fuel : nat)
    (files : list AudioData) (config : SilenceDetectionConfig) (res : DetectionResult) :
  DetectCommonSilence Log10 fuel files config = Returned res ->
  exists reference others cs scanned,
    files = reference :: others
    /\ formatMismatch reference others = false
    /\ scan Log10 fuel files config (SampleRate reference) (minFramesOf reference others)
            (chunkFramesOf config reference) 0 (-1) []
       = Returned (cs, scanned)
    /\ CommonSilenceRegions res
       = closeAtEnd config (SampleRate reference) (minFramesOf reference others) cs scanned.
Proof.
  unfold DetectCommonSilence. destruct files as [|reference others]; [discriminate|].
  destruct (formatMismatch reference others) eqn:Hm; [discriminate|].
  destruct (scan _ _ _ _ _ _ _ _ _ _) as [[cs scanned]| | |] eqn:Hs; try discriminate.
  intros [= <-]. now exists reference, others, cs, scanned.
Qed.

(** ** C7 *)

(** C7 (minimum duration gate).  Every region in the result of a detection
    has a duration that is at least, hence not less than,
    [MinDurationMs/1000] seconds.  The result is the list emitted during
    the scan, followed, when a candidate is still open at the end of the
    scan, by the region from the candidate's start to the frame count of
    the shortest file, provided that region passes the same gate. *)
Theorem minimum_duration_gate (Log10 : float -> float) (fuel : nat)
    (files : list AudioData) (config : SilenceDetectionConfig) (res : DetectionResult) :
  DetectCommonSilence Log10 fuel files config = Returned res ->
  Forall (fun r =>
            (GoFloat.of_int (MinDurationMs config) / 1000 <=? Duration r)%float = true
            /\ (Duration r <? GoFloat.of_int (MinDurationMs config) / 1000)%float = false)
         (CommonSilenceRegions res)
  /\ exists reference others cs scanned,
       files = reference :: others
       /\ scan Log10 fuel files config (SampleRate reference) (minFramesOf reference others)
               (chunkFramesOf config reference) 0 (-1) []
          = Returned (cs, scanned)
       /\ let candidate :=
            createSilenceRegion cs (minFramesOf reference others) (SampleRate reference) in
          CommonSilenceRegions res
          = if negb (cs =? -1) && meetsMinDuration config candidate
            then scanned ++ [candidate] else scanned.
Proof.
  intros Hres.
  destruct (DetectCommonSilence_returned _ _ _ _ _ Hres)
    as (reference & others & cs & scanned & -> & _ & Hscan & Hregions).
  split.
  - rewrite Hregions.
    eapply Forall_impl;
      [|apply closeAtEnd_gate; eapply scan_gate; [constructor|exact Hscan]].
    intros r Hr. unfold meetsMinDuration in Hr. split; [exact Hr|].
    now apply leb_not_ltb.
  - exists reference, others, cs, scanned. split; [reflexivity|]. split; [exact Hscan|].
    cbv zeta. rewrite Hregions. unfold closeAtEnd, emit.
    destruct (negb (cs =? -1)); [|reflexivity].
    cbn [andb]. reflexivity.
Qed.

(** ** The detector: frame counts and chunk size *)

Lemma GetFrameCount_le_len (ad : AudioData) :
  Slice.len (Samples ad) <= GoInt.max_int ->
  GetFrameCount ad <= Slice.len (Samples ad).
Proof.
  intros Hmax. pose proof (len_nonneg (Samples ad)) as Hn. unfold GetFrameCount.
  destruct (Z.eqb_spec (Channels ad) 0) as [|Hz]; [assumption|].
  assert (Hq : - Slice.len (Samples ad) <= Z.quot (Slice.len (Samples ad)) (Channels ad)
               <= Slice.len (Samples ad)).
  { destruct (Z_lt_le_dec (Channels ad) 0) as [Hneg|Hpos].
    - replace (Channels ad) with (- - Channels ad) by lia.
      rewrite Z.quot_opp_r by lia. rewrite Z.quot_div_nonneg by lia.
      pose proof (Z.div_pos (Slice.len (Samples ad)) (- Channels ad) Hn ltac:(lia)).
      assert (Slice.len (Samples ad) / - Channels ad <= Slice.len (Samples ad))
        by (apply Z.div_le_upper_bound; nia).
      lia.
    - rewrite Z.quot_div_nonneg by lia.
      pose proof (Z.div_pos (Slice.len (Samples ad)) (Channels ad) Hn ltac:(lia)).
      assert (Slice.len (Samples ad) / Channels ad <= Slice.len (Samples ad))
        by (apply Z.div_le_upper_bound; nia).
      lia. }
  rewrite wrap64_id; [lia|].
  unfold GoInt.in_range, GoInt.min_int, GoInt.max_int in *. lia.
Qed.

(** A non-empty frame range inside the buffer lies inside the sample
    slice. *)
Lemma frames_in_bounds (ad : AudioData) (startFrame endFrame : Z) :
  Slice.len (Samples ad) <= GoInt.max_int ->
  0 <= startFrame < endFrame -> endFrame <= GetFrameCount ad ->
  1 <= Channels ad /\ endFrame * Channels ad <= Slice.len (Samples ad).
Proof.
  intros Hmax Hse He. pose proof (len_nonneg (Samples ad)) as Hn.
  assert (Hch : 1 <= Channels ad).
  { destruct (Z_lt_le_dec (Channels ad) 1) as [Hlow|]; [|assumption]. exfalso.
    revert He. unfold GetFrameCount.
    destruct (Z.eqb_spec (Channels ad) 0); [lia|].
    replace (Channels ad) with (- - Channels ad) by lia.
    rewrite Z.quot_opp_r by lia. rewrite Z.quot_div_nonneg by lia.
    pose proof (Z.div_pos (Slice.len (Samples ad)) (- Channels ad) Hn ltac:(lia)).
    assert (Slice.len (Samples ad) / - Channels ad <= Slice.len (Samples ad))
      by (apply Z.div_le_upper_bound; nia).
    rewrite wrap64_id
      by (unfold GoInt.in_range, GoInt.min_int, GoInt.max_int in *; lia).
    lia. }
  split; [assumption|].
  rewrite GetFrameCount_div in He by assumption.
  pose proof (Z.mul_div_le (Slice.len (Samples ad)) (Channels ad) ltac:(lia)). nia.
Qed.

(** The classifier does not panic on a range that starts at a non-negative
    frame. *)
Lemma isChunkSilent_returns (Log10 : float -> float) (ad : AudioData)
    (startFrame endFrame : Z) (thresholdDBFS : float) :
  Slice.len (Samples ad) <= GoInt.max_int -> 0 <= startFrame ->
  exists b, isChunkSilent Log10 ad startFrame endFrame thresholdDBFS = Some b.
Proof.
  intros Hmax Hs. unfold isChunkSilent.
  destruct (Z.geb_spec startFrame endFrame) as [|Hlt]; [now exists true|].
  destruct (Z.gtb_spec endFrame (GetFrameCount ad)) as [|Hle]; [now exists true|].
  cbn [orb].
  destruct (frames_in_bounds ad startFrame endFrame Hmax) as [Hch Hfit]; [lia|lia|].
  unfold chunkEnergy, GoInt.mul.
  rewrite !wrap64_id
    by (unfold GoInt.in_range, GoInt.min_int, GoInt.max_int in *; nia).
  destruct (Z.gtb_spec (endFrame * Channels ad) (Slice.len (Samples ad))); [lia|].
  unfold chunkSamples.
  destruct (Z.ltb_spec (startFrame * Channels ad) (endFrame * Channels ad)).
  - destruct (Z.ltb_spec (startFrame * Channels ad) 0); [nia|].
    destruct (Z.ltb_spec (Slice.len (Samples ad)) (endFrame * Channels ad)); [lia|].
    cbn [orb snd]. destruct (_ =? 0); [now exists true|].
    destruct (_ =? 0)%float; eexists; reflexivity.
  - cbn [snd]. destruct (_ =? 0); [now exists true|].
    destruct (_ =? 0)%float; eexists; reflexivity.
Qed.

(** On a non-empty frame range inside the buffer that starts at a
    non-negative frame, the energy computation reads samples inside the
    slice only. *)
Lemma chunkEnergy_returns (ad : AudioData) (startFrame endFrame : Z) :
  Slice.len (Samples ad) <= GoInt.max_int ->
  0 <= startFrame < endFrame -> endFrame <= GetFrameCount ad ->
  exists energy, chunkEnergy ad startFrame endFrame = Some energy.
Proof.
  intros Hmax Hse He.
  destruct (frames_in_bounds ad startFrame endFrame Hmax Hse He) as [Hch Hfit].
  unfold chunkEnergy, GoInt.mul.
  rewrite !wrap64_id
    by (unfold GoInt.in_range, GoInt.min_int, GoInt.max_int in *; nia).
  destruct (Z.gtb_spec (endFrame * Channels ad) (Slice.len (Samples ad))); [lia|].
  unfold chunkSamples.
  destruct (Z.ltb_spec (startFrame * Channels ad) (endFrame * Channels ad));
    [|eexists; reflexivity].
  destruct (Z.ltb_spec (startFrame * Channels ad) 0); [nia|].
  destruct (Z.ltb_spec (Slice.len (Samples ad)) (endFrame * Channels ad)); [lia|].
  cbn [orb]. eexists. reflexivity.
Qed.

(** ** C5 *)

(** C5 as stated fails: in a buffer of four zero samples the range from
    frame -1 to frame 2 passes the bounds test (it is not inverted and does
    not reach past the frame count), every sample it could cover is zero,
    and the classifier panics at [audioData.Samples[-1]] instead of
    returning true. *)
Lemma negative_start_frame_panics :
  Forall (fun sample => sample = 0) (Samples (buffer [0; 0; 0; 0] 1000 1 16))
  /\ -1 < 2 <= GetFrameCount (buffer [0; 0; 0; 0] 1000 1 16)
  /\ forall (Log10 : float -> float) (thresholdDBFS : float),
       isChunkSilent Log10 (buffer [0; 0; 0; 0] 1000 1 16) (-1) 2 thresholdDBFS = None.
Proof.
  split; [repeat constructor|]. split; [vm_compute; split; [reflexivity|discriminate]|].
  intros Log10 thresholdDBFS. reflexivity.
Qed.

(** C5 (guaranteed-silent cases, amended).  For every buffer, frame range
    and threshold, and whatever [Log10] computes: a range that is empty or
    inverted, or that starts at or reaches past the buffer's frame count,
    is classified silent; and on a range inside the buffer that starts at a
    non-negative frame the energy computation returns, and when the RMS
    energy it yields is exactly zero the range is classified silent.  The
    sample slice is no longer than the largest [int], as every Go slice
    is. *)
Theorem guaranteed_silent (Log10 : float -> float) (ad : AudioData)
    (startFrame endFrame : Z) (thresholdDBFS : float) :
  Slice.len (Samples ad) <= GoInt.max_int ->
  (startFrame >= endFrame
   \/ startFrame >= GetFrameCount ad
   \/ endFrame > GetFrameCount ad ->
   isChunkSilent Log10 ad startFrame endFrame thresholdDBFS = Some true)
  /\ (0 <= startFrame < endFrame -> endFrame <= GetFrameCount ad ->
      exists energy,
        chunkEnergy ad startFrame endFrame = Some energy
        /\ ((rmsOf energy =? 0)%float = true ->
            isChunkSilent Log10 ad startFrame endFrame thresholdDBFS = Some true)).
Proof.
  intros Hmax. split.
  - intros H. unfold isChunkSilent.
    destruct (Z.geb_spec startFrame endFrame) as [|Hlt]; [reflexivity|].
    destruct (Z.gtb_spec endFrame (GetFrameCount ad)) as [|Hle]; [reflexivity|].
    lia.
  - intros Hse He.
    destruct (chunkEnergy_returns ad startFrame endFrame Hmax Hse He) as [energy Hen].
    exists energy. split; [exact Hen|]. intros Hz. unfold isChunkSilent.
    destruct (Z.geb_spec startFrame endFrame) as [|Hlt]; [reflexivity|].
    destruct (Z.gtb_spec endFrame (GetFrameCount ad)) as [|Hle]; [reflexivity|].
    cbn [orb]. rewrite Hen. destruct (snd energy =? 0); [reflexivity|].
    now rewrite Hz.
Qed.

Lemma guaranteed_silent_witness :
  (Slice.len (Samples (buffer [0; 0; 0; 0] 1000 1 16)) <= GoInt.max_int
   /\ 0 <= 0 < 4
   /\ 4 <= GetFrameCount (buffer [0; 0; 0; 0] 1000 1 16))
  /\ isChunkSilent (fun x => x) (buffer [0; 0; 0; 0] 1000 1 16) 4 8 (-120)%float
     = Some true
  /\ isChunkSilent (fun x => x) (buffer [0; 0; 0; 0] 1000 1 16) 0 4 (-120)%float
     = Some true.
Proof.
  assert (H1 : Slice.len (Samples (buffer [0; 0; 0; 0] 1000 1 16)) <= GoInt.max_int)
    by (vm_compute; discriminate).
  assert (H2 : 0 <= 0 < 4) by lia.
  assert (H3 : 4 <= GetFrameCount (buffer [0; 0; 0; 0] 1000 1 16))
    by (vm_compute; discriminate).
  split; [repeat split; assumption || lia|]. split.
  - apply (proj1 (guaranteed_silent (fun x => x) (buffer [0; 0; 0; 0] 1000 1 16) 4 8
                    (-120)%float H1)).
    right. left. vm_compute. discriminate.
  - destruct (proj2 (guaranteed_silent (fun x => x) (buffer [0; 0; 0; 0] 1000 1 16) 0 4
                       (-120)%float H1) H2 H3) as (energy & Hen & Hsilent).
    apply Hsilent. vm_compute in Hen. injection Hen as <-. vm_compute. reflexivity.
Defined.

Lemma isCommonSilence_returns (Log10 : float -> float) (files : list AudioData)
    (frameStart frameEnd : Z) (thresholdDBFS : float) :
  Forall (fun ad => Slice.len (Samples ad) <= GoInt.max_int) files -> 0 <= frameStart ->
  exists b, isCommonSilence Log10 files frameStart frameEnd thresholdDBFS = Some b.
Proof.
  intros Hall Hs. induction Hall as [|ad files Had Hall IH]; cbn [isCommonSilence].
  - now exists true.
  - destruct (isChunkSilent_returns Log10 ad frameStart frameEnd thresholdDBFS Had Hs)
      as [[|] ->]; [exact IH|now exists false].
Qed.

Lemma minFramesOf_le (reference : AudioData) (others : list AudioData) :
  minFramesOf reference others <= GetFrameCount reference.
Proof.
  unfold minFramesOf. generalize (GetFrameCount reference) as init.
  induction others as [|ad others IH]; intros init; cbn [fold_left]; [lia|].
  etransitivity; [apply IH|].
  destruct (Z.ltb_spec (GetFrameCount ad) init); lia.
Qed.

Lemma chunkFramesOf_bounds (config : SilenceDetectionConfig) (reference : AudioData) :
  0 < ChunkSizeMs config -> 0 < SampleRate reference ->
  ChunkSizeMs config * SampleRate reference <= GoInt.max_int ->
  1 <= chunkFramesOf config reference <= 2 ^ 54.
Proof.
  intros Hc Hs Hmax. unfold chunkFramesOf, GoInt.mul.
  set (p := ChunkSizeMs config * SampleRate reference) in *.
  assert (Hp : 0 < p) by (unfold p; nia).
  rewrite (wrap64_id p)
    by (unfold GoInt.in_range, GoInt.min_int, GoInt.max_int in *; lia).
  rewrite Z.quot_div_nonneg by lia.
  pose proof (Z.div_pos p 1000 ltac:(lia) ltac:(lia)) as Hq0.
  assert (Hq1 : p / 1000 <= 2 ^ 54 - 1).
  { apply Z.div_le_upper_bound; [lia|]. unfold GoInt.max_int in Hmax. lia. }
  rewrite wrap64_id
    by (unfold GoInt.in_range, GoInt.min_int, GoInt.max_int in *; lia).
  destruct (Z.eqb_spec (p / 1000) 0); lia.
Qed.

(** ** The detector: the scan *)

Lemma scanInv_emit (config : SilenceDetectionConfig) (sampleRate minFrames : Z)
    (frameStart next cs : Z) (regions : list SilenceRegion) :
  scanInv minFrames frameStart cs regions -> cs <> -1 -> frameStart <= next ->
  scanInv minFrames next (-1)
          (emit config regions (createSilenceRegion cs frameStart sampleRate)).
Proof.
  intros (Hfs & Hcs & Hsorted & Hall) Hopen Hnext.
  destruct Hcs as [|[Hcs HcsM]]; [contradiction|].
  destruct (Z.eqb_spec cs (-1)); [contradiction|].
  assert (Hall' : Forall (fun r => 0 <= StartFrame r < EndFrame r /\ EndFrame r <= next)
                         regions).
  { eapply Forall_impl; [|exact Hall]. cbn beta. intros r Hr. lia. }
  unfold scanInv. change (-1 =? -1) with true. cbn iota.
  split; [lia|]. split; [now left|].
  unfold emit. destruct (meetsMinDuration config _); [|now split].
  split.
  - apply StronglySorted_snoc; [assumption|].
    eapply Forall_impl; [|exact Hall]. unfold precedes. cbn. intros r Hr. lia.
  - apply Forall_app. split; [assumption|]. repeat constructor; cbn; lia.
Qed.

(** The scan preserves its invariant while the frame index advances
    without wrap-around. *)
Lemma scan_invariant (Log10 : float -> float) (files : list AudioData)
    (config : SilenceDetectionConfig) (sampleRate minFrames chunkFrames : Z) :
  1 <= chunkFrames -> minFrames + chunkFrames <= GoInt.max_int ->
  forall fuel frameStart cs regions cs' regions',
    scanInv minFrames frameStart cs regions ->
    scan Log10 fuel files config sampleRate minFrames chunkFrames frameStart cs regions
    = Returned (cs', regions') ->
    exists frameStart', scanInv minFrames frameStart' cs' regions'.
Proof.
  intros Hc Hmax. induction fuel as [|fuel IH];
    intros frameStart cs regions cs' regions' Hinv; cbn [scan];
    destruct (Z.ltb_spec frameStart minFrames) as [Hlt|Hge]; try discriminate;
    try (intros [= <- <-]; now exists frameStart).
  assert (Hfs : 0 <= frameStart) by apply Hinv.
  assert (Hadd : GoInt.add frameStart chunkFrames = frameStart + chunkFrames).
  { apply wrap64_id. unfold GoInt.in_range, GoInt.min_int, GoInt.max_int in *. lia. }
  rewrite Hadd.
  destruct (isCommonSilence _ _ _ _ _) as [[|]|]; try discriminate.
  - apply IH. destruct Hinv as (_ & Hcs & Hsorted & Hall).
    destruct (Z.eqb_spec cs (-1)) as [->|Hopen].
    + split; [lia|]. split; [right; lia|]. split; [assumption|].
      destruct (Z.eqb_spec frameStart (-1)); [lia|]. assumption.
    + destruct Hcs as [|[Hcs HcsM]]; [contradiction|].
      split; [lia|]. split; [right; lia|]. split; [assumption|].
      destruct (Z.eqb_spec cs (-1)); [contradiction|]. assumption.
  - destruct (Z.eqb_spec cs (-1)) as [->|Hopen]; cbn [negb]; apply IH.
    + destruct Hinv as (_ & _ & Hsorted & Hall).
      split; [lia|]. split; [now left|]. split; [assumption|].
      eapply Forall_impl; [|exact Hall]. cbn. intros r Hr. lia.
    + apply scanInv_emit; [assumption|assumption|lia].
Qed.

(** With enough fuel the scan returns. *)
Lemma scan_returns (Log10 : float -> float) (files : list AudioData)
    (config : SilenceDetectionConfig) (sampleRate minFrames chunkFrames : Z) :
  1 <= chunkFrames -> minFrames + chunkFrames <= GoInt.max_int ->
  Forall (fun ad => Slice.len (Samples ad) <= GoInt.max_int) files ->
  forall fuel frameStart cs regions,
    0 <= frameStart -> (Z.to_nat (minFrames - frameStart) <= fuel)%nat ->
    exists out,
      scan Log10 fuel files config sampleRate minFrames chunkFrames frameStart cs regions
      = Returned out.
Proof.
  intros Hc Hmax Hfiles. induction fuel as [|fuel IH];
    intros frameStart cs regions Hfs Hfuel; cbn [scan];
    destruct (Z.ltb_spec frameStart minFrames) as [Hlt|Hge];
    try (eexists; reflexivity); [lia|].
  assert (Hadd : GoInt.add frameStart chunkFrames = frameStart + chunkFrames).
  { apply wrap64_id. unfold GoInt.in_range, GoInt.min_int, GoInt.max_int in *. lia. }
  rewrite Hadd.
  destruct (isCommonSilence_returns Log10 files frameStart
              (if frameStart + chunkFrames >? minFrames then minFrames
               else frameStart + chunkFrames)
              (ThresholdDBFS config) Hfiles Hfs) as [[|] ->].
  - apply IH; lia.
  - destruct (negb (cs =? -1)); apply IH; lia.
Qed.

Lemma closeAtEnd_ordered (config : SilenceDetectionConfig) (sampleRate minFrames : Z)
    (frameStart cs : Z) (regions : list SilenceRegion) :
  scanInv minFrames frameStart cs regions ->
  StronglySorted precedes (closeAtEnd config sampleRate minFrames cs regions)
  /\ Forall (fun r => 0 <= StartFrame r < EndFrame r)
            (closeAtEnd config sampleRate minFrames cs regions).
Proof.
  intros (Hfs & Hcs & Hsorted & Hall).
  assert (Hne : Forall (fun r => 0 <= StartFrame r < EndFrame r) regions)
    by (eapply Forall_impl; [|exact Hall]; cbn; tauto).
  unfold closeAtEnd. destruct (Z.eqb_spec cs (-1)) as [|Hopen]; cbn [negb]; [now split|].
  destruct Hcs as [|[Hcs HcsM]]; [contradiction|].
  unfold emit. destruct (meetsMinDuration config _); [|now split].
  split.
  - apply StronglySorted_snoc; [assumption|].
    eapply Forall_impl; [|exact Hall]. unfold precedes. cbn. intros r Hr. lia.
  - apply Forall_app. split; [assumption|]. repeat constructor; cbn; lia.
Qed.

(** ** C6 *)

(** C6 (non-overlap and ordering).  For a non-empty list of buffers and a
    configuration with a positive chunk size, the first buffer having a
    positive sample rate, the chunk size in frames being computed without
    wrap-around and every sample slice being shorter than [2^62] (a slice
    of 4-byte samples always is): when the formats agree the detection
    returns; and whenever it returns, each region of its result ends at or
    before the start of the next one, and the regions are in ascending
    order of start frame. *)
Theorem regions_ordered (Log10 : float -> float) (reference : AudioData)
    (others : list AudioData) (config : SilenceDetectionConfig) :
  0 < ChunkSizeMs config ->
  0 < SampleRate reference ->
  ChunkSizeMs config * SampleRate reference <= GoInt.max_int ->
  Forall (fun ad => Slice.len (Samples ad) < 2 ^ 62) (reference :: others) ->
  (formatMismatch reference others = false ->
   exists fuel res,
     DetectCommonSilence Log10 fuel (reference :: others) config = Returned res)
  /\ forall fuel res,
       DetectCommonSilence Log10 fuel (reference :: others) config = Returned res ->
       (forall i a b,
           nth_error (CommonSilenceRegions res) i = Some a ->
           nth_error (CommonSilenceRegions res) (S i) = Some b ->
           EndFrame a <= StartFrame b)
       /\ StronglySorted (fun a b => StartFrame a < StartFrame b)
                         (CommonSilenceRegions res).
Proof.
  intros Hchunk Hrate Hprod Hlen.
  pose proof (chunkFramesOf_bounds config reference Hchunk Hrate Hprod) as Hc.
  assert (Hfiles : Forall (fun ad => Slice.len (Samples ad) <= GoInt.max_int)
                          (reference :: others)).
  { eapply Forall_impl; [|exact Hlen]. unfold GoInt.max_int. cbn beta. intros ad Had. lia. }
  assert (Hmin : minFramesOf reference others + chunkFramesOf config reference
                 <= GoInt.max_int).
  { pose proof (minFramesOf_le reference others) as Hm.
    inversion Hlen as [|? ? Href _]; subst.
    inversion Hfiles as [|? ? Href' _]; subst.
    pose proof (GetFrameCount_le_len reference Href') as Hf.
    unfold GoInt.max_int. lia. }
  split.
  - intros Hformat.
    destruct (scan_returns Log10 (reference :: others) config (SampleRate reference)
                (minFramesOf reference others) (chunkFramesOf config reference)
                ltac:(lia) Hmin Hfiles
                (Z.to_nat (minFramesOf reference others)) 0 (-1) [])
      as [[cs scanned] Hscan]; [lia|lia|].
    exists (Z.to_nat (minFramesOf reference others)).
    unfold DetectCommonSilence. rewrite Hformat, Hscan. eexists. reflexivity.
  - intros fuel res Hres.
    destruct (DetectCommonSilence_returned _ _ _ _ _ Hres)
      as (reference' & others' & cs & scanned & Heq & _ & Hscan & Hregions).
    injection Heq as <- <-.
    destruct (scan_invariant Log10 (reference :: others) config (SampleRate reference)
                (minFramesOf reference others) (chunkFramesOf config reference)
                ltac:(lia) Hmin fuel 0 (-1) [] cs scanned)
      as [frameStart' Hinv]; [|exact Hscan|].
    { split; [lia|]. split; [now left|]. split; constructor. }
    destruct (closeAtEnd_ordered config (SampleRate reference)
                (minFramesOf reference others) frameStart' cs scanned Hinv)
      as [Hsorted Hne].
    rewrite Hregions. split.
    + intros i a b Ha Hb.
      exact (StronglySorted_consecutive precedes _ Hsorted i a b Ha Hb).
    + apply precedes_strict_starts; [assumption|].
      eapply Forall_impl; [|exact Hne]. cbn. intros r Hr. lia.
Qed.

Lemma regions_ordered_witness :
  (0 < ChunkSizeMs twoGapConfig
   /\ 0 < SampleRate (buffer [0; 0; 1000; 0; 0; 0] 1000 1 16)
   /\ ChunkSizeMs twoGapConfig * SampleRate (buffer [0; 0; 1000; 0; 0; 0] 1000 1 16)
      <= GoInt.max_int
   /\ Forall (fun ad => Slice.len (Samples ad) < 2 ^ 62) twoGapTracks)
  /\ exists res,
       DetectCommonSilence flatLog10 7 twoGapTracks twoGapConfig = Returned res
       /\ CommonSilenceRegions res
          = [createSilenceRegion 0 2 1000; createSilenceRegion 3 6 1000]
       /\ (forall i a b,
              nth_error (CommonSilenceRegions res) i = Some a ->
              nth_error (CommonSilenceRegions res) (S i) = Some b ->
              EndFrame a <= StartFrame b)
       /\ StronglySorted (fun a b => StartFrame a < StartFrame b)
                         (CommonSilenceRegions res).
Proof.
  assert (H1 : 0 < ChunkSizeMs twoGapConfig) by (vm_compute; reflexivity).
  assert (H2 : 0 < SampleRate (buffer [0; 0; 1000; 0; 0; 0] 1000 1 16))
    by (vm_compute; reflexivity).
  assert (H3 : ChunkSizeMs twoGapConfig
               * SampleRate (buffer [0; 0; 1000; 0; 0; 0] 1000 1 16)
               <= GoInt.max_int) by (vm_compute; discriminate).
  assert (H4 : Forall (fun ad => Slice.len (Samples ad) < 2 ^ 62) twoGapTracks)
    by (repeat constructor).
  split; [repeat split; assumption|].
  destruct (DetectCommonSilence flatLog10 7 twoGapTracks twoGapConfig)
    as [res|msg| |] eqn:Hres; try (vm_compute in Hres; discriminate).
  exists res. split; [reflexivity|].
  split; [vm_compute in Hres; injection Hres as <-; reflexivity|].
  exact (proj2 (regions_ordered flatLog10 (buffer [0; 0; 1000; 0; 0; 0] 1000 1 16)
                  [buffer [0; 0; 500; 0; 0; 0; 700] 1000 1 16] twoGapConfig H1 H2 H3 H4)
               7%nat res Hres).
Defined.

Lemma minimum_duration_gate_witness :
  DetectCommonSilence flatLog10 4 gapTracks gapConfig = Returned gapResult
  /\ Forall (fun r =>
               (GoFloat.of_int (MinDurationMs gapConfig) / 1000 <=? Duration r)%float = true
               /\ (Duration r <? GoFloat.of_int (MinDurationMs gapConfig) / 1000)%float
                  = false)
            (CommonSilenceRegions gapResult)
  /\ exists reference others cs scanned,
       gapTracks = reference :: others
       /\ scan flatLog10 4 gapTracks gapConfig (SampleRate reference)
               (minFramesOf reference others) (chunkFramesOf gapConfig reference) 0 (-1) []
          = Returned (cs, scanned)
       /\ let candidate :=
            createSilenceRegion cs (minFramesOf reference others) (SampleRate reference) in
          CommonSilenceRegions gapResult
          = if negb (cs =? -1) && meetsMinDuration gapConfig candidate
            then scanned ++ [candidate] else scanned.
Proof.
  assert (H : DetectCommonSilence flatLog10 4 gapTracks gapConfig = Returned gapResult)
    by (vm_compute; reflexivity).
  split; [exact H|].
  exact (minimum_duration_gate flatLog10 4 gapTracks gapConfig gapResult H).
Defined.

(** Scenario B of the specification, on the same tracks: with a minimum
    duration of 25 ms the 20 ms gap is rejected and no region is emitted. *)
Example gate_rejects_short_gap :
  exists res,
    DetectCommonSilence flatLog10 4 gapTracks
      {| ThresholdDBFS := (-50)%float; MinDurationMs := 25; ChunkSizeMs := 10 |}
    = Returned res
    /\ CommonSilenceRegions res = [].
Proof. eexists. split; vm_compute; reflexivity. Qed.

(** * Further properties of the excisor *)

Lemma Sublist_refl {A} (l : list A) : Sublist l l.
Proof. induction l; [constructor|now apply Sublist_keep]. Qed.

Lemma Sublist_app {A} (l1 l2 m1 m2 : list A) :
  Sublist l1 l2 -> Sublist m1 m2 -> Sublist (l1 ++ m1) (l2 ++ m2).
Proof.
  induction 1; intros Hm; cbn;
    [assumption|apply Sublist_skip; auto|apply Sublist_keep; auto].
Qed.

(** An iteration leaves the list of regions cut as it is or adds its region,
    whose duration then exceeds the keep duration. *)
Lemma cutRegion_regions (ad : AudioData) (k : float) (st st' : cut_state) (r : SilenceRegion) :
  cutRegion ad k st r = Some st' ->
  regionsCut st' = regionsCut st
  \/ (regionsCut st' = r :: regionsCut st /\ (Duration r <=? k)%float = false).
Proof.
  unfold cutRegion. destruct (Duration r <=? k)%float.
  - intros [= <-]. now left.
  - destruct (_ && _).
    + destruct (splice _ _ _); [|discriminate]. intros [= <-]. right. now split.
    + intros [= <-]. now left.
Qed.

Lemma cutLoop_regions (ad : AudioData) (k : float) (rs : list SilenceRegion) :
  forall st st',
    cutLoop ad k rs st = Some st' ->
    exists added,
      regionsCut st' = added ++ regionsCut st
      /\ Sublist added (rev rs)
      /\ Forall (fun r => (Duration r <=? k)%float = false) added.
Proof.
  induction rs as [|r rs IH]; intros st st' Hrun; cbn [cutLoop] in Hrun.
  - injection Hrun as <-. exists []. repeat split; constructor.
  - destruct (cutRegion ad k st r) as [st1|] eqn:Hstep; [|discriminate].
    destruct (IH st1 st' Hrun) as (added & Hadd & Hsub & Hall).
    cbn [rev].
    destruct (cutRegion_regions ad k st st1 r Hstep) as [Heq|[Heq Hd]].
    + exists added. rewrite Hadd, Heq. split; [reflexivity|]. split; [|assumption].
      rewrite <- (app_nil_r added). apply Sublist_app; [assumption|].
      apply Sublist_skip. constructor.
    + exists (added ++ [r]). rewrite Hadd, Heq, <- app_assoc.
      split; [reflexivity|]. split.
      * apply Sublist_app; [assumption|]. apply Sublist_keep. constructor.
      * apply Forall_app. split; [assumption|]. now repeat constructor.
Qed.

(** X1.  The regions reported as cut are regions of the input list, in the
    order of the input list, and each has a duration greater than the keep
    duration. *)
Theorem regions_cut_in_input_order (ad ad' : AudioData) (res : CuttingResult)
    (regions : list SilenceRegion) (keepMs : Z) :
  CutSilenceRegions (Some ad) regions keepMs = Returned (ad', res) ->
  Sublist (RegionsCut res) regions
  /\ Forall (fun r => (Duration r <=? keepDurationSecOf keepMs)%float = false)
            (RegionsCut res).
Proof.
  unfold CutSilenceRegions.
  destruct (cutPass ad regions keepMs) as [st|] eqn:Hpass; [|discriminate].
  intros [= <- <-]. cbn [RegionsCut].
  rewrite cutPass_clone in Hpass.
  destruct (cutLoop_regions _ _ _ _ _ Hpass) as (added & Hadd & Hsub & Hall).
  cbn [regionsCut] in Hadd. rewrite app_nil_r in Hadd. subst added.
  rewrite rev_involutive in Hsub. now split.
Qed.

(** With a non-negative [keepSamples] and no wrap-around the cut start is at
    or after the region start. *)
Lemma cutStartSampleOf_ge (ad : AudioData) (k : float) (r : SilenceRegion) (n : Z) :
  0 <= keepSamplesOf ad k ->
  startSampleOf ad r + keepSamplesOf ad k <= GoInt.max_int ->
  startSampleOf ad r <= cutStartSampleOf ad k r n.
Proof.
  intros Hkeep Hsum. pose proof (startSampleOf_range ad r) as Hs.
  unfold cutStartSampleOf, GoInt.add.
  rewrite wrap64_id
    by (unfold GoInt.in_range, GoInt.min_int, GoInt.max_int in *; lia).
  destruct (Z.gtb_spec (startSampleOf ad r + keepSamplesOf ad k) (endSampleOf ad r n)); lia.
Qed.

(** X2.  An iteration that returns either leaves the samples as they are or
    removes one block of them; the block lies between the start sample and
    the (clamped) end sample of the region and is no longer than
    [cutSamples]. *)
Theorem cut_stays_inside_region (ad : AudioData) (k : float) (st st' : cut_state)
    (r : SilenceRegion) :
  Slice.len (modifiedSamples st) <= GoInt.max_int ->
  0 <= keepSamplesOf ad k ->
  startSampleOf ad r + keepSamplesOf ad k <= GoInt.max_int ->
  cutRegion ad k st r = Some st' ->
  modifiedSamples st' = modifiedSamples st
  \/ exists c a,
       startSampleOf ad r <= c
       /\ 0 < a
       /\ c + a <= endSampleOf ad r (Slice.len (modifiedSamples st))
       /\ endSampleOf ad r (Slice.len (modifiedSamples st)) <= Slice.len (modifiedSamples st)
       /\ a <= cutSamplesOf ad k r
       /\ modifiedSamples st'
          = firstn (Z.to_nat c) (modifiedSamples st)
            ++ skipn (Z.to_nat (c + a)) (modifiedSamples st).
Proof.
  intros Hmax Hkeep Hsum Hstep.
  pose proof (cutRegion_iteration ad k st r Hmax) as Hit. rewrite Hstep in Hit.
  inversion Hit as [Heq| |c e a Hc He Ha Hd Hpos Hce Hpa Heq]; [now left|].
  right. exists c, a.
  pose proof (cutStartSampleOf_ge ad k r (Slice.len (modifiedSamples st)) Hkeep Hsum).
  pose proof (endSampleOf_le ad r (Slice.len (modifiedSamples st))).
  repeat split; lia.
Qed.

Lemma cut_stays_inside_region_witness :
  let ad := buffer (ramp 1000) 1000 1 16 in
  let k := keepDurationSecOf 40 in
  let r := createSilenceRegion 100 200 1000 in
  let st := {| modifiedSamples := ramp 1000; regionsCut := [];
               totalRemovedDuration := 0%float; cutTrace := [] |} in
  let st' := afterCut ad st r 140 60 in
  (Slice.len (modifiedSamples st) <= GoInt.max_int
   /\ 0 <= keepSamplesOf ad k
   /\ startSampleOf ad r + keepSamplesOf ad k <= GoInt.max_int
   /\ cutRegion ad k st r = Some st')
  /\ (modifiedSamples st' = modifiedSamples st
      \/ exists c a,
           startSampleOf ad r <= c
           /\ 0 < a
           /\ c + a <= endSampleOf ad r (Slice.len (modifiedSamples st))
           /\ endSampleOf ad r (Slice.len (modifiedSamples st))
              <= Slice.len (modifiedSamples st)
           /\ a <= cutSamplesOf ad k r
           /\ modifiedSamples st'
              = firstn (Z.to_nat c) (modifiedSamples st)
                ++ skipn (Z.to_nat (c + a)) (modifiedSamples st)).
Proof.
  intros ad k r st st'.
  assert (H1 : Slice.len (modifiedSamples st) <= GoInt.max_int) by (vm_compute; discriminate).
  assert (H2 : 0 <= keepSamplesOf ad k) by (vm_compute; discriminate).
  assert (H3 : startSampleOf ad r + keepSamplesOf ad k <= GoInt.max_int)
    by (vm_compute; discriminate).
  assert (H4 : cutRegion ad k st r = Some st') by (vm_compute; reflexivity).
  split; [repeat split; assumption|].
  exact (cut_stays_inside_region ad k st st' r H1 H2 H3 H4).
Defined.

(** The samples in front of every region start survive the loop. *)
Lemma cutLoop_prefix (ad : AudioData) (k : float) (p : Z) (rs : list SilenceRegion) :
  0 <= keepSamplesOf ad k ->
  Forall (fun r => p <= startSampleOf ad r
                   /\ startSampleOf ad r + keepSamplesOf ad k <= GoInt.max_int) rs ->
  forall st,
    Slice.len (modifiedSamples st) <= GoInt.max_int ->
    exists st',
      cutLoop ad k rs st = Some st'
      /\ firstn (Z.to_nat p) (modifiedSamples st') = firstn (Z.to_nat p) (modifiedSamples st).
Proof.
  intros Hkeep Hall. induction Hall as [|r rs [Hp Hsum] Hall IH]; intros st Hmax;
    cbn [cutLoop].
  - now exists st.
  - pose proof (cutRegion_iteration ad k st r Hmax) as Hit.
    pose proof (cutStartSampleOf_ge ad k r (Slice.len (modifiedSamples st)) Hkeep Hsum) as Hge.
    pose proof (startSampleOf_range ad r) as Hs.
    inversion Hit as [Heq|Hneg Hce Hcs Heq|c e a Hc He Ha Hd Hpos Hce Hpa Heq].
    + now apply IH.
    + lia.
    + pose proof (endSampleOf_le ad r (Slice.len (modifiedSamples st))) as Hle.
      destruct (IH (afterCut ad st r c a)) as (st' & Hrun & Hpre).
      { rewrite len_afterCut by lia. lia. }
      exists st'. split; [exact Hrun|]. rewrite Hpre.
      cbn [afterCut modifiedSamples].
      destruct (Z_le_gt_dec p 0) as [Hp0|Hp0].
      { replace (Z.to_nat p) with 0%nat by lia. reflexivity. }
      rewrite firstn_app, firstn_firstn.
      rewrite (Nat.min_l (Z.to_nat p) (Z.to_nat c)) by lia.
      rewrite length_firstn.
      replace (Z.to_nat p - Nat.min (Z.to_nat c) (List.length (modifiedSamples st)))%nat
        with 0%nat by (unfold Slice.len in *; lia).
      cbn. apply app_nil_r.
Qed.

(** X3.  When [keepSamples] is not negative and the cut starts are computed
    without wrap-around, the excision returns and the samples in front of
    the smallest region start are those of the input. *)
Theorem audio_before_regions_is_kept (ad : AudioData) (regions : list SilenceRegion)
    (keepMs p : Z) :
  Slice.len (Samples ad) <= GoInt.max_int ->
  0 <= keepSamplesOf ad (keepDurationSecOf keepMs) ->
  Forall (fun r => p <= startSampleOf ad r
                   /\ startSampleOf ad r + keepSamplesOf ad (keepDurationSecOf keepMs)
                      <= GoInt.max_int) regions ->
  exists ad' res,
    CutSilenceRegions (Some ad) regions keepMs = Returned (ad', res)
    /\ firstn (Z.to_nat p) (Samples ad') = firstn (Z.to_nat p) (Samples ad).
Proof.
  intros Hmax Hkeep Hall. unfold CutSilenceRegions. rewrite cutPass_clone.
  destruct (cutLoop_prefix ad (keepDurationSecOf keepMs) p (rev regions) Hkeep)
    with (st := {| modifiedSamples := Samples ad; regionsCut := [];
                   totalRemovedDuration := 0%float; cutTrace := [] |})
    as (st' & Hrun & Hpre).
  - now apply Forall_rev.
  - exact Hmax.
  - rewrite Hrun. eexists _, _. split; [reflexivity|]. exact Hpre.
Qed.

Lemma audio_before_regions_is_kept_witness :
  let ad := buffer (ramp 1000) 1000 1 16 in
  let regions := [createSilenceRegion 100 200 1000; createSilenceRegion 500 700 1000] in
  (Slice.len (Samples ad) <= GoInt.max_int
   /\ 0 <= keepSamplesOf ad (keepDurationSecOf 40)
   /\ Forall (fun r => 100 <= startSampleOf ad r
                       /\ startSampleOf ad r + keepSamplesOf ad (keepDurationSecOf 40)
                          <= GoInt.max_int) regions)
  /\ exists ad' res,
       CutSilenceRegions (Some ad) regions 40 = Returned (ad', res)
       /\ firstn (Z.to_nat 100) (Samples ad') = firstn (Z.to_nat 100) (Samples ad).
Proof.
  intros ad regions.
  assert (H1 : Slice.len (Samples ad) <= GoInt.max_int) by (vm_compute; discriminate).
  assert (H2 : 0 <= keepSamplesOf ad (keepDurationSecOf 40)) by (vm_compute; discriminate).
  assert (H3 : Forall (fun r => 100 <= startSampleOf ad r
                       /\ startSampleOf ad r + keepSamplesOf ad (keepDurationSecOf 40)
                          <= GoInt.max_int) regions)
    by (repeat constructor; vm_compute; discriminate).
  split; [repeat split; assumption|].
  exact (audio_before_regions_is_kept ad regions 40 100 H1 H2 H3).
Defined.

(** ** Excision of the same regions from tracks of the same format *)

Lemma inside_samples (ad : AudioData) (r : SilenceRegion) (n : Z) :
  1 <= Channels ad -> n <= GoInt.max_int -> inside (Channels ad) n r ->
  startSampleOf ad r = StartFrame r * Channels ad
  /\ endSampleOf ad r n = EndFrame r * Channels ad
  /\ 0 <= StartFrame r * Channels ad <= EndFrame r * Channels ad.
Proof.
  intros Hch Hmax [[Hs Hse] He].
  assert (Hord : 0 <= StartFrame r * Channels ad <= EndFrame r * Channels ad) by nia.
  unfold startSampleOf, endSampleOf, GoInt.mul.
  rewrite !wrap64_id
    by (unfold GoInt.in_range, GoInt.min_int, GoInt.max_int in *; lia).
  destruct (Z.ltb_spec (StartFrame r * Channels ad) 0); [lia|].
  destruct (Z.gtb_spec (EndFrame r * Channels ad) n); [lia|]. auto.
Qed.

Lemma cutRegion_no_cut (ad : AudioData) (k : float) (st : cut_state) (r : SilenceRegion) :
  ~ (cutStartSampleOf ad k r (Slice.len (modifiedSamples st))
       < endSampleOf ad r (Slice.len (modifiedSamples st))
     /\ 0 < cutSamplesOf ad k r) ->
  cutRegion ad k st r = Some st.
Proof.
  intros Hno. unfold cutRegion. destruct (Duration r <=? k)%float; [reflexivity|].
  destruct (Z.ltb_spec (cutStartSampleOf ad k r (Slice.len (modifiedSamples st)))
                       (endSampleOf ad r (Slice.len (modifiedSamples st))));
    destruct (Z.gtb_spec (cutSamplesOf ad k r) 0); cbn [andb]; try reflexivity.
  exfalso. apply Hno. lia.
Qed.

(** One iteration on two tracks of the same format, for a region inside
    both: the same decision, and the same block removed. *)
Lemma cutRegion_synced (ad1 ad2 : AudioData) (k : float) (st1 st2 : cut_state)
    (r : SilenceRegion) :
  SampleRate ad1 = SampleRate ad2 -> Channels ad1 = Channels ad2 ->
  1 <= Channels ad1 ->
  Slice.len (modifiedSamples st1) <= GoInt.max_int ->
  Slice.len (modifiedSamples st2) <= GoInt.max_int ->
  0 <= keepSamplesOf ad1 k ->
  StartFrame r * Channels ad1 + keepSamplesOf ad1 k <= GoInt.max_int ->
  inside (Channels ad1) (Slice.len (modifiedSamples st1)) r ->
  inside (Channels ad1) (Slice.len (modifiedSamples st2)) r ->
  synced st1 st2 ->
  exists st1' st2',
    cutRegion ad1 k st1 r = Some st1'
    /\ cutRegion ad2 k st2 r = Some st2'
    /\ synced st1' st2'
    /\ StartFrame r * Channels ad1 <= Slice.len (modifiedSamples st1')
         <= Slice.len (modifiedSamples st1)
    /\ StartFrame r * Channels ad1 <= Slice.len (modifiedSamples st2')
         <= Slice.len (modifiedSamples st2).
Proof.
  intros Hsr Hch Hch1 Hmax1 Hmax2 Hkeep Hsum Hin1 Hin2 (Hrc & Htot & Htr).
  assert (Hch2 : 1 <= Channels ad2) by lia.
  assert (Hin2' : inside (Channels ad2) (Slice.len (modifiedSamples st2)) r)
    by now rewrite <- Hch.
  destruct (inside_samples ad1 r _ Hch1 Hmax1 Hin1) as (Hs1 & He1 & Hord).
  destruct (inside_samples ad2 r _ Hch2 Hmax2 Hin2') as (Hs2 & He2 & _).
  assert (Hk : keepSamplesOf ad2 k = keepSamplesOf ad1 k)
    by (unfold keepSamplesOf, keepFramesOf; now rewrite Hsr, Hch).
  assert (Hcs : cutSamplesOf ad2 k r = cutSamplesOf ad1 k r)
    by (unfold cutSamplesOf, cutFramesOf; now rewrite Hsr, Hch).
  set (c := cutStartSampleOf ad1 k r (Slice.len (modifiedSamples st1))).
  assert (Hc2 : cutStartSampleOf ad2 k r (Slice.len (modifiedSamples st2)) = c).
  { unfold c, cutStartSampleOf. now rewrite Hs1, Hs2, He1, He2, Hk, <- Hch. }
  assert (Hge : StartFrame r * Channels ad1 <= c).
  { unfold c. rewrite <- Hs1. apply cutStartSampleOf_ge; [assumption|]. now rewrite Hs1. }
  destruct Hin1 as [_ Hfit1]. destruct Hin2 as [_ Hfit2].
  destruct (Z_lt_le_dec c (EndFrame r * Channels ad1)) as [Hce|Hce];
    [destruct (Z_lt_le_dec 0 (cutSamplesOf ad1 k r)) as [Hpos|Hpos]|].
  - destruct (Duration r <=? k)%float eqn:Hd.
    + exists st1, st2. rewrite !cutRegion_skip by assumption.
      repeat split; try assumption; lia.
    + exists (afterCut ad1 st1 r c (Z.min (EndFrame r * Channels ad1 - c)
                                       (cutSamplesOf ad1 k r))),
             (afterCut ad2 st2 r c (Z.min (EndFrame r * Channels ad1 - c)
                                       (cutSamplesOf ad1 k r))).
      split.
      { rewrite cutRegion_cut; fold c; rewrite ?He1; try assumption; try reflexivity; lia. }
      split.
      { rewrite cutRegion_cut; rewrite ?Hc2, ?He2, ?Hcs, <- ?Hch;
          try assumption; try reflexivity; lia. }
      split.
      { unfold synced. cbn [afterCut regionsCut totalRemovedDuration cutTrace].
        rewrite Hrc, Htot, Htr, Hsr, Hch. auto. }
      rewrite !len_afterCut by lia. lia.
  - exists st1, st2.
    rewrite !cutRegion_no_cut
      by (rewrite ?Hcs; lia).
    repeat split; try assumption; lia.
  - exists st1, st2.
    rewrite !cutRegion_no_cut
      by (fold c; rewrite ?Hc2, ?He1, ?He2, <- ?Hch; lia).
    repeat split; try assumption; lia.
Qed.

Lemma StronglySorted_rev {A} (R : A -> A -> Prop) (l : list A) :
  StronglySorted R l -> StronglySorted (fun a b => R b a) (rev l).
Proof.
  induction 1 as [|a l Hl IH Ha]; cbn [rev]; [constructor|].
  apply StronglySorted_snoc; [assumption|].
  now apply Forall_rev.
Qed.

(** The loop on two tracks of the same format, over regions that lie inside
    both and are processed from the last to the first. *)
Lemma cutLoop_synced (ad1 ad2 : AudioData) (k : float) (rs : list SilenceRegion) :
  SampleRate ad1 = SampleRate ad2 -> Channels ad1 = Channels ad2 ->
  1 <= Channels ad1 ->
  0 <= keepSamplesOf ad1 k ->
  Forall (fun r => StartFrame r * Channels ad1 + keepSamplesOf ad1 k <= GoInt.max_int) rs ->
  StronglySorted (fun a b => precedes b a) rs ->
  forall st1 st2,
    Slice.len (modifiedSamples st1) <= GoInt.max_int ->
    Slice.len (modifiedSamples st2) <= GoInt.max_int ->
    Forall (inside (Channels ad1) (Slice.len (modifiedSamples st1))) rs ->
    Forall (inside (Channels ad1) (Slice.len (modifiedSamples st2))) rs ->
    synced st1 st2 ->
    exists st1' st2',
      cutLoop ad1 k rs st1 = Some st1'
      /\ cutLoop ad2 k rs st2 = Some st2'
      /\ synced st1' st2'.
Proof.
  intros Hsr Hch Hch1 Hkeep Hsum Hsorted.
  induction Hsorted as [|r rs Hrs IH Hr]; intros st1 st2 Hmax1 Hmax2 Hin1 Hin2 Hsync;
    cbn [cutLoop].
  - now exists st1, st2.
  - inversion Hsum as [|? ? Hsum_r Hsum_rs]; subst.
    inversion Hin1 as [|? ? Hin1_r Hin1_rs]; subst.
    inversion Hin2 as [|? ? Hin2_r Hin2_rs]; subst.
    destruct (cutRegion_synced ad1 ad2 k st1 st2 r Hsr Hch Hch1 Hmax1 Hmax2 Hkeep
                Hsum_r Hin1_r Hin2_r Hsync)
      as (st1' & st2' & -> & -> & Hsync' & Hlen1 & Hlen2).
    apply IH; try assumption; try lia.
    + rewrite Forall_forall in *. intros b Hb.
      specialize (Hr b Hb). specialize (Hin1_rs b Hb). unfold precedes in Hr.
      destruct Hin1_rs as [Hord _]. split; [assumption|]. nia.
    + rewrite Forall_forall in *. intros b Hb.
      specialize (Hr b Hb). specialize (Hin2_rs b Hb). unfold precedes in Hr.
      destruct Hin2_rs as [Hord _]. split; [assumption|]. nia.
Qed.

(** X4.  Two tracks with the same sample rate and channel count, cut with
    the same list of regions, each region ending before the next starts and
    lying inside both tracks: both excisions return, they report the same
    regions as cut and the same removed duration, and they remove the same
    number of samples, so the tracks keep their relative length. *)
Theorem excision_keeps_tracks_in_sync (ad1 ad2 : AudioData)
    (regions : list SilenceRegion) (keepMs : Z) :
  SampleRate ad1 = SampleRate ad2 ->
  Channels ad1 = Channels ad2 ->
  1 <= Channels ad1 ->
  Slice.len (Samples ad1) <= GoInt.max_int ->
  Slice.len (Samples ad2) <= GoInt.max_int ->
  0 <= keepSamplesOf ad1 (keepDurationSecOf keepMs) ->
  Slice.len (Samples ad1) + keepSamplesOf ad1 (keepDurationSecOf keepMs)
    <= GoInt.max_int ->
  StronglySorted precedes regions ->
  Forall (inside (Channels ad1) (Slice.len (Samples ad1))) regions ->
  Forall (inside (Channels ad1) (Slice.len (Samples ad2))) regions ->
  exists ad1' res1 ad2' res2,
    CutSilenceRegions (Some ad1) regions keepMs = Returned (ad1', res1)
    /\ CutSilenceRegions (Some ad2) regions keepMs = Returned (ad2', res2)
    /\ RegionsCut res1 = RegionsCut res2
    /\ RemovedDuration res1 = RemovedDuration res2
    /\ Slice.len (Samples ad1) - Slice.len (Samples ad1')
       = Slice.len (Samples ad2) - Slice.len (Samples ad2').
Proof.
  intros Hsr Hch Hch1 Hmax1 Hmax2 Hkeep Hroom Hsorted Hin1 Hin2.
  set (k := keepDurationSecOf keepMs) in *.
  set (st1 := {| modifiedSamples := Samples ad1; regionsCut := [];
                 totalRemovedDuration := 0%float; cutTrace := [] |}).
  set (st2 := {| modifiedSamples := Samples ad2; regionsCut := [];
                 totalRemovedDuration := 0%float; cutTrace := [] |}).
  destruct (cutLoop_synced ad1 ad2 k (rev regions) Hsr Hch Hch1 Hkeep) with
    (st1 := st1) (st2 := st2) as (st1' & st2' & Hrun1 & Hrun2 & Hrc & Htot & Htr).
  - apply Forall_rev. eapply Forall_impl; [|exact Hin1].
    intros r [[Hs Hse] He]. cbn beta. nia.
  - now apply StronglySorted_rev.
  - exact Hmax1.
  - exact Hmax2.
  - now apply Forall_rev.
  - now apply Forall_rev.
  - repeat split.
  - destruct (cutLoop_length ad1 k (rev regions) st1 st1' Hmax1 Hrun1)
      as (t1 & Ht1 & _ & Hlen1).
    destruct (cutLoop_length ad2 k (rev regions) st2 st2' Hmax2 Hrun2)
      as (t2 & Ht2 & _ & Hlen2).
    cbn [st1 st2 cutTrace modifiedSamples] in Ht1, Ht2, Hlen1, Hlen2.
    rewrite app_nil_r in Ht1, Ht2.
    unfold CutSilenceRegions. rewrite !cutPass_clone.
    fold k. fold st1. fold st2. rewrite Hrun1, Hrun2.
    eexists _, _, _, _. split; [reflexivity|]. split; [reflexivity|].
    cbn [RegionsCut RemovedDuration Samples].
    split; [assumption|]. split; [assumption|].
    rewrite Hlen1, Hlen2. replace t1 with t2 by congruence. lia.
Qed.

Lemma excision_keeps_tracks_in_sync_witness :
  let ad1 := buffer (ramp 1000) 1000 1 16 in
  let ad2 := buffer (ramp 1200) 1000 1 16 in
  let regions := [createSilenceRegion 100 200 1000; createSilenceRegion 500 700 1000] in
  (SampleRate ad1 = SampleRate ad2
   /\ Channels ad1 = Channels ad2
   /\ 1 <= Channels ad1
   /\ Slice.len (Samples ad1) <= GoInt.max_int
   /\ Slice.len (Samples ad2) <= GoInt.max_int
   /\ 0 <= keepSamplesOf ad1 (keepDurationSecOf 40)
   /\ Slice.len (Samples ad1) + keepSamplesOf ad1 (keepDurationSecOf 40) <= GoInt.max_int
   /\ StronglySorted precedes regions
   /\ Forall (inside (Channels ad1) (Slice.len (Samples ad1))) regions
   /\ Forall (inside (Channels ad1) (Slice.len (Samples ad2))) regions)
  /\ exists ad1' res1 ad2' res2,
       CutSilenceRegions (Some ad1) regions 40 = Returned (ad1', res1)
       /\ CutSilenceRegions (Some ad2) regions 40 = Returned (ad2', res2)
       /\ RegionsCut res1 = RegionsCut res2
       /\ RemovedDuration res1 = RemovedDuration res2
       /\ Slice.len (Samples ad1) - Slice.len (Samples ad1')
          = Slice.len (Samples ad2) - Slice.len (Samples ad2').
Proof.
  intros ad1 ad2 regions.
  assert (H1 : SampleRate ad1 = SampleRate ad2) by reflexivity.
  assert (H2 : Channels ad1 = Channels ad2) by reflexivity.
  assert (H3 : 1 <= Channels ad1) by (vm_compute; discriminate).
  assert (H4 : Slice.len (Samples ad1) <= GoInt.max_int) by (vm_compute; discriminate).
  assert (H5 : Slice.len (Samples ad2) <= GoInt.max_int) by (vm_compute; discriminate).
  assert (H6 : 0 <= keepSamplesOf ad1 (keepDurationSecOf 40)) by (vm_compute; discriminate).
  assert (H7 : Slice.len (Samples ad1) + keepSamplesOf ad1 (keepDurationSecOf 40)
               <= GoInt.max_int) by (vm_compute; discriminate).
  assert (H8 : StronglySorted precedes regions)
    by (repeat constructor; vm_compute; discriminate).
  assert (H9 : Forall (inside (Channels ad1) (Slice.len (Samples ad1))) regions)
    by (repeat constructor; vm_compute; discriminate).
  assert (H10 : Forall (inside (Channels ad1) (Slice.len (Samples ad2))) regions)
    by (repeat constructor; vm_compute; discriminate).
  split; [repeat split; assumption|].
  exact (excision_keeps_tracks_in_sync ad1 ad2 regions 40 H1 H2 H3 H4 H5 H6 H7 H8 H9 H10).
Defined.

(** * Further properties of the detector *)

(** Between two consecutive multiples of the chunk size there is none. *)
Lemma next_multiple (c a f : Z) :
  1 <= c -> (c | a) -> (c | f) -> a <= f < a + c -> f = a.
Proof.
  intros Hc [p ->] [q ->] H. assert (p = q) by nia. now subst.
Qed.

Lemma silentRun_extend (Log10 : float -> float) (files : list AudioData)
    (th : float) (M c s e : Z) :
  1 <= c -> (c | e) ->
  silentRun Log10 files th M c s e ->
  chunkVerdict Log10 files th M c e = Some true ->
  silentRun Log10 files th M c s (e + c).
Proof.
  intros Hc He Hrun Hlast f Hf Hdiv.
  destruct (Z_lt_le_dec f e) as [Hlt|Hge]; [apply Hrun; [lia|assumption]|].
  now rewrite (next_multiple c e f Hc He Hdiv ltac:(lia)).
Qed.

Lemma scan_runs (Log10 : float -> float) (files : list AudioData)
    (config : SilenceDetectionConfig) (sampleRate minFrames chunkFrames : Z) :
  1 <= chunkFrames -> minFrames + chunkFrames <= GoInt.max_int ->
  forall fuel frameStart cs regions cs' regions',
    scanRuns Log10 files (ThresholdDBFS config) minFrames chunkFrames frameStart cs regions ->
    scan Log10 fuel files config sampleRate minFrames chunkFrames frameStart cs regions
    = Returned (cs', regions') ->
    exists frameStart',
      minFrames <= frameStart'
      /\ scanRuns Log10 files (ThresholdDBFS config) minFrames chunkFrames
                  frameStart' cs' regions'.
Proof.
  intros Hc Hmax. induction fuel as [|fuel IH];
    intros frameStart cs regions cs' regions' Hinv; cbn [scan];
    destruct (Z.ltb_spec frameStart minFrames) as [Hlt|Hge]; try discriminate;
    try (intros [= <- <-]; now exists frameStart).
  destruct Hinv as (Hfs & Hdiv & Hcand & Hregions).
  assert (Hadd : GoInt.add frameStart chunkFrames = frameStart + chunkFrames).
  { apply wrap64_id. unfold GoInt.in_range, GoInt.min_int, GoInt.max_int in *. lia. }
  rewrite Hadd.
  assert (Hdiv' : (chunkFrames | frameStart + chunkFrames))
    by (apply Z.divide_add_r; [assumption|apply Z.divide_refl]).
  fold (chunkVerdict Log10 files (ThresholdDBFS config) minFrames chunkFrames frameStart).
  destruct (chunkVerdict Log10 files (ThresholdDBFS config) minFrames chunkFrames frameStart)
    as [[|]|] eqn:Hverdict; try discriminate.
  - (* silent chunk *)
    apply IH. split; [lia|]. split; [assumption|]. split; [right|assumption].
    destruct Hcand as [[-> Hopen]|(Hcs & HcsM & Hcsdiv & Hrun & Hopen)].
    + change (-1 =? -1) with true. cbn iota.
      split; [lia|]. split; [assumption|]. split; [assumption|]. split; [|assumption].
      intros f Hf Hfdiv.
      now rewrite (next_multiple chunkFrames frameStart f Hc Hdiv Hfdiv ltac:(lia)).
    + destruct (Z.eqb_spec cs (-1)); [lia|].
      split; [lia|]. split; [assumption|]. split; [assumption|]. split; [|assumption].
      now apply silentRun_extend.
  - (* a chunk that is not silent *)
    assert (Hopen' : opensRun Log10 files (ThresholdDBFS config) minFrames chunkFrames
                              (frameStart + chunkFrames)).
    { right. now replace (frameStart + chunkFrames - chunkFrames) with frameStart by lia. }
    destruct Hcand as [[-> Hopen]|(Hcs & HcsM & Hcsdiv & Hrun & Hopen)].
    + change (-1 =? -1) with true. cbn [negb]. apply IH.
      split; [lia|]. split; [assumption|]. split; [left; now split|assumption].
    + destruct (Z.eqb_spec cs (-1)); [lia|]. cbn [negb]. apply IH.
      split; [lia|]. split; [assumption|]. split; [left; now split|].
      unfold emit. destruct (meetsMinDuration config _); [|assumption].
      apply Forall_app. split; [assumption|]. constructor; [|constructor].
      unfold maximalRun. cbn [createSilenceRegion StartFrame EndFrame].
      repeat split; try assumption; try lia; [now left|auto].
Qed.

Lemma closeAtEnd_runs (Log10 : float -> float) (files : list AudioData)
    (config : SilenceDetectionConfig) (sampleRate minFrames chunkFrames : Z)
    (frameStart cs : Z) (regions : list SilenceRegion) :
  minFrames <= frameStart ->
  scanRuns Log10 files (ThresholdDBFS config) minFrames chunkFrames frameStart cs regions ->
  Forall (maximalRun Log10 files (ThresholdDBFS config) minFrames chunkFrames)
         (closeAtEnd config sampleRate minFrames cs regions).
Proof.
  intros Hexit (Hfs & Hdiv & Hcand & Hregions). unfold closeAtEnd.
  destruct (Z.eqb_spec cs (-1)) as [|Hopen]; cbn [negb]; [assumption|].
  destruct Hcand as [[-> _]|(Hcs & HcsM & Hcsdiv & Hrun & Hopens)]; [contradiction|].
  unfold emit. destruct (meetsMinDuration config _); [|assumption].
  apply Forall_app. split; [assumption|]. constructor; [|constructor].
  unfold maximalRun. cbn [createSilenceRegion StartFrame EndFrame].
  repeat split; try assumption; try lia; try (now right).
  intros f Hf Hfdiv. apply Hrun; [lia|assumption].
Qed.

Lemma isCommonSilence_true (Log10 : float -> float) (files : list AudioData)
    (s e : Z) (th : float) :
  isCommonSilence Log10 files s e th = Some true ->
  forall ad, In ad files -> isChunkSilent Log10 ad s e th = Some true.
Proof.
  induction files as [|a files IH]; cbn [isCommonSilence]; intros H ad Hin; [contradiction|].
  destruct (isChunkSilent Log10 a s e th) as [[|]|] eqn:Ha; try discriminate.
  destruct Hin as [<-|Hin]; [assumption|now apply IH].
Qed.

Lemma isCommonSilence_false (Log10 : float -> float) (files : list AudioData)
    (s e : Z) (th : float) :
  isCommonSilence Log10 files s e th = Some false ->
  exists ad, In ad files /\ isChunkSilent Log10 ad s e th = Some false.
Proof.
  induction files as [|a files IH]; cbn [isCommonSilence]; intros H; [discriminate|].
  destruct (isChunkSilent Log10 a s e th) as [[|]|] eqn:Ha; try discriminate.
  - destruct (IH H) as (ad & Hin & Had). exists ad. split; [now right|assumption].
  - exists a. split; [now left|assumption].
Qed.

Lemma minFramesOf_le_each (reference : AudioData) (others : list AudioData) :
  Forall (fun ad => minFramesOf reference others <= GetFrameCount ad) (reference :: others).
Proof.
  constructor; [apply minFramesOf_le|].
  unfold minFramesOf. generalize (GetFrameCount reference) as init.
  induction others as [|a others IH]; intros init; [constructor|].
  cbn [fold_left]. constructor.
  - set (init' := if GetFrameCount a <? init then GetFrameCount a else init).
    assert (Hle : forall l i,
               fold_left (fun minFrames audio =>
                            if GetFrameCount audio <? minFrames then GetFrameCount audio
                            else minFrames) l i <= i).
    { induction l as [|b l IHl]; intros i; cbn [fold_left]; [lia|].
      etransitivity; [apply IHl|]. destruct (Z.ltb_spec (GetFrameCount b) i); lia. }
    etransitivity; [apply Hle|]. unfold init'.
    destruct (Z.ltb_spec (GetFrameCount a) init); lia.
  - apply IH.
Qed.

(** Under the side conditions of the scan, every region of a detection
    result is a maximal run of silent chunks. *)
Lemma detected_regions_are_runs (Log10 : float -> float) (reference : AudioData)
    (others : list AudioData) (config : SilenceDetectionConfig)
    (fuel : nat) (res : DetectionResult) :
  0 < ChunkSizeMs config ->
  0 < SampleRate reference ->
  ChunkSizeMs config * SampleRate reference <= GoInt.max_int ->
  Slice.len (Samples reference) < 2 ^ 62 ->
  DetectCommonSilence Log10 fuel (reference :: others) config = Returned res ->
  Forall (maximalRun Log10 (reference :: others) (ThresholdDBFS config)
                     (minFramesOf reference others) (chunkFramesOf config reference))
         (CommonSilenceRegions res).
Proof.
  intros Hchunk Hrate Hprod Hlen Hres.
  pose proof (chunkFramesOf_bounds config reference Hchunk Hrate Hprod) as Hc.
  assert (Hmin : minFramesOf reference others + chunkFramesOf config reference
                 <= GoInt.max_int).
  { pose proof (minFramesOf_le reference others) as Hm.
    assert (Href : Slice.len (Samples reference) <= GoInt.max_int)
      by (unfold GoInt.max_int; lia).
    pose proof (GetFrameCount_le_len reference Href) as Hf.
    unfold GoInt.max_int. lia. }
  destruct (DetectCommonSilence_returned _ _ _ _ _ Hres)
    as (reference' & others' & cs & scanned & Heq & _ & Hscan & Hregions).
  injection Heq as <- <-.
  destruct (scan_runs Log10 (reference :: others) config (SampleRate reference)
              (minFramesOf reference others) (chunkFramesOf config reference)
              ltac:(lia) Hmin fuel 0 (-1) [] cs scanned)
    as (frameStart' & Hexit & Hinv); [|exact Hscan|].
  { split; [lia|]. split; [apply Z.divide_0_r|]. split; [|constructor].
    left. split; [reflexivity|now left]. }
  rewrite Hregions. eapply closeAtEnd_runs; eassumption.
Qed.

(** X6.  Every detected region is a non-empty frame range inside the span
    analysed, which no file is shorter than; it starts at a multiple of the
    chunk size and ends at a multiple of the chunk size or at the end of
    the span. *)
Theorem detected_regions_geometry (Log10 : float -> float) (reference : AudioData)
    (others : list AudioData) (config : SilenceDetectionConfig)
    (fuel : nat) (res : DetectionResult) :
  0 < ChunkSizeMs config ->
  0 < SampleRate reference ->
  ChunkSizeMs config * SampleRate reference <= GoInt.max_int ->
  Slice.len (Samples reference) < 2 ^ 62 ->
  DetectCommonSilence Log10 fuel (reference :: others) config = Returned res ->
  Forall (fun r =>
            0 <= StartFrame r < EndFrame r
            /\ EndFrame r <= minFramesOf reference others
            /\ (chunkFramesOf config reference | StartFrame r)
            /\ ((chunkFramesOf config reference | EndFrame r)
                \/ EndFrame r = minFramesOf reference others))
         (CommonSilenceRegions res)
  /\ Forall (fun ad => minFramesOf reference others <= GetFrameCount ad)
            (reference :: others).
Proof.
  intros Hchunk Hrate Hprod Hlen Hres. split; [|apply minFramesOf_le_each].
  eapply Forall_impl;
    [|exact (detected_regions_are_runs _ _ _ _ _ _ Hchunk Hrate Hprod Hlen Hres)].
  intros r (H1 & H2 & H3 & H4 & _). auto.
Qed.

(** X7.  Every chunk of a detected region is classified silent in every
    file. *)
Theorem detected_regions_are_silent (Log10 : float -> float) (reference : AudioData)
    (others : list AudioData) (config : SilenceDetectionConfig)
    (fuel : nat) (res : DetectionResult) :
  0 < ChunkSizeMs config ->
  0 < SampleRate reference ->
  ChunkSizeMs config * SampleRate reference <= GoInt.max_int ->
  Slice.len (Samples reference) < 2 ^ 62 ->
  DetectCommonSilence Log10 fuel (reference :: others) config = Returned res ->
  forall r f ad,
    In r (CommonSilenceRegions res) ->
    StartFrame r <= f < EndFrame r ->
    (chunkFramesOf config reference | f) ->
    In ad (reference :: others) ->
    isChunkSilent Log10 ad f
      (Z.min (f + chunkFramesOf config reference) (minFramesOf reference others))
      (ThresholdDBFS config)
    = Some true.
Proof.
  intros Hchunk Hrate Hprod Hlen Hres r f ad Hr Hf Hdiv Had.
  pose proof (detected_regions_are_runs _ _ _ _ _ _ Hchunk Hrate Hprod Hlen Hres) as Hruns.
  rewrite Forall_forall in Hruns.
  destruct (Hruns r Hr) as (_ & _ & _ & _ & Hrun & _).
  specialize (Hrun f Hf Hdiv). unfold chunkVerdict in Hrun.
  replace (Z.min (f + chunkFramesOf config reference) (minFramesOf reference others))
    with (if f + chunkFramesOf config reference >? minFramesOf reference others
          then minFramesOf reference others else f + chunkFramesOf config reference)
    by (destruct (Z.gtb_spec (f + chunkFramesOf config reference)
                             (minFramesOf reference others)); lia).
  exact (isCommonSilence_true _ _ _ _ _ Hrun ad Had).
Qed.

(** X8.  A detected region cannot be extended: it starts at frame 0 or
    right after a chunk that some file does not classify as silent, and it
    ends at the end of the span analysed or at such a chunk. *)
Theorem detected_regions_are_maximal (Log10 : float -> float) (reference : AudioData)
    (others : list AudioData) (config : SilenceDetectionConfig)
    (fuel : nat) (res : DetectionResult) :
  0 < ChunkSizeMs config ->
  0 < SampleRate reference ->
  ChunkSizeMs config * SampleRate reference <= GoInt.max_int ->
  Slice.len (Samples reference) < 2 ^ 62 ->
  DetectCommonSilence Log10 fuel (reference :: others) config = Returned res ->
  forall r,
    In r (CommonSilenceRegions res) ->
    (StartFrame r = 0
     \/ exists ad,
          In ad (reference :: others)
          /\ isChunkSilent Log10 ad (StartFrame r - chunkFramesOf config reference)
               (StartFrame r) (ThresholdDBFS config)
             = Some false)
    /\ (EndFrame r = minFramesOf reference others
        \/ exists ad,
             In ad (reference :: others)
             /\ isChunkSilent Log10 ad (EndFrame r)
                  (Z.min (EndFrame r + chunkFramesOf config reference)
                         (minFramesOf reference others))
                  (ThresholdDBFS config)
                = Some false).
Proof.
  intros Hchunk Hrate Hprod Hlen Hres r Hr.
  pose proof (detected_regions_are_runs _ _ _ _ _ _ Hchunk Hrate Hprod Hlen Hres) as Hruns.
  rewrite Forall_forall in Hruns.
  destruct (Hruns r Hr) as (Hse & HeM & _ & _ & _ & Hopens & Hcloses).
  split.
  - destruct Hopens as [H0|Hloud]; [now left|right].
    unfold chunkVerdict in Hloud.
    replace (StartFrame r - chunkFramesOf config reference + chunkFramesOf config reference)
      with (StartFrame r) in Hloud by lia.
    destruct (Z.gtb_spec (StartFrame r) (minFramesOf reference others)); [lia|].
    now apply isCommonSilence_false.
  - destruct (Z_lt_le_dec (EndFrame r) (minFramesOf reference others)) as [Hlt|Hge];
      [right|left; lia].
    specialize (Hcloses Hlt). unfold chunkVerdict in Hcloses.
    replace (Z.min (EndFrame r + chunkFramesOf config reference)
                   (minFramesOf reference others))
      with (if EndFrame r + chunkFramesOf config reference >? minFramesOf reference others
            then minFramesOf reference others
            else EndFrame r + chunkFramesOf config reference)
      by (destruct (Z.gtb_spec (EndFrame r + chunkFramesOf config reference)
                               (minFramesOf reference others)); lia).
    now apply isCommonSilence_false.
Qed.

Lemma gap_detection_conditions :
  0 < ChunkSizeMs gapConfig
  /\ 0 < SampleRate (buffer toneWithGap 1000 1 16)
  /\ ChunkSizeMs gapConfig * SampleRate (buffer toneWithGap 1000 1 16) <= GoInt.max_int
  /\ Slice.len (Samples (buffer toneWithGap 1000 1 16)) < 2 ^ 62
  /\ DetectCommonSilence flatLog10 4
       (buffer toneWithGap 1000 1 16 :: [buffer toneWithGap 1000 1 16]) gapConfig
     = Returned gapResult.
Proof.
  repeat split; try (vm_compute; reflexivity). vm_compute. discriminate.
Defined.

Lemma detected_regions_geometry_witness :
  (0 < ChunkSizeMs gapConfig
   /\ 0 < SampleRate (buffer toneWithGap 1000 1 16)
   /\ ChunkSizeMs gapConfig * SampleRate (buffer toneWithGap 1000 1 16) <= GoInt.max_int
   /\ Slice.len (Samples (buffer toneWithGap 1000 1 16)) < 2 ^ 62
   /\ DetectCommonSilence flatLog10 4
        (buffer toneWithGap 1000 1 16 :: [buffer toneWithGap 1000 1 16]) gapConfig
      = Returned gapResult)
  /\ Forall (fun r =>
               0 <= StartFrame r < EndFrame r
               /\ EndFrame r
                  <= minFramesOf (buffer toneWithGap 1000 1 16) [buffer toneWithGap 1000 1 16]
               /\ (chunkFramesOf gapConfig (buffer toneWithGap 1000 1 16) | StartFrame r)
               /\ ((chunkFramesOf gapConfig (buffer toneWithGap 1000 1 16) | EndFrame r)
                   \/ EndFrame r
                      = minFramesOf (buffer toneWithGap 1000 1 16)
                                    [buffer toneWithGap 1000 1 16]))
            (CommonSilenceRegions gapResult)
  /\ Forall (fun ad => minFramesOf (buffer toneWithGap 1000 1 16)
                                   [buffer toneWithGap 1000 1 16]
                       <= GetFrameCount ad)
            (buffer toneWithGap 1000 1 16 :: [buffer toneWithGap 1000 1 16]).
Proof.
  split; [exact gap_detection_conditions|].
  destruct gap_detection_conditions as (H1 & H2 & H3 & H4 & H5).
  exact (detected_regions_geometry flatLog10 _ _ gapConfig 4 gapResult H1 H2 H3 H4 H5).
Defined.

Lemma detected_regions_are_silent_witness :
  (0 < ChunkSizeMs gapConfig
   /\ 0 < SampleRate (buffer toneWithGap 1000 1 16)
   /\ ChunkSizeMs gapConfig * SampleRate (buffer toneWithGap 1000 1 16) <= GoInt.max_int
   /\ Slice.len (Samples (buffer toneWithGap 1000 1 16)) < 2 ^ 62
   /\ DetectCommonSilence flatLog10 4
        (buffer toneWithGap 1000 1 16 :: [buffer toneWithGap 1000 1 16]) gapConfig
      = Returned gapResult)
  /\ forall r f ad,
       In r (CommonSilenceRegions gapResult) ->
       StartFrame r <= f < EndFrame r ->
       (chunkFramesOf gapConfig (buffer toneWithGap 1000 1 16) | f) ->
       In ad (buffer toneWithGap 1000 1 16 :: [buffer toneWithGap 1000 1 16]) ->
       isChunkSilent flatLog10 ad f
         (Z.min (f + chunkFramesOf gapConfig (buffer toneWithGap 1000 1 16))
                (minFramesOf (buffer toneWithGap 1000 1 16) [buffer toneWithGap 1000 1 16]))
         (ThresholdDBFS gapConfig)
       = Some true.
Proof.
  split; [exact gap_detection_conditions|].
  destruct gap_detection_conditions as (H1 & H2 & H3 & H4 & H5).
  exact (detected_regions_are_silent flatLog10 _ _ gapConfig 4 gapResult H1 H2 H3 H4 H5).
Defined.

Lemma detected_regions_are_maximal_witness :
  (0 < ChunkSizeMs gapConfig
   /\ 0 < SampleRate (buffer toneWithGap 1000 1 16)
   /\ ChunkSizeMs gapConfig * SampleRate (buffer toneWithGap 1000 1 16) <= GoInt.max_int
   /\ Slice.len (Samples (buffer toneWithGap 1000 1 16)) < 2 ^ 62
   /\ DetectCommonSilence flatLog10 4
        (buffer toneWithGap 1000 1 16 :: [buffer toneWithGap 1000 1 16]) gapConfig
      = Returned gapResult)
  /\ forall r,
       In r (CommonSilenceRegions gapResult) ->
       (StartFrame r = 0
        \/ exists ad,
             In ad (buffer toneWithGap 1000 1 16 :: [buffer toneWithGap 1000 1 16])
             /\ isChunkSilent flatLog10 ad
                  (StartFrame r - chunkFramesOf gapConfig (buffer toneWithGap 1000 1 16))
                  (StartFrame r) (ThresholdDBFS gapConfig)
                = Some false)
       /\ (EndFrame r
           = minFramesOf (buffer toneWithGap 1000 1 16) [buffer toneWithGap 1000 1 16]
           \/ exists ad,
                In ad (buffer toneWithGap 1000 1 16 :: [buffer toneWithGap 1000 1 16])
                /\ isChunkSilent flatLog10 ad (EndFrame r)
                     (Z.min (EndFrame r
                             + chunkFramesOf gapConfig (buffer toneWithGap 1000 1 16))
                            (minFramesOf (buffer toneWithGap 1000 1 16)
                                         [buffer toneWithGap 1000 1 16]))
                     (ThresholdDBFS gapConfig)
                   = Some false).
Proof.
  split; [exact gap_detection_conditions|].
  destruct gap_detection_conditions as (H1 & H2 & H3 & H4 & H5).
  exact (detected_regions_are_maximal flatLog10 _ _ gapConfig 4 gapResult H1 H2 H3 H4 H5).
Defined.

Lemma regions_cut_in_input_order_witness :
  let ad := buffer (ramp 1000) 1000 1 16 in
  let regions := [createSilenceRegion 100 200 1000; createSilenceRegion 300 320 1000;
                  createSilenceRegion 500 700 1000] in
  exists ad' res,
    CutSilenceRegions (Some ad) regions 40 = Returned (ad', res)
    /\ RegionsCut res = [createSilenceRegion 100 200 1000; createSilenceRegion 500 700 1000]
    /\ Sublist (RegionsCut res) regions
    /\ Forall (fun r => (Duration r <=? keepDurationSecOf 40)%float = false)
              (RegionsCut res).
Proof.
  intros ad regions.
  destruct (CutSilenceRegions (Some ad) regions 40) as [[ad' res]| | |] eqn:Hrun;
    try (vm_compute in Hrun; discriminate).
  exists ad', res. split; [reflexivity|].
  split; [vm_compute in Hrun; injection Hrun as <- <-; reflexivity|].
  exact (regions_cut_in_input_order ad ad' res regions 40 Hrun).
Defined.

(** * The multi-file excision *)

Lemma CutSilenceRegions_some (ad : AudioData) (regions : list SilenceRegion) (keepMs : Z) :
  CutSilenceRegions (Some ad) regions keepMs = Panicked
  \/ exists result, CutSilenceRegions (Some ad) regions keepMs = Returned result.
Proof.
  unfold CutSilenceRegions. destruct (cutPass ad regions keepMs); [right|now left].
  eexists. reflexivity.
Qed.

Lemma cutEach_outcomes (files : list pointer) (regions : list SilenceRegion)
    (keepMs : Z) (objects : store) :
  (cutEach objects files regions keepMs = Panicked
   \/ exists out, cutEach objects files regions keepMs = Returned out)
  /\ (In None files -> cutEach objects files regions keepMs = Panicked).
Proof.
  revert objects.
  induction files as [|[address|] files IH]; intros objects;
    cbn [cutEach load option_map].
  - split; [right; eexists; reflexivity|intros []].
  - destruct (CutSilenceRegions_some (objects address) regions keepMs)
      as [->|[[mutated result] ->]]; [split; [now left|reflexivity]|].
    cbn [writeThrough].
    destruct (IH (write objects address mutated)) as [IHout IHnil].
    split.
    + destruct IHout as [->|[[objects' results] ->]];
        [now left|right; eexists; reflexivity].
    + intros [Hin|Hin]; [discriminate|]. now rewrite IHnil.
  - cbn. split; [now left|reflexivity].
Qed.

(** X5.  [CutSilenceInMultipleFiles] returns an error exactly when the list
    of files is empty, and it panics when the list holds a [nil] pointer:
    the error of [CutSilenceRegions] for that pointer is wrapped with
    [audioData.Filename], a [nil] dereference. *)
Theorem multi_file_failure_modes (objects : store) (files : list pointer)
    (regions : list SilenceRegion) (keepMs : Z) :
  ((exists msg, CutSilenceInMultipleFiles objects files regions keepMs = Failed msg)
   <-> files = [])
  /\ (In None files
      -> CutSilenceInMultipleFiles objects files regions keepMs = Panicked).
Proof.
  unfold CutSilenceInMultipleFiles.
  destruct files as [|f files].
  - split; [|intros []]. split; [reflexivity|]. intros _. eexists. reflexivity.
  - assert (Hlen : (Slice.len (f :: files) =? 0) = false)
      by (apply Z.eqb_neq; unfold Slice.len; cbn [List.length]; lia).
    rewrite Hlen.
    destruct (cutEach_outcomes (f :: files) regions keepMs objects) as [Hout Hnil].
    split; [|exact Hnil].
    split; [|discriminate].
    intros [msg Hmsg]. destruct Hout as [H|[results H]]; congruence.
Qed.

(** * Detection followed by excision *)

(** X9.  When some file has no frame, a detection on files of matching
    formats returns, for any iteration budget, with an empty list of
    regions and a total of zero. *)
Theorem detection_with_an_empty_track (Log10 : float -> float) (reference : AudioData)
    (others : list AudioData) (config : SilenceDetectionConfig) (ad : AudioData) (fuel : nat) :
  formatMismatch reference others = false ->
  In ad (reference :: others) ->
  GetFrameCount ad <= 0 ->
  exists res,
    DetectCommonSilence Log10 fuel (reference :: others) config = Returned res
    /\ CommonSilenceRegions res = []
    /\ TotalCommonSilence res = 0%float.
Proof.
  intros Hformat Hin Hempty.
  pose proof (minFramesOf_le_each reference others) as Hmin.
  rewrite Forall_forall in Hmin. specialize (Hmin ad Hin).
  unfold DetectCommonSilence. rewrite Hformat.
  assert (Hscan : scan Log10 fuel (reference :: others) config (SampleRate reference)
                       (minFramesOf reference others) (chunkFramesOf config reference)
                       0 (-1) [] = Returned (-1, [])).
  { destruct fuel; cbn [scan];
      destruct (Z.ltb_spec 0 (minFramesOf reference others)); try lia; reflexivity. }
  rewrite Hscan. eexists. split; [reflexivity|]. split; reflexivity.
Qed.

Lemma detection_with_an_empty_track_witness :
  (formatMismatch (buffer [] 1000 1 16) [buffer toneWithGap 1000 1 16] = false
   /\ In (buffer [] 1000 1 16) (buffer [] 1000 1 16 :: [buffer toneWithGap 1000 1 16])
   /\ GetFrameCount (buffer [] 1000 1 16) <= 0)
  /\ exists res,
       DetectCommonSilence flatLog10 0
         (buffer [] 1000 1 16 :: [buffer toneWithGap 1000 1 16]) gapConfig = Returned res
       /\ CommonSilenceRegions res = []
       /\ TotalCommonSilence res = 0%float.
Proof.
  assert (H1 : formatMismatch (buffer [] 1000 1 16) [buffer toneWithGap 1000 1 16] = false)
    by reflexivity.
  assert (H2 : In (buffer [] 1000 1 16)
                  (buffer [] 1000 1 16 :: [buffer toneWithGap 1000 1 16])) by now left.
  assert (H3 : GetFrameCount (buffer [] 1000 1 16) <= 0) by (vm_compute; discriminate).
  split; [repeat split; assumption|].
  exact (detection_with_an_empty_track flatLog10 _ _ gapConfig _ 0 H1 H2 H3).
Defined.

Lemma detected_regions_sorted (Log10 : float -> float) (reference : AudioData)
    (others : list AudioData) (config : SilenceDetectionConfig)
    (fuel : nat) (res : DetectionResult) :
  0 < ChunkSizeMs config ->
  0 < SampleRate reference ->
  ChunkSizeMs config * SampleRate reference <= GoInt.max_int ->
  Slice.len (Samples reference) < 2 ^ 62 ->
  DetectCommonSilence Log10 fuel (reference :: others) config = Returned res ->
  StronglySorted precedes (CommonSilenceRegions res).
Proof.
  intros Hchunk Hrate Hprod Hlen Hres.
  pose proof (chunkFramesOf_bounds config reference Hchunk Hrate Hprod) as Hc.
  assert (Hmin : minFramesOf reference others + chunkFramesOf config reference
                 <= GoInt.max_int).
  { pose proof (minFramesOf_le reference others) as Hm.
    assert (Href : Slice.len (Samples reference) <= GoInt.max_int)
      by (unfold GoInt.max_int; lia).
    pose proof (GetFrameCount_le_len reference Href) as Hf.
    unfold GoInt.max_int. lia. }
  destruct (DetectCommonSilence_returned _ _ _ _ _ Hres)
    as (reference' & others' & cs & scanned & Heq & _ & Hscan & Hregions).
  injection Heq as <- <-.
  destruct (scan_invariant Log10 (reference :: others) config (SampleRate reference)
              (minFramesOf reference others) (chunkFramesOf config reference)
              ltac:(lia) Hmin fuel 0 (-1) [] cs scanned)
    as [frameStart' Hinv]; [|exact Hscan|].
  { split; [lia|]. split; [now left|]. split; constructor. }
  rewrite Hregions.
  apply (closeAtEnd_ordered config (SampleRate reference) (minFramesOf reference others)
           frameStart' cs scanned Hinv).
Qed.

(** A frame range below the frame count of a file lies inside its
    samples. *)
Lemma inside_of_frames (ad : AudioData) (r : SilenceRegion) (m : Z) :
  1 <= Channels ad -> Slice.len (Samples ad) <= GoInt.max_int ->
  0 <= StartFrame r <= EndFrame r -> EndFrame r <= m -> m <= GetFrameCount ad ->
  inside (Channels ad) (Slice.len (Samples ad)) r.
Proof.
  intros Hch Hmax Hse Hem Hm. split; [assumption|].
  rewrite GetFrameCount_div in Hm by assumption.
  pose proof (Z.mul_div_le (Slice.len (Samples ad)) (Channels ad) ltac:(lia)). nia.
Qed.

(** The excision of a file, given the run of the loop on a reference file
    of the same format. *)
Lemma cut_synced_with_reference (reference ad : AudioData)
    (regions : list SilenceRegion) (keepMs : Z) (stRef : cut_state) :
  SampleRate reference = SampleRate ad ->
  Channels reference = Channels ad ->
  1 <= Channels reference ->
  Slice.len (Samples reference) <= GoInt.max_int ->
  Slice.len (Samples ad) <= GoInt.max_int ->
  0 <= keepSamplesOf reference (keepDurationSecOf keepMs) ->
  Slice.len (Samples reference) + keepSamplesOf reference (keepDurationSecOf keepMs)
    <= GoInt.max_int ->
  StronglySorted precedes regions ->
  Forall (inside (Channels reference) (Slice.len (Samples reference))) regions ->
  Forall (inside (Channels reference) (Slice.len (Samples ad))) regions ->
  cutPass reference regions keepMs = Some stRef ->
  exists ad' res,
    CutSilenceRegions (Some ad) regions keepMs = Returned (ad', res)
    /\ RegionsCut res = regionsCut stRef
    /\ RemovedDuration res = totalRemovedDuration stRef
    /\ Slice.len (Samples ad) - Slice.len (Samples ad') = sumZ (cutTrace stRef).
Proof.
  intros Hsr Hch Hch1 Hmax1 Hmax2 Hkeep Hroom Hsorted Hin1 Hin2 Href.
  set (k := keepDurationSecOf keepMs) in *.
  set (st1 := {| modifiedSamples := Samples reference; regionsCut := [];
                 totalRemovedDuration := 0%float; cutTrace := [] |}).
  set (st2 := {| modifiedSamples := Samples ad; regionsCut := [];
                 totalRemovedDuration := 0%float; cutTrace := [] |}).
  rewrite cutPass_clone in Href. fold k in Href. fold st1 in Href.
  destruct (cutLoop_synced reference ad k (rev regions) Hsr Hch Hch1 Hkeep) with
    (st1 := st1) (st2 := st2) as (st1' & st2' & Hrun1 & Hrun2 & Hrc & Htot & Htr).
  - apply Forall_rev. eapply Forall_impl; [|exact Hin1].
    intros r [[Hs Hse] He]. cbn beta. nia.
  - now apply StronglySorted_rev.
  - exact Hmax1.
  - exact Hmax2.
  - now apply Forall_rev.
  - now apply Forall_rev.
  - repeat split.
  - assert (st1' = stRef) by congruence. subst st1'.
    destruct (cutLoop_length ad k (rev regions) st2 st2' Hmax2 Hrun2)
      as (t2 & Ht2 & _ & Hlen2).
    cbn [st2 cutTrace modifiedSamples] in Ht2, Hlen2. rewrite app_nil_r in Ht2.
    unfold CutSilenceRegions. rewrite cutPass_clone. fold k. fold st2. rewrite Hrun2.
    eexists _, _. split; [reflexivity|]. cbn [RegionsCut RemovedDuration Samples].
    split; [now symmetry|]. split; [now symmetry|].
    rewrite Hlen2, Htr, Ht2. lia.
Qed.

Lemma Forall2_impl_In {A B} (P Q : A -> B -> Prop) (l : list A) (l' : list B) :
  Forall2 P l l' -> (forall x y, In x l -> P x y -> Q x y) -> Forall2 Q l l'.
Proof.
  induction 1 as [|x y l l' Hxy _ IH]; intros HPQ; constructor.
  - apply HPQ; [now left|assumption].
  - apply IH. intros x' y' Hin. apply HPQ. now right.
Qed.

(** The loop over pointers to distinct objects: every call sees its object
    as it is in the initial store, the final store holds what each call
    left, and the objects that are not listed are not touched. *)
Lemma cutEach_distinct (Q : AudioData -> AudioData -> CuttingResult -> Prop)
    (addresses : list nat) (regions : list SilenceRegion) (keepMs : Z) :
  NoDup addresses ->
  forall objects,
    Forall (fun address =>
              exists mutated result,
                CutSilenceRegions (Some (objects address)) regions keepMs
                = Returned (mutated, result)
                /\ Q (objects address) mutated result)
           addresses ->
    exists objects' results,
      cutEach objects (map Some addresses) regions keepMs = Returned (objects', results)
      /\ Forall2 (fun address result => Q (objects address) (objects' address) result)
                 addresses results
      /\ forall other, ~ In other addresses -> objects' other = objects other.
Proof.
  induction 1 as [|address addresses Hnotin Hnodup IH]; intros objects Hall;
    cbn [map cutEach].
  - exists objects, []. split; [reflexivity|]. split; [constructor|reflexivity].
  - inversion Hall as [|? ? (mutated & result & Hcut & HQ) Hrest]; subst.
    cbn [load option_map]. rewrite Hcut. cbn [writeThrough].
    assert (Hother : forall other, In other addresses ->
                                   write objects address mutated other = objects other).
    { intros other Hin. unfold write.
      destruct (Nat.eqb_spec other address); [subst; contradiction|reflexivity]. }
    destruct (IH (write objects address mutated))
      as (objects' & results & Hrun & Hall' & Hframe).
    { apply Forall_forall. intros other Hin. rewrite (Hother other Hin).
      exact (proj1 (Forall_forall _ _) Hrest other Hin). }
    rewrite Hrun. exists objects', (result :: results).
    split; [reflexivity|]. split.
    + constructor.
      * rewrite (Hframe address Hnotin). unfold write. now rewrite Nat.eqb_refl.
      * apply (Forall2_impl_In _ _ _ _ Hall'). intros other r Hin Hq.
        now rewrite (Hother other Hin) in Hq.
    + intros other Hout. rewrite Hframe by (intros Hin; apply Hout; now right).
      unfold write.
      destruct (Nat.eqb_spec other address); [subst; exfalso; apply Hout; now left|].
      reflexivity.
Qed.

Lemma formatMismatch_false (reference : AudioData) (others : list AudioData) :
  formatMismatch reference others = false ->
  Forall (fun ad => SampleRate reference = SampleRate ad
                    /\ Channels reference = Channels ad) (reference :: others).
Proof.
  intros Hformat. constructor; [now split|].
  apply Forall_forall. intros ad Hin.
  destruct (Z.eq_dec (SampleRate ad) (SampleRate reference)) as [Hsr|Hsr];
    [destruct (Z.eq_dec (Channels ad) (Channels reference)) as [Hch|Hch]|].
  - now split.
  - assert (formatMismatch reference others = true)
      by (apply formatMismatch_spec; exists ad; auto).
    congruence.
  - assert (formatMismatch reference others = true)
      by (apply formatMismatch_spec; exists ad; auto).
    congruence.
Qed.

(** X10.  The regions that a detection returns can be cut from all the
    files it analysed, provided no file is listed twice (the pointers are
    distinct): [CutSilenceInMultipleFiles] returns, every file has the same
    regions cut, the same removed duration and the same number of samples
    removed, so that files of equal length stay of equal length, and no
    other object is written. *)
Theorem detection_then_excision_in_sync (Log10 : float -> float) (objects : store)
    (reference : nat) (others : list nat) (config : SilenceDetectionConfig)
    (fuel : nat) (res : DetectionResult) (keepMs : Z) :
  NoDup (reference :: others) ->
  0 < ChunkSizeMs config ->
  0 < SampleRate (objects reference) ->
  ChunkSizeMs config * SampleRate (objects reference) <= GoInt.max_int ->
  Forall (fun address => Slice.len (Samples (objects address)) < 2 ^ 62)
         (reference :: others) ->
  1 <= Channels (objects reference) ->
  0 <= keepSamplesOf (objects reference) (keepDurationSecOf keepMs) ->
  Slice.len (Samples (objects reference))
  + keepSamplesOf (objects reference) (keepDurationSecOf keepMs)
    <= GoInt.max_int ->
  DetectCommonSilence Log10 fuel (map objects (reference :: others)) config
  = Returned res ->
  exists objects' results cut removed n,
    CutSilenceInMultipleFiles objects (map Some (reference :: others))
                              (CommonSilenceRegions res) keepMs
    = Returned (objects', results)
    /\ Forall2 (fun address result =>
                  RegionsCut result = cut
                  /\ RemovedDuration result = removed
                  /\ Slice.len (Samples (objects address))
                     - Slice.len (Samples (objects' address)) = n)
               (reference :: others) results
    /\ forall other, ~ In other (reference :: others) -> objects' other = objects other.
Proof.
  intros Hnodup Hchunk Hrate Hprod Hlen Hch Hkeep Hroom Hres.
  cbn [map] in Hres.
  set (regions := CommonSilenceRegions res).
  set (k := keepDurationSecOf keepMs) in *.
  assert (Hlen' : Forall (fun address =>
                            Slice.len (Samples (objects address)) <= GoInt.max_int)
                         (reference :: others)).
  { eapply Forall_impl; [|exact Hlen]. unfold GoInt.max_int. cbn beta. intros a Ha. lia. }
  assert (Href : Slice.len (Samples (objects reference)) < 2 ^ 62) by now inversion Hlen.
  pose proof (detected_regions_sorted _ _ _ _ _ _ Hchunk Hrate Hprod Href Hres) as Hsorted.
  pose proof (detected_regions_are_runs _ _ _ _ _ _ Hchunk Hrate Hprod Href Hres) as Hruns.
  fold regions in Hsorted, Hruns.
  destruct (DetectCommonSilence_returned _ _ _ _ _ Hres)
    as (reference' & others' & cs & scanned & Heq & Hformat & _ & _).
  injection Heq as <- <-.
  pose proof (formatMismatch_false _ _ Hformat) as Hsame.
  pose proof (minFramesOf_le_each (objects reference) (map objects others)) as Hmin.
  assert (Hfile : forall address,
             In address (reference :: others) ->
             In (objects address) (objects reference :: map objects others)).
  { intros address Hin. exact (in_map objects (reference :: others) address Hin). }
  assert (Hinside : Forall (fun address =>
                              Forall (inside (Channels (objects reference))
                                             (Slice.len (Samples (objects address))))
                                     regions)
                           (reference :: others)).
  { apply Forall_forall. intros a Hin. apply Forall_forall. intros r Hr.
    destruct (proj1 (Forall_forall _ _) Hsame (objects a) (Hfile a Hin)) as [_ Hchad].
    rewrite Hchad.
    destruct (proj1 (Forall_forall _ _) Hruns r Hr) as (Hse & HeM & _).
    apply (inside_of_frames (objects a) r
             (minFramesOf (objects reference) (map objects others))); try lia.
    - exact (proj1 (Forall_forall _ _) Hlen' a Hin).
    - exact (proj1 (Forall_forall _ _) Hmin (objects a) (Hfile a Hin)). }
  assert (Hin_ref : Forall (inside (Channels (objects reference))
                                   (Slice.len (Samples (objects reference)))) regions)
    by now inversion Hinside.
  assert (Hmax_ref : Slice.len (Samples (objects reference)) <= GoInt.max_int)
    by now inversion Hlen'.
  destruct (cutLoop_synced (objects reference) (objects reference) k (rev regions)
              eq_refl eq_refl Hch Hkeep)
    with (st1 := {| modifiedSamples := Samples (objects reference); regionsCut := [];
                    totalRemovedDuration := 0%float; cutTrace := [] |})
         (st2 := {| modifiedSamples := Samples (objects reference); regionsCut := [];
                    totalRemovedDuration := 0%float; cutTrace := [] |})
    as (stRef & _ & HrunRef & _ & _);
    try assumption; try (now apply Forall_rev); try (now apply StronglySorted_rev);
    try (repeat split).
  { apply Forall_rev. eapply Forall_impl; [|exact Hin_ref].
    intros r [[Hs Hse] He]. cbn beta. nia. }
  assert (Hpass : cutPass (objects reference) regions keepMs = Some stRef)
    by (rewrite cutPass_clone; exact HrunRef).
  destruct (cutEach_distinct
              (fun ad mutated result =>
                 RegionsCut result = regionsCut stRef
                 /\ RemovedDuration result = totalRemovedDuration stRef
                 /\ Slice.len (Samples ad) - Slice.len (Samples mutated)
                    = sumZ (cutTrace stRef))
              (reference :: others) regions keepMs Hnodup objects)
    as (objects' & results & Hresults & Hall & Hframe).
  { apply Forall_forall. intros a Hin.
    destruct (proj1 (Forall_forall _ _) Hsame (objects a) (Hfile a Hin)) as [Hsr Hchad].
    destruct (cut_synced_with_reference (objects reference) (objects a) regions keepMs
                stRef Hsr Hchad Hch Hmax_ref (proj1 (Forall_forall _ _) Hlen' a Hin)
                Hkeep Hroom Hsorted)
      as (ad' & r & Hrun & H1 & H2 & H3).
    - exact Hin_ref.
    - exact (proj1 (Forall_forall _ _) Hinside a Hin).
    - exact Hpass.
    - exists ad', r. auto. }
  exists objects', results, (regionsCut stRef), (totalRemovedDuration stRef),
         (sumZ (cutTrace stRef)).
  split; [|split; [exact Hall|exact Hframe]].
  unfold CutSilenceInMultipleFiles. exact Hresults.
Qed.

Lemma detection_then_excision_in_sync_witness :
  (NoDup [0%nat; 1%nat]
   /\ 0 < ChunkSizeMs gapConfig
   /\ 0 < SampleRate (gapStore 0%nat)
   /\ ChunkSizeMs gapConfig * SampleRate (gapStore 0%nat) <= GoInt.max_int
   /\ Forall (fun address => Slice.len (Samples (gapStore address)) < 2 ^ 62)
             [0%nat; 1%nat]
   /\ 1 <= Channels (gapStore 0%nat)
   /\ 0 <= keepSamplesOf (gapStore 0%nat) (keepDurationSecOf 5)
   /\ Slice.len (Samples (gapStore 0%nat))
      + keepSamplesOf (gapStore 0%nat) (keepDurationSecOf 5)
      <= GoInt.max_int)
  /\ exists res,
       DetectCommonSilence flatLog10 4 (map gapStore [0%nat; 1%nat]) gapConfig
       = Returned res
       /\ CommonSilenceRegions res = [createSilenceRegion 10 30 1000]
       /\ exists objects' results cut removed n,
            CutSilenceInMultipleFiles gapStore (map Some [0%nat; 1%nat])
                                      (CommonSilenceRegions res) 5
            = Returned (objects', results)
            /\ Forall2 (fun address result =>
                          RegionsCut result = cut
                          /\ RemovedDuration result = removed
                          /\ Slice.len (Samples (gapStore address))
                             - Slice.len (Samples (objects' address)) = n)
                       [0%nat; 1%nat] results
            /\ forall other, ~ In other [0%nat; 1%nat] -> objects' other = gapStore other.
Proof.
  assert (H0 : NoDup [0%nat; 1%nat]).
  { constructor; [intros [H|[]]; discriminate|].
    constructor; [intros []|constructor]. }
  assert (H1 : 0 < ChunkSizeMs gapConfig) by (vm_compute; reflexivity).
  assert (H2 : 0 < SampleRate (gapStore 0%nat)) by (vm_compute; reflexivity).
  assert (H3 : ChunkSizeMs gapConfig * SampleRate (gapStore 0%nat) <= GoInt.max_int)
    by (vm_compute; discriminate).
  assert (H4 : Forall (fun address => Slice.len (Samples (gapStore address)) < 2 ^ 62)
                      [0%nat; 1%nat]) by (repeat constructor).
  assert (H5 : 1 <= Channels (gapStore 0%nat)) by (vm_compute; discriminate).
  assert (H6 : 0 <= keepSamplesOf (gapStore 0%nat) (keepDurationSecOf 5))
    by (vm_compute; discriminate).
  assert (H7 : Slice.len (Samples (gapStore 0%nat))
               + keepSamplesOf (gapStore 0%nat) (keepDurationSecOf 5)
               <= GoInt.max_int) by (vm_compute; discriminate).
  split; [repeat split; assumption|].
  destruct (DetectCommonSilence flatLog10 4 (map gapStore [0%nat; 1%nat]) gapConfig)
    as [res|msg| |] eqn:Hres; try (vm_compute in Hres; discriminate).
  exists res. split; [reflexivity|].
  split; [vm_compute in Hres; injection Hres as <-; reflexivity|].
  exact (detection_then_excision_in_sync flatLog10 gapStore 0%nat [1%nat] gapConfig
           4%nat res 5 H0 H1 H2 H3 H4 H5 H6 H7 Hres).
Defined.

(** What the condition on the pointers excludes: with the same pointer
    listed twice the second call cuts the buffer that the first call has
    already cut, so the file loses 14 and then 11 of its 40 samples, and
    the two results disagree. *)
Example shared_pointer_is_cut_twice :
  exists objects' first second,
    CutSilenceInMultipleFiles gapStore [Some 0%nat; Some 0%nat]
                              [createSilenceRegion 10 30 1000] 5
    = Returned (objects', [first; second])
    /\ Slice.len (Samples (gapStore 0%nat)) = 40
    /\ Slice.len (Samples (objects' 0%nat)) = 15
    /\ OriginalDuration second = NewDuration first
    /\ RemovedDuration first <> RemovedDuration second.
Proof.
  destruct (CutSilenceInMultipleFiles gapStore [Some 0%nat; Some 0%nat]
              [createSilenceRegion 10 30 1000] 5)
    as [[objects' results]|msg| |] eqn:Hrun; try (vm_compute in Hrun; discriminate).
  destruct results as [|first [|second [|third results]]];
    try (vm_compute in Hrun; discriminate).
  exists objects', first, second. split; [reflexivity|].
  vm_compute in Hrun. injection Hrun as <- <- <-.
  repeat split; try reflexivity. vm_compute. discriminate.
Qed.

(** * The compatibility check *)

(** What [ValidateAudioFiles] requires of a file against the first one. *)
Lemma validateAgainst_accepts (reference : AudioData) (others : list AudioData) :
  validateAgainst reference others = None
  <-> Forall (fun ad =>
                SampleRate ad = SampleRate reference
                /\ Channels ad = Channels reference
                /\ (1 <? (let d := (audio.Duration ad - audio.Duration reference)%float in
                          if (d <? 0)%float then (- d)%float else d))%float = false)
             others.
Proof.
  induction others as [|ad others IH]; cbn [validateAgainst].
  - split; [constructor|reflexivity].
  - destruct (Z.eqb_spec (SampleRate ad) (SampleRate reference)) as [Hsr|Hsr]; cbn [negb].
    2:{ split; [discriminate|]. intros H. inversion H as [|? ? (Hsr' & _) _]. contradiction. }
    destruct (Z.eqb_spec (Channels ad) (Channels reference)) as [Hch|Hch]; cbn [negb].
    2:{ split; [discriminate|].
        intros H. inversion H as [|? ? (_ & Hch' & _) _]. contradiction. }
    cbv zeta.
    destruct (1 <? _)%float eqn:Hd.
    + split; [discriminate|].
      intros H. inversion H as [|? ? (_ & _ & Hd') _]. cbv zeta in Hd'. congruence.
    + rewrite IH. split.
      * intros H. constructor; [|assumption]. repeat split; assumption.
      * intros H. now inversion H.
Qed.

(** X11.  [ValidateAudioFiles] accepts a list exactly when it is not empty
    and every file after the first has the sample rate and the channel
    count of the first and a duration that is not more than one second away
    from the first one's. *)
Theorem validation_accepts_exactly (files : list AudioData) :
  ValidateAudioFiles files = None
  <-> exists reference others,
        files = reference :: others
        /\ Forall (fun ad =>
                     SampleRate ad = SampleRate reference
                     /\ Channels ad = Channels reference
                     /\ (1 <? (let d := (audio.Duration ad - audio.Duration reference)%float in
                               if (d <? 0)%float then (- d)%float else d))%float = false)
                  others.
Proof.
  unfold ValidateAudioFiles. destruct files as [|reference others].
  - split; [discriminate|]. intros (? & ? & H & _). discriminate.
  - rewrite validateAgainst_accepts. split.
    + intros H. now exists reference, others.
    + intros (reference' & others' & [= <- <-] & H). exact H.
Qed.

(** X12.  Files accepted by [ValidateAudioFiles] pass the format check of
    [DetectCommonSilence]: for no configuration and no iteration budget
    does the detection return an error. *)
Theorem validated_files_pass_detection_check (Log10 : float -> float)
    (files : list AudioData) (config : SilenceDetectionConfig) (fuel : nat) (msg : string) :
  ValidateAudioFiles files = None ->
  DetectCommonSilence Log10 fuel files config <> Failed msg.
Proof.
  intros Hvalid Hfail.
  unfold ValidateAudioFiles in Hvalid. destruct files as [|reference others]; [discriminate|].
  apply validateAgainst_accepts in Hvalid.
  assert (Hformat : formatMismatch reference others = false).
  { destruct (formatMismatch reference others) eqn:Hm; [|reflexivity]. exfalso.
    apply formatMismatch_spec in Hm. destruct Hm as (ad & Hin & Hdiff).
    rewrite Forall_forall in Hvalid. destruct (Hvalid ad Hin) as (Hsr & Hch & _).
    destruct Hdiff; contradiction. }
  revert Hfail. unfold DetectCommonSilence. rewrite Hformat.
  assert (Hscan : forall f fs cs rs msg',
             scan Log10 f (reference :: others) config (SampleRate reference)
                  (minFramesOf reference others) (chunkFramesOf config reference)
                  fs cs rs <> Failed msg').
  { induction f as [|f IH]; intros fs cs rs msg'; cbn [scan];
      destruct (fs <? minFramesOf reference others); try discriminate.
    destruct (isCommonSilence _ _ _ _ _) as [[|]|]; try discriminate; [apply IH|].
    destruct (negb (cs =? -1)); apply IH. }
  destruct (scan _ _ _ _ _ _ _ _ _ _) as [[cs rs]|msg'| |] eqn:Hs; try discriminate.
  now apply Hscan in Hs.
Qed.

Lemma validated_files_pass_detection_check_witness :
  ValidateAudioFiles gapTracks = None
  /\ DetectCommonSilence flatLog10 4 gapTracks gapConfig
     <> Failed "all audio files must have the same sample rate and channel count".
Proof.
  assert (H : ValidateAudioFiles gapTracks = None) by (vm_compute; reflexivity).
  split; [exact H|].
  exact (validated_files_pass_detection_check flatLog10 gapTracks gapConfig 4 _ H).
Defined.

(** * Frame count and true peak *)

(** X13.  With at least one channel, [GetFrameCount] is the number of
    complete frames: the frames counted fit in the samples and one more
    frame would not; without channels it is zero. *)
Theorem frame_count_is_complete_frames (ad : AudioData) :
  Slice.len (Samples ad) <= GoInt.max_int ->
  (Channels ad = 0 -> GetFrameCount ad = 0)
  /\ (1 <= Channels ad ->
      0 <= GetFrameCount ad
      /\ GetFrameCount ad * Channels ad <= Slice.len (Samples ad)
         < (GetFrameCount ad + 1) * Channels ad).
Proof.
  intros Hmax. split.
  - intros Hz. unfold GetFrameCount. now rewrite Hz.
  - intros Hch. rewrite GetFrameCount_div by assumption.
    pose proof (len_nonneg (Samples ad)) as Hn.
    pose proof (Z.div_pos (Slice.len (Samples ad)) (Channels ad) Hn ltac:(lia)).
    pose proof (Z.mul_div_le (Slice.len (Samples ad)) (Channels ad) ltac:(lia)).
    pose proof (Z.mul_succ_div_gt (Slice.len (Samples ad)) (Channels ad) ltac:(lia)).
    nia.
Qed.

Lemma frame_count_is_complete_frames_witness :
  Slice.len (Samples (buffer (ramp 7) 1000 2 16)) <= GoInt.max_int
  /\ (Channels (buffer (ramp 7) 1000 2 16) = 0 -> GetFrameCount (buffer (ramp 7) 1000 2 16) = 0)
  /\ (1 <= Channels (buffer (ramp 7) 1000 2 16) ->
      0 <= GetFrameCount (buffer (ramp 7) 1000 2 16)
      /\ GetFrameCount (buffer (ramp 7) 1000 2 16) * Channels (buffer (ramp 7) 1000 2 16)
         <= Slice.len (Samples (buffer (ramp 7) 1000 2 16))
         < (GetFrameCount (buffer (ramp 7) 1000 2 16) + 1)
           * Channels (buffer (ramp 7) 1000 2 16)).
Proof.
  assert (H : Slice.len (Samples (buffer (ramp 7) 1000 2 16)) <= GoInt.max_int)
    by (vm_compute; discriminate).
  split; [exact H|].
  exact (frame_count_is_complete_frames (buffer (ramp 7) 1000 2 16) H).
Defined.

Lemma maxAbsStep_spec (acc s : Z) :
  acc <= loudness.maxAbsStep acc s
  /\ (GoInt32.min_int32 < s <= GoInt32.max_int32 -> Z.abs s <= loudness.maxAbsStep acc s)
  /\ (s = GoInt32.min_int32 \/ s = 0 -> 0 <= acc -> loudness.maxAbsStep acc s = acc).
Proof.
  unfold loudness.maxAbsStep, GoInt32.neg, GoInt32.wrap32,
    GoInt32.min_int32, GoInt32.max_int32.
  split; [|split].
  - match goal with |- context [?a >? ?b] => destruct (Z.gtb_spec a b) end; lia.
  - intros Hs. destruct (Z.ltb_spec s 0).
    + rewrite Z.mod_small by lia.
      match goal with |- context [?a >? ?b] => destruct (Z.gtb_spec a b) end; lia.
    + match goal with |- context [?a >? ?b] => destruct (Z.gtb_spec a b) end; lia.
  - intros [-> | ->] Hacc.
    + change (- 2 ^ 31 <? 0) with true. cbn iota.
      change ((- - 2 ^ 31 + 2 ^ 31) mod 2 ^ 32 - 2 ^ 31) with (- 2 ^ 31).
      destruct (Z.gtb_spec (- 2 ^ 31) acc); lia.
    + change (0 <? 0) with false. cbn iota. destruct (Z.gtb_spec 0 acc); lia.
Qed.

Lemma maxAbs_fold (samples : list Z) :
  forall acc,
    acc <= fold_left loudness.maxAbsStep samples acc
    /\ forall s, In s samples -> GoInt32.min_int32 < s <= GoInt32.max_int32 ->
                 Z.abs s <= fold_left loudness.maxAbsStep samples acc.
Proof.
  induction samples as [|x samples IH]; intros acc; cbn [fold_left].
  - split; [lia|intros s []].
  - destruct (IH (loudness.maxAbsStep acc x)) as [Hmono Hall].
    destruct (maxAbsStep_spec acc x) as (Hstep & Hx & _).
    split; [lia|]. intros s [<-|Hin] Hs; [|now apply Hall].
    specialize (Hx Hs). lia.
Qed.

(** X14.  The true peak never exceeds full scale [1.0]; the largest
    magnitude found by its scan is not negative and bounds the magnitude of
    every sample other than the most negative [int32]. *)
Theorem true_peak_bounds (samples : list Z) (bitDepth : Z) :
  (1 <? loudness.calculateTruePeakWithBitDepth samples bitDepth)%float = false
  /\ 0 <= loudness.maxAbsSampleOf samples
  /\ forall s, In s samples -> GoInt32.min_int32 < s <= GoInt32.max_int32 ->
               Z.abs s <= loudness.maxAbsSampleOf samples.
Proof.
  split; [|exact (maxAbs_fold samples 0)].
  unfold loudness.calculateTruePeakWithBitDepth.
  destruct (Slice.len samples =? 0); [reflexivity|]. cbv zeta.
  set (peak := (GoFloat.of_int (loudness.maxAbsSampleOf samples)
                / loudness.peakMaxValue bitDepth)%float).
  destruct (1 <? peak)%float eqn:Hpeak; [reflexivity|exact Hpeak].
Qed.

(** X15.  The most negative [int32] is invisible to the peak scan, because
    its negation wraps around to itself: a buffer made of such samples and
    zeroes has a true peak of [0]. *)
Theorem true_peak_ignores_min_int32 (samples : list Z) (bitDepth : Z) :
  Forall (fun s => s = GoInt32.min_int32 \/ s = 0) samples ->
  loudness.maxAbsSampleOf samples = 0
  /\ loudness.calculateTruePeakWithBitDepth samples bitDepth = 0%float.
Proof.
  intros Hall.
  assert (Hmax : loudness.maxAbsSampleOf samples = 0).
  { unfold loudness.maxAbsSampleOf.
    induction Hall as [|s samples Hs Hall IH]; cbn [fold_left]; [reflexivity|].
    destruct (maxAbsStep_spec 0 s) as (_ & _ & Hkeep).
    rewrite Hkeep by (assumption || lia). exact IH. }
  split; [exact Hmax|].
  unfold loudness.calculateTruePeakWithBitDepth. rewrite Hmax.
  destruct (Slice.len samples =? 0); [reflexivity|].
  unfold loudness.peakMaxValue.
  destruct (bitDepth =? 16); [reflexivity|].
  destruct (bitDepth =? 24); [reflexivity|].
  destruct (bitDepth =? 32); reflexivity.
Qed.

Lemma true_peak_ignores_min_int32_witness :
  Forall (fun s => s = GoInt32.min_int32 \/ s = 0) [-2147483648; 0; -2147483648]
  /\ loudness.maxAbsSampleOf [-2147483648; 0; -2147483648] = 0
  /\ loudness.calculateTruePeakWithBitDepth [-2147483648; 0; -2147483648] 32 = 0%float.
Proof.
  assert (H : Forall (fun s => s = GoInt32.min_int32 \/ s = 0)
                     [-2147483648; 0; -2147483648]).
  { repeat constructor; (now left) || (now right). }
  split; [exact H|].
  exact (true_peak_ignores_min_int32 [-2147483648; 0; -2147483648] 32 H).
Defined.

(** * Gain application *)

Lemma digits2_bound (m : positive) : Z.pos m < 2 ^ Z.pos (digits2_pos m).
Proof.
  induction m as [m IH|m IH|]; cbn [digits2_pos];
    rewrite ?Pos2Z.inj_succ, ?Z.pow_succ_r by lia; lia.
Qed.

Lemma valid_mantissa (s : bool) (m : positive) (e : Z) :
  valid_binary (S754_finite s m e) = true -> Z.pos m < 2 ^ 53.
Proof.
  unfold SpecFloat.valid_binary, bounded, canonical_mantissa, fexp, emin, prec, emax.
  intros H. apply andb_prop in H as [H _]. apply Z.eqb_eq in H.
  pose proof (digits2_bound m) as Hd.
  assert (Hle : Z.pos (digits2_pos m) <= 53) by lia.
  eapply Z.lt_le_trans; [exact Hd|]. apply Z.pow_le_mono_r; lia.
Qed.

Lemma magnitude_le (m mB : positive) (e eB B : Z) :
  Z.pos m < 2 ^ 53 -> encodes mB eB B ->
  e < eB \/ (e = eB /\ Z.pos m <= Z.pos mB) ->
  0 <= magnitude m e <= B.
Proof.
  intros Hm (Hnorm & HeB & Henc) Hcmp.
  assert (Hpow : 0 < 2 ^ (- eB)) by (apply Z.pow_pos_nonneg; lia).
  assert (HB : 0 < B) by nia.
  unfold magnitude. destruct (Z.leb_spec 0 e) as [He|He].
  - assert (e = 0) by lia. subst e. assert (eB = 0) by lia. subst eB.
    cbn in *. lia.
  - assert (Hpe : 0 < 2 ^ (- e)) by (apply Z.pow_pos_nonneg; lia).
    split; [apply Z.div_pos; lia|].
    apply Z.div_le_upper_bound; [assumption|].
    destruct Hcmp as [Hlt|[-> Hle]]; [|lia].
    replace (- e) with (- eB + (eB - e)) by lia.
    rewrite Z.pow_add_r by lia.
    assert (H2 : 2 ^ 1 <= 2 ^ (eB - e)) by (apply Z.pow_le_mono_r; lia).
    change (2 ^ 1) with 2 in H2. change (2 ^ 53) with (2 * 2 ^ 52) in Hm. nia.
Qed.

(** A float that is neither above [BU] nor below [-BL] nor a NaN has an
    integer part between [-BL] and [BU]. *)
Lemma SF_between (x : spec_float) (mU mL : positive) (eU eL BU BL : Z) :
  valid_binary x = true -> x <> S754_nan ->
  encodes mU eU BU -> encodes mL eL BL ->
  SFltb (S754_finite false mU eU) x = false ->
  SFltb x (S754_finite true mL eL) = false ->
  exists z,
    match x with
    | S754_zero _ => Some 0
    | S754_finite s m e => Some (if s then - magnitude m e else magnitude m e)
    | S754_infinity _ | S754_nan => None
    end = Some z
    /\ - BL <= z <= BU.
Proof.
  intros Hvalid Hnan HU HL Hup Hlow.
  assert (HBU : 0 < BU).
  { destruct HU as (? & ? & ?).
    assert (0 < 2 ^ (- eU)) by (apply Z.pow_pos_nonneg; lia). nia. }
  assert (HBL : 0 < BL).
  { destruct HL as (? & ? & ?).
    assert (0 < 2 ^ (- eL)) by (apply Z.pow_pos_nonneg; lia). nia. }
  destruct x as [s|s| |s m e].
  - exists 0. split; [reflexivity|lia].
  - destruct s; cbn in Hup, Hlow; discriminate.
  - contradiction.
  - pose proof (valid_mantissa s m e Hvalid) as Hm.
    destruct s.
    + (* negative *)
      assert (Hcmp : e < eL \/ (e = eL /\ Z.pos m <= Z.pos mL)).
      { revert Hlow. unfold SFltb, SFcompare.
        destruct (Z.compare_spec e eL) as [Heq|Hlt|Hgt]; [|now left|discriminate].
        change (Pos.compare_cont Eq m mL) with (m ?= mL)%positive.
        destruct (Pos.compare_spec m mL) as [Hm'|Hm'|Hm']; cbn; intros Hc;
          try discriminate; right; (split; [assumption|]); lia. }
      destruct (magnitude_le m mL e eL BL Hm HL Hcmp).
      eexists. split; [reflexivity|]. lia.
    + (* positive *)
      assert (Hcmp : e < eU \/ (e = eU /\ Z.pos m <= Z.pos mU)).
      { revert Hup. unfold SFltb, SFcompare.
        destruct (Z.compare_spec eU e) as [Heq|Hlt|Hgt]; [|discriminate|left; lia].
        change (Pos.compare_cont Eq mU m) with (mU ?= m)%positive.
        destruct (Pos.compare_spec mU m) as [Hm'|Hm'|Hm']; cbn; intros Hc;
          try discriminate; right; (split; [now symmetry|]); lia. }
      destruct (magnitude_le m mU e eU BU Hm HU Hcmp).
      eexists. split; [reflexivity|]. lia.
Qed.

Lemma trunc_between (f lo hi : float) (mU mL : positive) (eU eL BU BL : Z) :
  Prim2SF hi = S754_finite false mU eU -> Prim2SF lo = S754_finite true mL eL ->
  encodes mU eU BU -> encodes mL eL BL ->
  (f =? f)%float = true -> (hi <? f)%float = false -> (f <? lo)%float = false ->
  exists z, GoFloat.trunc f = Some z /\ - BL <= z <= BU.
Proof.
  intros Hhi Hlo HU HL Hnan Hup Hlow.
  rewrite ltb_spec in Hup, Hlow. rewrite Hhi in Hup. rewrite Hlo in Hlow.
  rewrite FloatAxioms.eqb_spec in Hnan.
  assert (Hx : Prim2SF f <> S754_nan).
  { intros Hx. rewrite Hx in Hnan. discriminate. }
  destruct (SF_between (Prim2SF f) mU mL eU eL BU BL (Prim2SF_valid f) Hx HU HL Hup Hlow)
    as (z & Hz & Hrange).
  exists z. split; [|assumption].
  unfold GoFloat.trunc. destruct (Prim2SF f); exact Hz.
Qed.

(** One sample under [ApplyGain], for the three sample ranges of the
    [switch]: unless the product is a NaN, the new value is in range. *)
Lemma applyGainSample_range (maxValue : Z) (gain : float) (sample : Z) :
  maxValue = 32767 \/ maxValue = 8388607 \/ maxValue = 2147483647 ->
  (GoFloat.of_int sample * gain =? GoFloat.of_int sample * gain)%float = true ->
  - maxValue - 1 <= applyGainSample maxValue gain sample <= maxValue.
Proof.
  intros HM Hnan. unfold applyGainSample.
  assert (Hmin : GoInt32.wrap32 (GoInt32.neg maxValue - 1) = - maxValue - 1)
    by (destruct HM as [-> | [-> | ->]]; reflexivity).
  rewrite Hmin.
  set (newSample := (GoFloat.of_int sample * gain)%float) in *.
  destruct (GoFloat.of_int maxValue <? newSample)%float eqn:Hup; [lia|].
  destruct (newSample <? GoFloat.of_int (- maxValue - 1))%float eqn:Hlow; [lia|].
  assert (Hz : exists z, GoFloat.trunc newSample = Some z /\ - (maxValue + 1) <= z <= maxValue).
  { destruct HM as [-> | [-> | ->]].
    - apply (trunc_between newSample (GoFloat.of_int (- 32767 - 1)) (GoFloat.of_int 32767)
               9006924376834048 4503599627370496 (-38) (-37));
        try assumption; try (vm_compute; reflexivity);
        (split; [|split]); vm_compute; try reflexivity; discriminate.
    - apply (trunc_between newSample (GoFloat.of_int (- 8388607 - 1))
               (GoFloat.of_int 8388607)
               9007198180999168 4503599627370496 (-30) (-29));
        try assumption; try (vm_compute; reflexivity);
        (split; [|split]); vm_compute; try reflexivity; discriminate.
    - apply (trunc_between newSample (GoFloat.of_int (- 2147483647 - 1))
               (GoFloat.of_int 2147483647)
               9007199250546688 4503599627370496 (-22) (-21));
        try assumption; try (vm_compute; reflexivity);
        (split; [|split]); vm_compute; try reflexivity; discriminate. }
  destruct Hz as (z & Hz & Hrange).
  unfold GoInt32.of_float. rewrite Hz.
  assert (Hfit : (GoInt32.min_int32 <=? z) && (z <=? GoInt32.max_int32) = true).
  { apply andb_true_intro.
    unfold GoInt32.min_int32, GoInt32.max_int32.
    split; apply Z.leb_le; destruct HM as [-> | [-> | ->]]; lia. }
  rewrite Hfit. lia.
Qed.

(** X16.  [ApplyGain] never leaves a sample outside the range of the
    buffer's bit depth.  Whatever the gain (negative, huge or infinite
    included), as long as no product [float64(sample) * gain] is a NaN, the
    buffer keeps its length and every sample of the result lies in
    [[-maxValue - 1, maxValue]], where [maxValue] is 2^15 - 1, 2^23 - 1 or
    2^31 - 1 for a bit depth of 16, 24 or 32 and 2^15 - 1 for any other bit
    depth: products beyond the range are clamped to its ends and the others
    are truncated toward zero. *)
Theorem gain_keeps_samples_in_range (ad : AudioData) (gain : float) :
  Forall (fun sample => is_nan (GoFloat.of_int sample * gain) = false)
         (Samples ad) ->
  let result := ApplyGain ad gain in
  Slice.len (Samples result) = Slice.len (Samples ad) /\
  Forall (fun sample =>
            - gainMaxValue (BitDepth ad) - 1 <= sample
            <= gainMaxValue (BitDepth ad))
         (Samples result).
Proof.
  intros Hnan. cbn [ApplyGain Samples]. split.
  - unfold Slice.len. now rewrite length_map.
  - apply Forall_map. apply (Forall_impl _ (P := fun sample =>
      is_nan (GoFloat.of_int sample * gain) = false)); [|exact Hnan].
    intros sample Hs. apply applyGainSample_range.
    + unfold gainMaxValue.
      destruct (BitDepth ad =? 16); [now left|].
      destruct (BitDepth ad =? 24); [now right; left|].
      destruct (BitDepth ad =? 32); [now right; right|now left].
    + unfold is_nan in Hs. now apply negb_false_iff in Hs.
Qed.

Lemma gain_keeps_samples_in_range_witness :
  let ad := buffer [1000; -20000; 30000; 0] 1000 1 16 in
  Samples (ApplyGain ad 2%float) = [2000; -32768; 32767; 0] /\
  Slice.len (Samples (ApplyGain ad 2%float)) = 4 /\
  Forall (fun sample => - 32767 - 1 <= sample <= 32767)
         (Samples (ApplyGain ad 2%float)).
Proof.
  intros ad. split; [vm_compute; reflexivity|].
  apply (gain_keeps_samples_in_range ad 2%float).
  repeat constructor.
Defined.
